(** * Liuyao divination engine: a shallow embedding and its verified properties

    The development follows the TypeScript sources under [src/lib/liuyao]:
    [constants.ts], [ganzhi.ts], [hexagram.ts], [najia.ts], [liushen.ts],
    [prosperity.ts], [relations.ts], [yongshen.ts], [interpretation.ts] and
    [engine.ts].

    Conventions of the embedding.
    - String unions of the source ([TianGan], [DiZhi], [WuXing], ...) are
      inductive types; the constructors are the pinyin of the characters.
    - [Record<K, V>] tables over such a union are total functions; objects
      keyed by arbitrary strings ([GUA_64_DATA], [DI_ZHI_SAN_HE],
      [YONG_SHEN_RULES]) are association lists in literal order.
    - JavaScript numbers that are integers in the source are [Z]; [%] is the
      truncated remainder [Z.rem]; the strength score, which moves in steps
      of one half, is a rational [Q].
    - A function that can [throw] returns a [completion].
    - The narrative fields of the reports (texts, descriptions, reasoning
      details) carry no information used by any decision in the pipeline
      and are left out of the records; every field that is read by a
      branch of the code is kept. *)

From Stdlib Require Import ZArith List String Ascii Bool Lia QArith Qminmax Sorted.
Import ListNotations.

Local Open Scope string_scope.
Local Open Scope list_scope.
Local Open Scope Z_scope.

(** ** JavaScript preliminaries *)

(** The errors that the modelled code can raise. *)
Inductive Exn : Type :=
| Error (msg : string)          (* [throw new Error(msg)] *)
| TypeError                     (* property access on undefined / null, call of a non-function *)
| SyntaxError                   (* [JSON.parse] *)
| InvalidCharacterError.        (* [atob] *)

Inductive completion (A : Type) : Type :=
| Normal (a : A)
| Throw (e : Exn).
Arguments Normal {A} a.
Arguments Throw {A} e.

Definition bind {A B : Type} (c : completion A) (k : A -> completion B) : completion B :=
  match c with
  | Normal a => k a
  | Throw e => Throw e
  end.

Declare Scope js_scope.
Notation "x <- c1 ;; c2" := (bind c1 (fun x => c2))
  (at level 61, c1 at next level, right associativity) : js_scope.
Delimit Scope js_scope with js.
Local Open Scope js_scope.

(** [try { body } catch { return v }]. *)
Definition try_catch {A : Type} (body : completion A) (handler : A) : completion A :=
  match body with
  | Normal a => Normal a
  | Throw _ => Normal handler
  end.

(** The [%] operator on integers: the sign follows the dividend. *)
Definition jsmod (a b : Z) : Z := Z.rem a b.

(** [arr[i]] for an index that the caller keeps inside the array; the
    default stands for [undefined] and is shown unreachable where used. *)
Definition arr_get {A : Type} (d : A) (l : list A) (i : Z) : A :=
  if i <? 0 then d else nth (Z.to_nat i) l d.

(** [arr[i]] where the code may index outside the array. *)
Definition arr_at {A : Type} (l : list A) (i : Z) : option A :=
  if i <? 0 then None else nth_error l (Z.to_nat i).

(** [Array.prototype.indexOf], with [-1] for an absent element. *)
Fixpoint indexOf_from {A : Type} (eqb : A -> A -> bool) (x : A) (l : list A) (i : Z) : Z :=
  match l with
  | [] => -1
  | y :: l' => if eqb y x then i else indexOf_from eqb x l' (i + 1)
  end.

Definition indexOf {A : Type} (eqb : A -> A -> bool) (l : list A) (x : A) : Z :=
  indexOf_from eqb x l 0.

(** [Array.prototype.find]. *)
Definition find_first {A : Type} (p : A -> bool) (l : list A) : option A := find p l.

(** [arr.map((x, i) => f x i)], the index starting at [i0]. *)
Fixpoint mapi_from {A B : Type} (f : A -> Z -> B) (l : list A) (i0 : Z) : list B :=
  match l with
  | [] => []
  | x :: l' => f x i0 :: mapi_from f l' (i0 + 1)
  end.

Definition mapi {A B : Type} (f : A -> Z -> B) (l : list A) : list B := mapi_from f l 0.

(** [arr.slice(a, b)] for [0 <= a <= b]. *)
Definition slice {A : Type} (a b : nat) (l : list A) : list A := firstn (b - a) (skipn a l).

(** [chars.join('')] for an array of one-character strings. *)
Definition join_chars (cs : list ascii) : string := string_of_list_ascii cs.

(** [s.split('')] for a string of one-byte characters. *)
Definition split_chars (s : string) : list ascii := list_ascii_of_string s.

(** ** constants.ts : stems, branches, elements *)

(** 甲 乙 丙 丁 戊 己 庚 辛 壬 癸 *)
Inductive TianGan : Type :=
| gJia | gYi | gBing | gDing | gWu | gJi | gGeng | gXin | gRen | gGui.

(** 子 丑 寅 卯 辰 巳 午 未 申 酉 戌 亥 *)
Inductive DiZhi : Type :=
| zZi | zChou | zYin | zMao | zChen | zSi | zWu | zWei | zShen | zYou | zXu | zHai.

(** 金 木 水 火 土 *)
Inductive WuXing : Type := Jin | Mu | Shui | Huo | Tu.

(** 阴 阳 *)
Inductive YinYang : Type := Yin | Yang.

(** 乾 兑 离 震 巽 坎 艮 坤 *)
Inductive BaGua : Type := Qian | Dui | Li | Zhen | Xun | Kan | Gen | Kun.

(** 父母 兄弟 子孙 妻财 官鬼 *)
Inductive LiuQin : Type := FuMu | XiongDi | ZiSun | QiCai | GuanGui.

(** 青龙 朱雀 勾陈 螣蛇 白虎 玄武 *)
Inductive LiuShen : Type := QingLong | ZhuQue | GouChen | TengShe | BaiHu | XuanWu.

(** 旺 相 休 囚 死 *)
Inductive ProsperityState : Type := Wang | Xiang | Xiu | Qiu | SiState.

Definition TianGan_eqb (a b : TianGan) : bool :=
  match a, b with
  | gJia, gJia | gYi, gYi | gBing, gBing | gDing, gDing | gWu, gWu
  | gJi, gJi | gGeng, gGeng | gXin, gXin | gRen, gRen | gGui, gGui => true
  | _, _ => false
  end.

Definition DiZhi_eqb (a b : DiZhi) : bool :=
  match a, b with
  | zZi, zZi | zChou, zChou | zYin, zYin | zMao, zMao | zChen, zChen | zSi, zSi
  | zWu, zWu | zWei, zWei | zShen, zShen | zYou, zYou | zXu, zXu | zHai, zHai => true
  | _, _ => false
  end.

Definition WuXing_eqb (a b : WuXing) : bool :=
  match a, b with
  | Jin, Jin | Mu, Mu | Shui, Shui | Huo, Huo | Tu, Tu => true
  | _, _ => false
  end.

Definition YinYang_eqb (a b : YinYang) : bool :=
  match a, b with
  | Yin, Yin | Yang, Yang => true
  | _, _ => false
  end.

Definition LiuQin_eqb (a b : LiuQin) : bool :=
  match a, b with
  | FuMu, FuMu | XiongDi, XiongDi | ZiSun, ZiSun | QiCai, QiCai | GuanGui, GuanGui => true
  | _, _ => false
  end.

Definition LiuShen_eqb (a b : LiuShen) : bool :=
  match a, b with
  | QingLong, QingLong | ZhuQue, ZhuQue | GouChen, GouChen
  | TengShe, TengShe | BaiHu, BaiHu | XuanWu, XuanWu => true
  | _, _ => false
  end.

Definition TIAN_GAN : list TianGan :=
  [gJia; gYi; gBing; gDing; gWu; gJi; gGeng; gXin; gRen; gGui].

Definition DI_ZHI : list DiZhi :=
  [zZi; zChou; zYin; zMao; zChen; zSi; zWu; zWei; zShen; zYou; zXu; zHai].

Definition DI_ZHI_WU_XING (z : DiZhi) : WuXing :=
  match z with
  | zZi => Shui | zChou => Tu | zYin => Mu | zMao => Mu
  | zChen => Tu | zSi => Huo | zWu => Huo | zWei => Tu
  | zShen => Jin | zYou => Jin | zXu => Tu | zHai => Shui
  end.

(** 木→火→土→金→水→木 *)
Definition WU_XING_SHENG (w : WuXing) : WuXing :=
  match w with Mu => Huo | Huo => Tu | Tu => Jin | Jin => Shui | Shui => Mu end.

(** 木→土→水→火→金→木 *)
Definition WU_XING_KE (w : WuXing) : WuXing :=
  match w with Mu => Tu | Tu => Shui | Shui => Huo | Huo => Jin | Jin => Mu end.

Definition WU_XING_BEI_SHENG (w : WuXing) : WuXing :=
  match w with Mu => Shui | Huo => Mu | Tu => Huo | Jin => Tu | Shui => Jin end.

Definition WU_XING_BEI_KE (w : WuXing) : WuXing :=
  match w with Mu => Jin | Huo => Shui | Tu => Mu | Jin => Huo | Shui => Tu end.

Definition DI_ZHI_CHONG (z : DiZhi) : DiZhi :=
  match z with
  | zZi => zWu | zChou => zWei | zYin => zShen | zMao => zYou
  | zChen => zXu | zSi => zHai | zWu => zZi | zWei => zChou
  | zShen => zYin | zYou => zMao | zXu => zChen | zHai => zSi
  end.

Definition DI_ZHI_HE (z : DiZhi) : DiZhi :=
  match z with
  | zZi => zChou | zChou => zZi | zYin => zHai | zMao => zXu
  | zChen => zYou | zSi => zShen | zWu => zWei | zWei => zWu
  | zShen => zSi | zYou => zChen | zXu => zMao | zHai => zYin
  end.

(** Keys in literal order: 申子辰, 寅午戌, 巳酉丑, 亥卯未. *)
Definition DI_ZHI_SAN_HE : list (list DiZhi * WuXing) :=
  [ ([zShen; zZi; zChen], Shui);
    ([zYin; zWu; zXu], Huo);
    ([zSi; zYou; zChou], Jin);
    ([zHai; zMao; zWei], Mu) ].

Definition DI_ZHI_HAI (z : DiZhi) : DiZhi :=
  match z with
  | zZi => zWei | zChou => zWu | zYin => zSi | zMao => zChen
  | zChen => zMao | zSi => zYin | zWu => zChou | zWei => zZi
  | zShen => zHai | zYou => zXu | zXu => zYou | zHai => zShen
  end.

Definition DI_ZHI_XING (z : DiZhi) : list DiZhi :=
  match z with
  | zZi => [zMao] | zMao => [zZi]
  | zYin => [zSi; zShen] | zSi => [zYin; zShen] | zShen => [zYin; zSi]
  | zChou => [zXu; zWei] | zXu => [zChou; zWei] | zWei => [zChou; zXu]
  | zChen => [zChen] | zWu => [zWu] | zYou => [zYou] | zHai => [zHai]
  end.

(** ** constants.ts : trigrams *)

Module BaGuaInfo.
Record t : Type := mk {
  name : BaGua;
  binary : string;
  wuXing : WuXing;
  number : Z;
  naJiaTianGan_yang : TianGan;
  naJiaTianGan_yin : TianGan
}.
End BaGuaInfo.

Definition BA_GUA_DATA (g : BaGua) : BaGuaInfo.t :=
  match g with
  | Qian => BaGuaInfo.mk Qian "111" Jin 1 gJia gRen
  | Dui => BaGuaInfo.mk Dui "011" Jin 2 gDing gDing
  | Li => BaGuaInfo.mk Li "101" Huo 3 gJi gJi
  | Zhen => BaGuaInfo.mk Zhen "001" Mu 4 gGeng gGeng
  | Xun => BaGuaInfo.mk Xun "110" Mu 5 gXin gXin
  | Kan => BaGuaInfo.mk Kan "010" Shui 6 gWu gWu
  | Gen => BaGuaInfo.mk Gen "100" Tu 7 gBing gBing
  | Kun => BaGuaInfo.mk Kun "000" Tu 8 gYi gGui
  end.

(** Branches of the six positions of each trigram, first line to sixth. *)
Definition NA_JIA_DI_ZHI (g : BaGua) : list DiZhi :=
  match g with
  | Qian => [zZi; zYin; zChen; zWu; zShen; zXu]
  | Kun => [zWei; zSi; zMao; zChou; zHai; zYou]
  | Zhen => [zZi; zYin; zChen; zWu; zShen; zXu]
  | Xun => [zChou; zHai; zYou; zWei; zSi; zMao]
  | Kan => [zYin; zChen; zWu; zShen; zXu; zZi]
  | Li => [zMao; zChou; zHai; zYou; zWei; zSi]
  | Gen => [zChen; zWu; zShen; zXu; zZi; zYin]
  | Dui => [zSi; zMao; zChou; zHai; zYou; zWei]
  end.

Definition LIU_SHEN_START (g : TianGan) : LiuShen :=
  match g with
  | gJia | gYi => QingLong
  | gBing | gDing => ZhuQue
  | gWu => GouChen
  | gJi => TengShe
  | gGeng | gXin => BaiHu
  | gRen | gGui => XuanWu
  end.

Definition LIU_SHEN_ORDER : list LiuShen :=
  [QingLong; ZhuQue; GouChen; TengShe; BaiHu; XuanWu].

Definition getLiuQin (myWuXing targetWuXing : WuXing) : LiuQin :=
  if WuXing_eqb (WU_XING_BEI_SHENG myWuXing) targetWuXing then FuMu
  else if WuXing_eqb (WU_XING_SHENG myWuXing) targetWuXing then ZiSun
  else if WuXing_eqb (WU_XING_BEI_KE myWuXing) targetWuXing then GuanGui
  else if WuXing_eqb (WU_XING_KE myWuXing) targetWuXing then QiCai
  else XiongDi.

Definition getProsperityByMonth (targetWuXing monthWuXing : WuXing) : ProsperityState :=
  if WuXing_eqb targetWuXing monthWuXing then Wang
  else if WuXing_eqb (WU_XING_BEI_SHENG monthWuXing) targetWuXing then Xiang
  else if WuXing_eqb (WU_XING_SHENG targetWuXing) monthWuXing then Xiu
  else if WuXing_eqb (WU_XING_KE targetWuXing) monthWuXing then Qiu
  else if WuXing_eqb (WU_XING_BEI_KE targetWuXing) monthWuXing then SiState
  else Xiu.

(** ** constants.ts : the sixty-four hexagrams *)

(** [Omit<GuaInfo, 'binary'>] *)
Module GuaData.
Record t : Type := mk {
  name : string;
  sequence : Z;
  upperGua : BaGua;
  lowerGua : BaGua;
  palace : BaGua;
  worldPosition : Z;
  responsePosition : Z;
  wuXing : WuXing
}.
End GuaData.

Module GuaInfo.
Record t : Type := mk {
  name : string;
  sequence : Z;
  upperGua : BaGua;
  lowerGua : BaGua;
  palace : BaGua;
  worldPosition : Z;
  responsePosition : Z;
  wuXing : WuXing;
  binary : string
}.
End GuaInfo.

Definition mkGua := GuaData.mk.

Definition GUA_64_DATA : list (string * GuaData.t) := [
  ("111111", mkGua "乾为天" 1 Qian Qian Qian 6 3 Jin);
  ("111110", mkGua "天风姤" 2 Qian Xun Qian 1 4 Jin);
  ("111001", mkGua "天山遁" 3 Qian Gen Qian 2 5 Jin);
  ("111000", mkGua "天地否" 4 Qian Kun Qian 3 6 Jin);
  ("110000", mkGua "风地观" 5 Xun Kun Qian 4 1 Jin);
  ("100000", mkGua "山地剥" 6 Gen Kun Qian 5 2 Jin);
  ("101000", mkGua "火地晋" 7 Li Kun Qian 4 1 Jin);
  ("101111", mkGua "火天大有" 8 Li Qian Qian 3 6 Jin);
  ("011011", mkGua "兑为泽" 9 Dui Dui Dui 6 3 Jin);
  ("011010", mkGua "泽水困" 10 Dui Kan Dui 1 4 Jin);
  ("011000", mkGua "泽地萃" 11 Dui Kun Dui 2 5 Jin);
  ("011100", mkGua "泽山咸" 12 Dui Gen Dui 3 6 Jin);
  ("010100", mkGua "水山蹇" 13 Kan Gen Dui 4 1 Jin);
  ("000100", mkGua "地山谦" 14 Kun Gen Dui 5 2 Jin);
  ("001100", mkGua "雷山小过" 15 Zhen Gen Dui 4 1 Jin);
  ("001011", mkGua "雷泽归妹" 16 Zhen Dui Dui 3 6 Jin);
  ("101101", mkGua "离为火" 17 Li Li Li 6 3 Huo);
  ("101001", mkGua "火山旅" 18 Li Gen Li 1 4 Huo);
  ("101110", mkGua "火风鼎" 19 Li Xun Li 2 5 Huo);
  ("101011", mkGua "火水未济" 20 Li Kan Li 3 6 Huo);
  ("100011", mkGua "山水蒙" 21 Gen Kan Li 4 1 Huo);
  ("110011", mkGua "风水涣" 22 Xun Kan Li 5 2 Huo);
  ("111011", mkGua "天水讼" 23 Qian Kan Li 4 1 Huo);
  ("111101", mkGua "天火同人" 24 Qian Li Li 3 6 Huo);
  ("001001", mkGua "震为雷" 25 Zhen Zhen Zhen 6 3 Mu);
  ("001000", mkGua "雷地豫" 26 Zhen Kun Zhen 1 4 Mu);
  ("001010", mkGua "雷水解" 27 Zhen Kan Zhen 2 5 Mu);
  ("001110", mkGua "雷风恒" 28 Zhen Xun Zhen 3 6 Mu);
  ("000110", mkGua "地风升" 29 Kun Xun Zhen 4 1 Mu);
  ("010110", mkGua "水风井" 30 Kan Xun Zhen 5 2 Mu);
  ("011110", mkGua "泽风大过" 31 Dui Xun Zhen 4 1 Mu);
  ("011001", mkGua "泽雷随" 32 Dui Zhen Zhen 3 6 Mu);
  ("110110", mkGua "巽为风" 33 Xun Xun Xun 6 3 Mu);
  ("110111", mkGua "风天小畜" 34 Xun Qian Xun 1 4 Mu);
  ("110101", mkGua "风火家人" 35 Xun Li Xun 2 5 Mu);
  ("110100", mkGua "风雷益" 36 Xun Zhen Xun 3 6 Mu);
  ("111100", mkGua "天雷无妄" 37 Qian Zhen Xun 4 1 Mu);
  ("101100", mkGua "火雷噬嗑" 38 Li Zhen Xun 5 2 Mu);
  ("100001", mkGua "山雷颐" 39 Gen Zhen Xun 4 1 Mu);
  ("100110", mkGua "山风蛊" 40 Gen Xun Xun 3 6 Mu);
  ("010010", mkGua "坎为水" 41 Kan Kan Kan 6 3 Shui);
  ("010011", mkGua "水泽节" 42 Kan Dui Kan 1 4 Shui);
  ("010001", mkGua "水雷屯" 43 Kan Zhen Kan 2 5 Shui);
  ("010101", mkGua "水火既济" 44 Kan Li Kan 3 6 Shui);
  ("011101", mkGua "泽火革" 45 Dui Li Kan 4 1 Shui);
  ("001101", mkGua "雷火丰" 46 Zhen Li Kan 5 2 Shui);
  ("000101", mkGua "地火明夷" 47 Kun Li Kan 4 1 Shui);
  ("000010", mkGua "地水师" 48 Kun Kan Kan 3 6 Shui);
  ("100100", mkGua "艮为山" 49 Gen Gen Gen 6 3 Tu);
  ("100101", mkGua "山火贲" 50 Gen Li Gen 1 4 Tu);
  ("100111", mkGua "山天大畜" 51 Gen Qian Gen 2 5 Tu);
  ("100010", mkGua "山泽损" 52 Gen Dui Gen 3 6 Tu);
  ("101010", mkGua "火泽睽" 53 Li Dui Gen 4 1 Tu);
  ("111010", mkGua "天泽履" 54 Qian Dui Gen 5 2 Tu);
  ("110010", mkGua "风泽中孚" 55 Xun Dui Gen 4 1 Tu);
  ("110001", mkGua "风山渐" 56 Xun Gen Gen 3 6 Tu);
  ("000000", mkGua "坤为地" 57 Kun Kun Kun 6 3 Tu);
  ("000001", mkGua "地雷复" 58 Kun Zhen Kun 1 4 Tu);
  ("000011", mkGua "地泽临" 59 Kun Dui Kun 2 5 Tu);
  ("000111", mkGua "地天泰" 60 Kun Qian Kun 3 6 Tu);
  ("001111", mkGua "雷天大壮" 61 Zhen Qian Kun 4 1 Tu);
  ("011111", mkGua "泽天夬" 62 Dui Qian Kun 5 2 Tu);
  ("010111", mkGua "水天需" 63 Kan Qian Kun 4 1 Tu);
  ("010000", mkGua "水地比" 64 Kan Kun Kun 3 6 Tu) ].

(** [obj[key]] on an object literal: the value of the property, if any. *)
Fixpoint lookup {V : Type} (key : string) (obj : list (string * V)) : option V :=
  match obj with
  | [] => None
  | (k, v) :: obj' => if String.eqb k key then Some v else lookup key obj'
  end.


(** ** constants.ts : further tables *)

Definition TIAN_GAN_WU_XING (g : TianGan) : WuXing :=
  match g with
  | gJia | gYi => Mu
  | gBing | gDing => Huo
  | gWu | gJi => Tu
  | gGeng | gXin => Jin
  | gRen | gGui => Shui
  end.

Definition TIAN_GAN_YIN_YANG (g : TianGan) : YinYang :=
  match g with
  | gJia | gBing | gWu | gGeng | gRen => Yang
  | gYi | gDing | gJi | gXin | gGui => Yin
  end.

Definition DI_ZHI_YIN_YANG (z : DiZhi) : YinYang :=
  match z with
  | zZi | zYin | zChen | zWu | zShen | zXu => Yang
  | zChou | zMao | zSi | zWei | zYou | zHai => Yin
  end.

(** (world, response) by the place of a hexagram within its palace. *)
Definition WORLD_RESPONSE_POSITIONS : list (Z * Z) :=
  [ (6, 3); (1, 4); (2, 5); (3, 6); (4, 1); (5, 2); (4, 1); (3, 6) ].

Definition MONTH_ZHI : list DiZhi :=
  [zYin; zMao; zChen; zSi; zWu; zWei; zShen; zYou; zXu; zHai; zZi; zChou].

Definition HOUR_ZHI : list DiZhi :=
  [zZi; zChou; zYin; zMao; zChen; zSi; zWu; zWei; zShen; zYou; zXu; zHai].

(** ** types.ts *)

(** A [Date] is the time value of a valid Date: milliseconds since the
    epoch, UTC, between -8640000000000000 and 8640000000000000.  The
    Invalid Date (time value [NaN]) is outside this type: where the code
    builds a Date from outside data ([new Date(data.t)]), the model says
    so with an [option]; where it derives one from another Date (a day
    later, the midnight of its calendar day), the derived Date is valid
    for every date that lies at least a day inside that range, and the
    properties that depend on it are stated for such dates. *)
Definition Date : Type := Z.

(** 'old_yin' | 'young_yin' | 'young_yang' | 'old_yang' *)
Inductive YaoType : Type := old_yin | young_yin | young_yang | old_yang.

Module YaoState.
Record t : Type := mk {
  yinYang : YinYang;
  isMoving : bool;
  type : YaoType;
  coinResult : option Z
}.
End YaoState.

Inductive ChangeType : Type :=
| advance | retreat | return_birth | return_clash
| to_void | to_tomb | to_bindingend | normal.

Module ChangedYaoInfo.
Record t : Type := mk {
  yinYang : YinYang;
  diZhi : DiZhi;
  wuXing : WuXing;
  liuQin : LiuQin;
  changeType : option ChangeType
}.
End ChangedYaoInfo.

Module YaoInfo.
Record t : Type := mk {
  yinYang : YinYang;
  isMoving : bool;
  type : YaoType;
  coinResult : option Z;
  position : Z;
  diZhi : DiZhi;
  tianGan : option TianGan;
  wuXing : WuXing;
  liuQin : LiuQin;
  liuShen : LiuShen;
  isWorld : bool;
  isResponse : bool;
  changedYao : option ChangedYaoInfo.t;
  prosperity : option ProsperityState;
  isVoid : bool;
  isDayBroken : bool;
  isMonthBroken : bool
}.
End YaoInfo.

(** 长生 沐浴 冠带 临官 帝旺 衰 病 死 墓 绝 胎 养 *)
Inductive TwelveStage : Type :=
| stChangSheng | stMuYu | stGuanDai | stLinGuan | stDiWang | stShuai
| stBing | stSi | stMu | stJue | stTai | stYang.

Module DayStatus.
Inductive t : Type := support | restrain | neutral.
End DayStatus.

Module ProsperityAnalysis.
Record t : Type := mk {
  monthProsperity : ProsperityState;
  dayStatus : DayStatus.t;
  monthStage : option TwelveStage;
  dayStage : option TwelveStage;
  score : Q;
  reasons : list string          (* the [ruleName] of each reason *)
}.
End ProsperityAnalysis.

Inductive DiZhiRelation : Type :=
| six_clash | six_harmony | three_harmony | three_penalty | six_harm | destruction | none.

Module Impact.
Inductive t : Type := positive | negative | neutral.
End Impact.

(** The parties of a relation, which the source renders as strings:
    "<position>爻<branch>", "日辰<branch>", "月建<branch>", "变爻<branch>",
    or a bare branch. *)
Inductive Party : Type :=
| PartyYao (position : Z) (zhi : DiZhi)
| PartyDay (zhi : DiZhi)
| PartyMonth (zhi : DiZhi)
| PartyChanged (zhi : DiZhi)
| PartyZhi (zhi : DiZhi).

Module RelationAnalysis.
Record t : Type := mk {
  type : DiZhiRelation;
  parties : list Party;
  impact : Impact.t
}.
End RelationAnalysis.

Inductive QuestionCategory : Type :=
| career | love | wealth | health | study | lawsuit | travel | lost | other.

Module YongShenInfo.
Record t : Type := mk {
  liuQin : LiuQin;
  positions : list Z;
  isAutoSelected : bool;
  alternatives : option (list LiuQin)
}.
End YongShenInfo.

Module GanZhi.
Record t : Type := mk { gan : TianGan; zhi : DiZhi }.
End GanZhi.

Module GanZhiTime.
Record t : Type := mk {
  year : GanZhi.t;
  month : GanZhi.t;
  day : GanZhi.t;
  hour : GanZhi.t;
  voidBranches : DiZhi * DiZhi;
  monthWuXing : WuXing;
  dayWuXing : WuXing
}.
End GanZhiTime.

Module CastingTime.
Record t : Type := mk {
  gregorian : Date;
  timezone : string;
  ganZhi : GanZhiTime.t
}.
End CastingTime.

Module TrendJudgment.
Inductive t : Type :=
| very_favorable | favorable | neutral | unfavorable | very_unfavorable | uncertain.
End TrendJudgment.

Module ItemType.
Inductive t : Type := trend | obstacle | support | timing | advice | risk.
End ItemType.

Module InterpretationItem.
Record t : Type := mk {
  type : ItemType.t;
  ruleName : string;              (* [reasoning.steps[0].ruleName], where the item has one *)
  relatedYao : option (list Z)
}.
End InterpretationItem.

Module Uncertainty.
Record t : Type := mk { description : string }.
End Uncertainty.

Module Confidence.
Inductive t : Type := high | medium | low.
End Confidence.

Module TimingPrediction.
Record t : Type := mk {
  timeWindow : string;
  confidence : Confidence.t;
  nearestDates : list Date        (* [reasoning.steps[0].data.nearestDates], as dates *)
}.
End TimingPrediction.

Module InterpretationResult.
Record t : Type := mk {
  trend : TrendJudgment.t;
  items : list InterpretationItem.t;
  timingPredictions : list TimingPrediction.t;
  uncertainties : list Uncertainty.t
}.
End InterpretationResult.

Module CastingMethod.
Inductive t : Type := coin | time | manual.
End CastingMethod.

Inductive GenderOption : Type := male | female | same_sex.

Module CastingInput.
Record t : Type := mk {
  method : CastingMethod.t;
  yaoStates : list YaoState.t;
  time : CastingTime.t;
  questionCategory : QuestionCategory;
  subType : option string;
  gender : option GenderOption
}.
End CastingInput.

(** [{...guaData, binary}] where [guaData] may be [undefined]. *)
Module DerivedGua.
Record t : Type := mk { data : option GuaData.t; binary : string }.
End DerivedGua.

Module DivinationResult.
Record t : Type := mk {
  id : string;
  createdAt : Date;
  input : CastingInput.t;
  primaryGua : GuaInfo.t;
  primaryYao : list YaoInfo.t;
  changedGua : option GuaInfo.t;
  changedYao : option (list YaoInfo.t);
  mutualGua : DerivedGua.t;
  oppositeGua : DerivedGua.t;
  reverseGua : DerivedGua.t;
  movingYaoPositions : list Z;
  ganZhiTime : GanZhiTime.t;
  yongShen : YongShenInfo.t;
  relations : list RelationAnalysis.t;
  interpretation : InterpretationResult.t;
  fullReasoningChain : list string   (* the [ruleName] of each step *)
}.
End DivinationResult.

(** The result of [checkThreeHarmony] in relations.ts:
    [{ isComplete: boolean; wuXing?: WuXing }]. *)
Module ThreeHarmony.
Record t : Type := mk { isComplete : bool; wuXing : option WuXing }.
End ThreeHarmony.

(** LiuQin | '世爻' | '应爻' | '用神' *)
Inductive YongShenTarget : Type :=
| TargetLiuQin (liuQin : LiuQin)
| ShiYao
| YingYao
| YongShen.

(** An entry of [YONG_SHEN_RULES]. *)
Module YongShenRule.
Record t : Type := mk { primary : YongShenTarget; secondary : option YongShenTarget }.
End YongShenRule.

(** What a casting reads from its surroundings: the two [new Date()] calls
    (in [predictTiming] and for [createdAt]) and the output of [nanoid]. *)
Module Env.
Record t : Type := mk {
  today : Date;
  createdAt : Date;
  nanoid : string
}.
End Env.

(** JSON values as [JSON.parse] builds them.  A number is taken at its
    exact value; a string is the list of its code units, which for the
    text that [atob] returns are all below 256. *)
#[warnings="-register-all"]
Inductive JSON : Type :=
| JNull
| JBool (b : bool)
| JNumber (q : Q)
| JString (s : string)
| JArray (items : list JSON)
| JObject (fields : list (string * JSON)).

(** What [deserializeResult] builds.  The TypeScript types are erased at
    run time: [method] and [questionCategory] hold whatever the decoded
    object held, and the date can be an invalid one ([None]), for which
    [getGanZhiTime] yields a record of [undefined] entries ([None]). *)
Module RawCastingTime.
Record t : Type := mk {
  gregorian : option Date;
  timezone : string;
  ganZhi : option GanZhiTime.t
}.
End RawCastingTime.

Module RawCastingInput.
Record t : Type := mk {
  method : JSON;
  yaoStates : list YaoState.t;
  time : RawCastingTime.t;
  questionCategory : JSON
}.
End RawCastingInput.


(** The result of [getProsperityLevel]. *)
Module ProsperityLevel.
Inductive t : Type := strong | medium | weak | very_weak.
End ProsperityLevel.

(** The text [filledBy] of [checkVoidFilled]: the day branch ("日辰X"),
    the month branch ("月建X") or the day branch in clash ("日辰X冲空"). *)
Inductive FilledBy : Type :=
| FilledByDay (dayZhi : DiZhi)
| FilledByMonth (monthZhi : DiZhi)
| FilledByDayClash (dayZhi : DiZhi).

Module VoidFilled.
Record t : Type := mk { isFilled : bool; filledBy : option FilledBy }.
End VoidFilled.

(** The host's random numbers: [crypto.getRandomValues] on a [Uint32Array]
    when [crypto] is defined, [Math.random] otherwise; [values k] is the
    number that the [k]-th call draws. *)
Inductive RandomSource : Type :=
| Crypto (values : nat -> Z)
| MathRandom (values : nat -> Q).

(** [DivinationState] of the store, without its actions.  A line that
    [coinResultToYaoState] leaves [undefined] is [None]. *)
Module DivinationState.
Record t : Type := mk {
  method : CastingMethod.t;
  questionCategory : QuestionCategory;
  questionSubType : string;
  coinResults : list Z;
  currentYaoIndex : Z;
  yaoStates : list (option YaoState.t);
  result : option DivinationResult.t;
  isExpertMode : bool;
  isFirstVisit : bool
}.
End DivinationState.

(** ** hexagram.ts *)

Definition coinSumToYaoState (sum : Z) : option YaoState.t :=
  if sum =? 6 then Some (YaoState.mk Yin true old_yin (Some 6))
  else if sum =? 7 then Some (YaoState.mk Yang false young_yang (Some 7))
  else if sum =? 8 then Some (YaoState.mk Yin false young_yin (Some 8))
  else if sum =? 9 then Some (YaoState.mk Yang true old_yang (Some 9))
  else None.

Definition createManualYaoState (yinYang : YinYang) (isMoving : bool) : YaoState.t :=
  let type :=
    match yinYang, isMoving with
    | Yang, true => old_yang
    | Yang, false => young_yang
    | Yin, true => old_yin
    | Yin, false => young_yin
    end in
  YaoState.mk yinYang isMoving type None.

Definition bit_of_yinYang (y : YinYang) : ascii :=
  match y with Yang => "1"%char | Yin => "0"%char end.

Definition with_binary (g : GuaData.t) (binary : string) : GuaInfo.t :=
  GuaInfo.mk (GuaData.name g) (GuaData.sequence g) (GuaData.upperGua g) (GuaData.lowerGua g)
    (GuaData.palace g) (GuaData.worldPosition g) (GuaData.responsePosition g)
    (GuaData.wuXing g) binary.

Definition getGuaFromYaoStates (yaoStates : list YaoState.t) : completion GuaInfo.t :=
  let binary := join_chars (map (fun y => bit_of_yinYang (YaoState.yinYang y)) yaoStates) in
  match lookup binary GUA_64_DATA with
  | None => Throw (Error (String.append "未找到对应卦象: " binary))
  | Some guaData => Normal (with_binary guaData binary)
  end.

Definition changed_bit (y : YaoState.t) : ascii :=
  if YaoState.isMoving y
  then match YaoState.yinYang y with Yang => "0"%char | Yin => "1"%char end
  else bit_of_yinYang (YaoState.yinYang y).

(** [null] is [None]. *)
Definition getChangedGua (yaoStates : list YaoState.t) : completion (option GuaInfo.t) :=
  let hasMoving := existsb YaoState.isMoving yaoStates in
  if negb hasMoving then Normal None
  else
    let changedBinary := join_chars (map changed_bit yaoStates) in
    match lookup changedBinary GUA_64_DATA with
    | None => Throw (Error (String.append "未找到对应变卦: " changedBinary))
    | Some guaData => Normal (Some (with_binary guaData changedBinary))
    end.

Definition getMovingPositions (yaoStates : list YaoState.t) : list Z :=
  filter (fun pos => 0 <? pos)
    (mapi (fun y i => if YaoState.isMoving y then i + 1 else 0) yaoStates).

(** ** hexagram.ts, casting with three coins *)

(** The value that [flipCoin] compares with 0.5: a [Uint32] divided by
    [0xFFFFFFFF + 1], or the number of [Math.random]. *)
Definition randomValue (source : RandomSource) (k : nat) : Q :=
  match source with
  | Crypto values => Qmake (values k mod 4294967296) 4294967296
  | MathRandom values => values k
  end.

(** The coin and the number of the next draw. *)
Definition flipCoin (source : RandomSource) (k : nat) : Z * nat :=
  (if negb (Qle_bool (1 # 2) (randomValue source k)) then 2 else 3, S k).

(** [sum], [yaoState] and the number of the next draw. *)
Definition throwCoins (source : RandomSource) (k : nat) : Z * option YaoState.t * nat :=
  let '(c1, k1) := flipCoin source k in
  let '(c2, k2) := flipCoin source k1 in
  let '(c3, k3) := flipCoin source k2 in
  let coins := [c1; c2; c3] in
  let sum := fold_left Z.add coins 0 in
  (sum, coinSumToYaoState sum, k3).

Definition castByCoin (source : RandomSource) (k : nat) : list (option YaoState.t) * nat :=
  let '(_, y1, k1) := throwCoins source k in
  let '(_, y2, k2) := throwCoins source k1 in
  let '(_, y3, k3) := throwCoins source k2 in
  let '(_, y4, k4) := throwCoins source k3 in
  let '(_, y5, k5) := throwCoins source k4 in
  let '(_, y6, k6) := throwCoins source k5 in
  ([y1; y2; y3; y4; y5; y6], k6).


(** ** The [Date] builtin

    The calendar arithmetic of ECMAScript dates (proleptic Gregorian
    calendar, days counted from 1970-01-01), for an environment whose
    local time zone has a constant offset [tza] milliseconds from UTC:
    a change of the offset during the year (daylight saving time) is not
    modeled, and [tza] stands for the offset in force at the date
    looked at. *)

Definition msPerDay : Z := 86400000.
Definition msPerHour : Z := 3600000.

(** Day number of the civil date [y]-[m]-[d], [m] in 1..12. *)
Definition days_from_civil (y m d : Z) : Z :=
  let y' := if m <=? 2 then y - 1 else y in
  let era := y' / 400 in
  let yoe := y' - era * 400 in
  let mp := if 2 <? m then m - 3 else m + 9 in
  let doy := (153 * mp + 2) / 5 + d - 1 in
  let doe := yoe * 365 + yoe / 4 - yoe / 100 + doy in
  era * 146097 + doe - 719468.

(** Civil date (year, month 1..12, day of month) of a day number. *)
Definition civil_from_days (z : Z) : Z * Z * Z :=
  let z' := z + 719468 in
  let era := z' / 146097 in
  let doe := z' - era * 146097 in
  let yoe := (doe - doe / 1460 + doe / 36524 - doe / 146096) / 365 in
  let y := yoe + era * 400 in
  let doy := doe - (365 * yoe + yoe / 4 - yoe / 100) in
  let mp := (5 * doy + 2) / 153 in
  let d := doy - (153 * mp + 2) / 5 + 1 in
  let m := if mp <? 10 then mp + 3 else mp - 9 in
  (if m <=? 2 then y + 1 else y, m, d).

(** [MakeDay(year, month, date)]: [month] is 0-based and may overflow. *)
Definition MakeDay (year month date : Z) : Z :=
  let ym := year + month / 12 in
  let mn := month mod 12 in
  days_from_civil ym (mn + 1) 1 + date - 1.

(** Years 0..99 given to [Date.UTC] or to the [Date] constructor mean 1900..1999. *)
Definition MakeFullYear (year : Z) : Z :=
  if (0 <=? year) && (year <=? 99) then 1900 + year else year.

(** [Date.UTC(year, month, date)], for arguments whose day is within the
    100,000,000 days around the epoch; outside them the builtin answers
    [NaN]. *)
Definition Date_UTC (year month date : Z) : Z :=
  MakeDay (MakeFullYear year) month date * msPerDay.

Section LocalZone.

Variable tza : Z.

Definition LocalTime (t : Date) : Z := t + tza.

Definition getFullYear (t : Date) : Z :=
  let '(y, _, _) := civil_from_days (LocalTime t / msPerDay) in y.

(** 0-based month. *)
Definition getMonth (t : Date) : Z :=
  let '(_, m, _) := civil_from_days (LocalTime t / msPerDay) in m - 1.

Definition getDate (t : Date) : Z :=
  let '(_, _, d) := civil_from_days (LocalTime t / msPerDay) in d.

Definition getHours (t : Date) : Z := (LocalTime t mod msPerDay) / msPerHour.

Definition getTime (t : Date) : Z := t.

(** [new Date(year, month, date)]: local midnight. *)
Definition new_Date (year month date : Z) : Date :=
  MakeDay (MakeFullYear year) month date * msPerDay - tza.

(** ** ganzhi.ts *)

(** 2000-01-07, a 甲子 day. *)
Definition BASE_DATE : Date := new_Date 2000 0 7.
Definition BASE_DAY_GAN_INDEX : Z := 0.
Definition BASE_DAY_ZHI_INDEX : Z := 0.

Definition LI_CHUN_DATES : list (Z * (Z * Z)) :=
  [ (2000, (2, 4)); (2001, (2, 4)); (2002, (2, 4)); (2003, (2, 4)); (2004, (2, 4));
    (2005, (2, 4)); (2006, (2, 4)); (2007, (2, 4)); (2008, (2, 4)); (2009, (2, 4));
    (2010, (2, 4)); (2011, (2, 4)); (2012, (2, 4)); (2013, (2, 4)); (2014, (2, 4));
    (2015, (2, 4)); (2016, (2, 4)); (2017, (2, 3)); (2018, (2, 4)); (2019, (2, 4));
    (2020, (2, 4)); (2021, (2, 3)); (2022, (2, 4)); (2023, (2, 4)); (2024, (2, 4));
    (2025, (2, 3)); (2026, (2, 4)); (2027, (2, 4)); (2028, (2, 4)); (2029, (2, 3));
    (2030, (2, 4)); (2031, (2, 4)); (2032, (2, 4)); (2033, (2, 3)); (2034, (2, 4));
    (2035, (2, 4)); (2036, (2, 4)); (2037, (2, 4)); (2038, (2, 4)); (2039, (2, 4));
    (2040, (2, 4)); (2041, (2, 3)); (2042, (2, 4)); (2043, (2, 4)); (2044, (2, 4));
    (2045, (2, 3)); (2046, (2, 4)); (2047, (2, 4)); (2048, (2, 4)); (2049, (2, 3));
    (2050, (2, 4)) ].

Fixpoint lookupZ {V : Type} (key : Z) (obj : list (Z * V)) : option V :=
  match obj with
  | [] => None
  | (k, v) :: obj' => if k =? key then Some v else lookupZ key obj'
  end.

(** (solar term, Gregorian month, approximate day) *)
Definition JIE_QI_APPROX : list (string * Z * Z) :=
  [ ("立春", 2, 4); ("惊蛰", 3, 6); ("清明", 4, 5); ("立夏", 5, 6);
    ("芒种", 6, 6); ("小暑", 7, 7); ("立秋", 8, 8); ("白露", 9, 8);
    ("寒露", 10, 8); ("立冬", 11, 7); ("大雪", 12, 7); ("小寒", 1, 6) ].

Definition daysBetween (date1 date2 : Date) : Z :=
  let utc1 := Date_UTC (getFullYear date1) (getMonth date1) (getDate date1) in
  let utc2 := Date_UTC (getFullYear date2) (getMonth date2) (getDate date2) in
  (utc2 - utc1) / (1000 * 60 * 60 * 24).

Definition getDayGanZhi (date : Date) : GanZhi.t :=
  let days := daysBetween BASE_DATE date in
  let ganIndex := jsmod (jsmod (BASE_DAY_GAN_INDEX + days) 10 + 10) 10 in
  let zhiIndex := jsmod (jsmod (BASE_DAY_ZHI_INDEX + days) 12 + 12) 12 in
  GanZhi.mk (arr_get gJia TIAN_GAN ganIndex) (arr_get zZi DI_ZHI zhiIndex).

Definition getYearGanZhi (date : Date) : GanZhi.t :=
  let year0 := getFullYear date in
  let year :=
    match lookupZ year0 LI_CHUN_DATES with
    | Some (m, d) =>
        let liChunDate := new_Date year0 (m - 1) d in
        if date <? liChunDate then year0 - 1 else year0
    | None =>
        let approxLiChun := new_Date year0 1 4 in
        if date <? approxLiChun then year0 - 1 else year0
    end in
  let ganIndex := jsmod (jsmod (year - 4) 10 + 10) 10 in
  let zhiIndex := jsmod (jsmod (year - 4) 12 + 12) 12 in
  GanZhi.mk (arr_get gJia TIAN_GAN ganIndex) (arr_get zZi DI_ZHI zhiIndex).

(** The [for] loop of [getMonthZhiIndex]: [n] iterations remain, the next
    one at index [n - 1]; after the last one the function returns 1. *)
Fixpoint getMonthZhiIndex_loop (n : nat) (month day : Z) : Z :=
  match n with
  | O => 1
  | S i =>
      let '(_, jqMonth, jqDay) := arr_get ("", 0, 0) JIE_QI_APPROX (Z.of_nat i) in
      if (jqMonth <? month) || ((month =? jqMonth) && (jqDay <=? day))
      then jsmod (Z.of_nat i + 2) 12
      else getMonthZhiIndex_loop i month day
  end.

Definition getMonthZhiIndex (month day : Z) : Z :=
  getMonthZhiIndex_loop (List.length JIE_QI_APPROX) month day.

Definition getMonthGanZhi (date : Date) : GanZhi.t :=
  let month := getMonth date + 1 in
  let day := getDate date in
  let monthZhiIndex := getMonthZhiIndex month day in
  let yearGanZhi := getYearGanZhi date in
  let yearGanIndex := indexOf TianGan_eqb TIAN_GAN (GanZhi.gan yearGanZhi) in
  let yearGanGroup := jsmod yearGanIndex 5 in
  let firstMonthGanIndex := jsmod (yearGanGroup * 2 + 2) 10 in
  let monthOffset := jsmod (monthZhiIndex - 2 + 12) 12 in
  let monthGanIndex := jsmod (firstMonthGanIndex + monthOffset) 10 in
  GanZhi.mk (arr_get gJia TIAN_GAN monthGanIndex) (arr_get zZi DI_ZHI monthZhiIndex).

(** From 23:00 on the hour belongs to the next day: [dayDate] is the date
    24 hours later, a valid Date when [date] is at least a day before
    the end of the range of time values. *)
Definition getHourGanZhi (date : Date) : GanZhi.t :=
  let hour := getHours date in
  let hourZhiIndex := if (23 <=? hour) || (hour <? 1) then 0 else (hour + 1) / 2 in
  let dayDate := if 23 <=? hour then getTime date + 24 * 60 * 60 * 1000 else date in
  let dayGanZhi := getDayGanZhi dayDate in
  let dayGanIndex := indexOf TianGan_eqb TIAN_GAN (GanZhi.gan dayGanZhi) in
  let dayGanGroup := jsmod dayGanIndex 5 in
  let ziHourGanIndex := jsmod (dayGanGroup * 2) 10 in
  let hourGanIndex := jsmod (ziHourGanIndex + hourZhiIndex) 10 in
  GanZhi.mk (arr_get gJia TIAN_GAN hourGanIndex) (arr_get zZi DI_ZHI hourZhiIndex).

Definition getVoidBranches (dayGan : TianGan) (dayZhi : DiZhi) : DiZhi * DiZhi :=
  let ganIndex := indexOf TianGan_eqb TIAN_GAN dayGan in
  let zhiIndex := indexOf DiZhi_eqb DI_ZHI dayZhi in
  let xunStartZhiIndex := jsmod (jsmod (zhiIndex - ganIndex) 12 + 12) 12 in
  let void1Index := jsmod (xunStartZhiIndex + 10) 12 in
  let void2Index := jsmod (xunStartZhiIndex + 11) 12 in
  (arr_get zZi DI_ZHI void1Index, arr_get zZi DI_ZHI void2Index).

Definition getGanZhiTime (date : Date) : GanZhiTime.t :=
  let year := getYearGanZhi date in
  let month := getMonthGanZhi date in
  let day := getDayGanZhi date in
  let hour := getHourGanZhi date in
  let voidBranches := getVoidBranches (GanZhi.gan day) (GanZhi.zhi day) in
  GanZhiTime.mk year month day hour voidBranches
    (DI_ZHI_WU_XING (GanZhi.zhi month)) (DI_ZHI_WU_XING (GanZhi.zhi day)).

Definition isVoid (zhi : DiZhi) (voidBranches : DiZhi * DiZhi) : bool :=
  DiZhi_eqb (fst voidBranches) zhi || DiZhi_eqb (snd voidBranches) zhi.

Definition isDayBroken (zhi dayZhi : DiZhi) : bool :=
  let zhiIndex := indexOf DiZhi_eqb DI_ZHI zhi in
  let dayZhiIndex := indexOf DiZhi_eqb DI_ZHI dayZhi in
  jsmod (zhiIndex + 6) 12 =? dayZhiIndex.

Definition isMonthBroken (zhi monthZhi : DiZhi) : bool :=
  let zhiIndex := indexOf DiZhi_eqb DI_ZHI zhi in
  let monthZhiIndex := indexOf DiZhi_eqb DI_ZHI monthZhi in
  jsmod (zhiIndex + 6) 12 =? monthZhiIndex.

Definition getDiZhiIndex (zhi : DiZhi) : Z := indexOf DiZhi_eqb DI_ZHI zhi.

Definition getTianGanIndex (gan : TianGan) : Z := indexOf TianGan_eqb TIAN_GAN gan.



(** ** hexagram.ts, the derived hexagrams and casting by time *)

(** [yaoStates[i].yinYang === '阳' ? one : zero]; reading a property of
    [undefined] raises when the line is absent. *)
Definition yao_bit (yaoStates : list YaoState.t) (i : Z) (one zero : ascii) : completion ascii :=
  match arr_at yaoStates i with
  | Some y => Normal (match YaoState.yinYang y with Yang => one | Yin => zero end)
  | None => Throw TypeError
  end.

Definition derived (binary : string) : DerivedGua.t :=
  DerivedGua.mk (lookup binary GUA_64_DATA) binary.

Definition getMutualGua (yaoStates : list YaoState.t) : completion DerivedGua.t :=
  l1 <- yao_bit yaoStates 1 "1" "0" ;;
  l2 <- yao_bit yaoStates 2 "1" "0" ;;
  l3 <- yao_bit yaoStates 3 "1" "0" ;;
  u1 <- yao_bit yaoStates 2 "1" "0" ;;
  u2 <- yao_bit yaoStates 3 "1" "0" ;;
  u3 <- yao_bit yaoStates 4 "1" "0" ;;
  let lowerBinary := join_chars [l1; l2; l3] in
  let upperBinary := join_chars [u1; u2; u3] in
  Normal (derived (String.append lowerBinary upperBinary)).

Definition getOppositeGua (yaoStates : list YaoState.t) : DerivedGua.t :=
  derived (join_chars (map (fun y => match YaoState.yinYang y with Yang => "0"%char | Yin => "1"%char end)
                          yaoStates)).

Definition getReverseGua (yaoStates : list YaoState.t) : DerivedGua.t :=
  derived (join_chars (map (fun y => bit_of_yinYang (YaoState.yinYang y)) (rev yaoStates))).

(** The record [numToBaGua] of [castByTime]; other numbers give [undefined]. *)
Definition numToBaGua (n : Z) : option BaGua :=
  if n =? 1 then Some Qian else if n =? 2 then Some Dui
  else if n =? 3 then Some Li else if n =? 4 then Some Zhen
  else if n =? 5 then Some Xun else if n =? 6 then Some Kan
  else if n =? 7 then Some Gen else if n =? 8 then Some Kun
  else None.

(** [s[i] === '1'] *)
Definition char_is_one (s : string) (i : Z) : bool :=
  match String.get (Z.to_nat i) s with
  | Some c => Ascii.eqb c "1"
  | None => false
  end.

Definition castByTime (date : Date) : completion (list YaoState.t) :=
  let ganZhi := getGanZhiTime date in
  let yearNum := getDiZhiIndex (GanZhi.zhi (GanZhiTime.year ganZhi)) + 1 in
  let monthNum := getDiZhiIndex (GanZhi.zhi (GanZhiTime.month ganZhi)) + 1 in
  let dayNum := getDate date in
  let hourNum := getDiZhiIndex (GanZhi.zhi (GanZhiTime.hour ganZhi)) + 1 in
  let upperSum := yearNum + monthNum + dayNum in
  let lowerSum := upperSum + hourNum in
  let upperGuaNum := jsmod (upperSum - 1) 8 + 1 in
  let lowerGuaNum := jsmod (lowerSum - 1) 8 + 1 in
  let movingPosition := jsmod (lowerSum - 1) 6 + 1 in
  match numToBaGua upperGuaNum with
  | None => Throw TypeError
  | Some upperGua =>
      match numToBaGua lowerGuaNum with
      | None => Throw TypeError
      | Some lowerGua =>
          let upperBinary := BaGuaInfo.binary (BA_GUA_DATA upperGua) in
          let lowerBinary := BaGuaInfo.binary (BA_GUA_DATA lowerGua) in
          let fullBinary := String.append lowerBinary upperBinary in
          Normal (map (fun i =>
                         let isYang := char_is_one fullBinary i in
                         let isMoving := (i + 1) =? movingPosition in
                         let type :=
                           if isYang && isMoving then old_yang
                           else if isYang && negb isMoving then young_yang
                           else if negb isYang && isMoving then old_yin
                           else young_yin in
                         YaoState.mk (if isYang then Yang else Yin) isMoving type None)
                      [0; 1; 2; 3; 4; 5])
      end
  end.

(** The keys of [BA_GUA_DATA] in insertion order, as [Object.entries] lists them. *)
Definition BA_GUA_KEYS : list BaGua := [Qian; Dui; Li; Zhen; Xun; Kan; Gen; Kun].

Definition getBaGuaBinary (gua : BaGua) : string := BaGuaInfo.binary (BA_GUA_DATA gua).

Definition getBaGuaFromBinary (binary : string) : completion BaGua :=
  match find_first (fun gua => String.eqb (BaGuaInfo.binary (BA_GUA_DATA gua)) binary)
                   BA_GUA_KEYS with
  | None => Throw (Error (String.append "无效的八卦二进制: " binary))
  | Some gua => Normal gua
  end.

(** [binary.slice(3)] *)
Definition getUpperGua (binary : string) : completion BaGua :=
  getBaGuaFromBinary (substring 3 (String.length binary - 3) binary).

(** [binary.slice(0, 3)] *)
Definition getLowerGua (binary : string) : completion BaGua :=
  getBaGuaFromBinary (substring 0 3 binary).

(** ** najia.ts *)

Definition getNaJiaDiZhi (gua : BaGua) (position : Z) : DiZhi :=
  arr_get zZi (NA_JIA_DI_ZHI gua) (position - 1).

Definition getFullNaJiaDiZhi (lowerGua upperGua : BaGua) : list DiZhi :=
  let lower := slice 0 3 (NA_JIA_DI_ZHI lowerGua) in
  let upper := slice 3 6 (NA_JIA_DI_ZHI upperGua) in
  lower ++ upper.

Definition getNaJiaTianGan (gua : BaGua) (isUpper : bool) : TianGan :=
  match gua with
  | Qian => if isUpper then gRen else gJia
  | Kun => if isUpper then gGui else gYi
  | _ => BaGuaInfo.naJiaTianGan_yang (BA_GUA_DATA gua)
  end.

Definition calculateLiuQin (palaceWuXing yaoWuXing : WuXing) : LiuQin :=
  getLiuQin palaceWuXing yaoWuXing.

(** [guaMap[binary]], [undefined] outside the eight keys. *)
Definition binaryToGua (binary : string) : option BaGua :=
  if String.eqb binary "111" then Some Qian
  else if String.eqb binary "011" then Some Dui
  else if String.eqb binary "101" then Some Li
  else if String.eqb binary "001" then Some Zhen
  else if String.eqb binary "110" then Some Xun
  else if String.eqb binary "010" then Some Kan
  else if String.eqb binary "100" then Some Gen
  else if String.eqb binary "000" then Some Kun
  else None.

Definition determineChangeType (originalDiZhi changedDiZhi : DiZhi) (palaceWuXing : WuXing)
  : ChangeType :=
  let originalIdx := indexOf DiZhi_eqb DI_ZHI originalDiZhi in
  let changedIdx := indexOf DiZhi_eqb DI_ZHI changedDiZhi in
  if jsmod (changedIdx - originalIdx + 12) 12 =? 1 then advance
  else if jsmod (originalIdx - changedIdx + 12) 12 =? 1 then retreat
  else
    let originalWuXing := DI_ZHI_WU_XING originalDiZhi in
    let changedWuXing := DI_ZHI_WU_XING changedDiZhi in
    let originalLiuQin := getLiuQin originalWuXing changedWuXing in
    match originalLiuQin with
    | FuMu => return_birth
    | GuanGui => return_clash
    | _ => normal
    end.

Definition flip_char (c : ascii) : ascii :=
  if Ascii.eqb c "1" then "0"%char else "1"%char.

(** Indexing [NA_JIA_DI_ZHI[undefined]] raises when the trigram of the
    changed half is not one of the eight. *)
Definition calculateChangedYao (yaoState : YaoState.t) (position : Z) (guaInfo : GuaInfo.t)
  : completion ChangedYaoInfo.t :=
  let changedYinYang := match YaoState.yinYang yaoState with Yang => Yin | Yin => Yang end in
  let binary := GuaInfo.binary guaInfo in
  let changedBinary :=
    join_chars (mapi (fun char idx => if idx =? position - 1 then flip_char char else char)
                     (split_chars binary)) in
  let changedLowerBinary := substring 0 3 changedBinary in
  let changedUpperBinary := substring 3 3 changedBinary in
  let changedLowerGua := binaryToGua changedLowerBinary in
  let changedUpperGua := binaryToGua changedUpperBinary in
  let isUpper := 3 <? position in
  match (if isUpper then changedUpperGua else changedLowerGua) with
  | None => Throw TypeError
  | Some changedGua =>
      let changedDiZhi := getNaJiaDiZhi changedGua position in
      let changedWuXing := DI_ZHI_WU_XING changedDiZhi in
      let changedLiuQin := calculateLiuQin (GuaInfo.wuXing guaInfo) changedWuXing in
      let originalDiZhi :=
        arr_get zZi (getFullNaJiaDiZhi (GuaInfo.lowerGua guaInfo) (GuaInfo.upperGua guaInfo))
                (position - 1) in
      let changeType := determineChangeType originalDiZhi changedDiZhi (GuaInfo.wuXing guaInfo) in
      Normal (ChangedYaoInfo.mk changedYinYang changedDiZhi changedWuXing changedLiuQin
                                (Some changeType))
  end.

(** [arr.map(f)] for a callback that can raise. *)
Fixpoint mapi_c_from {A B : Type} (f : A -> Z -> completion B) (l : list A) (i0 : Z)
  : completion (list B) :=
  match l with
  | [] => Normal []
  | x :: l' =>
      y <- f x i0 ;;
      ys <- mapi_c_from f l' (i0 + 1) ;;
      Normal (y :: ys)
  end.

Definition installHexagram (yaoStates : list YaoState.t) (guaInfo : GuaInfo.t)
  : completion (list YaoInfo.t) :=
  let lowerGua := GuaInfo.lowerGua guaInfo in
  let upperGua := GuaInfo.upperGua guaInfo in
  let worldPosition := GuaInfo.worldPosition guaInfo in
  let responsePosition := GuaInfo.responsePosition guaInfo in
  let palaceWuXing := GuaInfo.wuXing guaInfo in
  let naJiaDiZhi := getFullNaJiaDiZhi lowerGua upperGua in
  mapi_c_from
    (fun yaoState index =>
       let position := index + 1 in
       let diZhi := arr_get zZi naJiaDiZhi index in
       let yaoWuXing := DI_ZHI_WU_XING diZhi in
       let liuQin := calculateLiuQin palaceWuXing yaoWuXing in
       let isWorld := position =? worldPosition in
       let isResponse := position =? responsePosition in
       let isUpper := 3 <? position in
       let currentGua := if isUpper then upperGua else lowerGua in
       let tianGan := getNaJiaTianGan currentGua isUpper in
       changedYao <-
         (if YaoState.isMoving yaoState
          then (c <- calculateChangedYao yaoState position guaInfo ;; Normal (Some c))
          else Normal None) ;;
       Normal (YaoInfo.mk (YaoState.yinYang yaoState) (YaoState.isMoving yaoState)
                 (YaoState.type yaoState) (YaoState.coinResult yaoState)
                 position diZhi (Some tianGan) yaoWuXing liuQin
                 QingLong isWorld isResponse changedYao
                 None false false false))
    yaoStates 0.

Definition getChangedYaoInfos (originalYaoInfos : list YaoInfo.t) (changedGuaInfo : GuaInfo.t)
  : list YaoInfo.t :=
  let lowerGua := GuaInfo.lowerGua changedGuaInfo in
  let upperGua := GuaInfo.upperGua changedGuaInfo in
  let worldPosition := GuaInfo.worldPosition changedGuaInfo in
  let responsePosition := GuaInfo.responsePosition changedGuaInfo in
  let palaceWuXing := GuaInfo.wuXing changedGuaInfo in
  let naJiaDiZhi := getFullNaJiaDiZhi lowerGua upperGua in
  mapi
    (fun originalYao index =>
       let position := index + 1 in
       let yinYang :=
         if YaoInfo.isMoving originalYao
         then match YaoInfo.yinYang originalYao with Yang => Yin | Yin => Yang end
         else YaoInfo.yinYang originalYao in
       let diZhi := arr_get zZi naJiaDiZhi index in
       let yaoWuXing := DI_ZHI_WU_XING diZhi in
       let liuQin := calculateLiuQin palaceWuXing yaoWuXing in
       let isUpper := 3 <? position in
       let currentGua := if isUpper then upperGua else lowerGua in
       let tianGan := getNaJiaTianGan currentGua isUpper in
       YaoInfo.mk yinYang (YaoInfo.isMoving originalYao)
         (YaoInfo.type originalYao) (YaoInfo.coinResult originalYao)
         position diZhi (Some tianGan) yaoWuXing liuQin
         (YaoInfo.liuShen originalYao)
         (position =? worldPosition) (position =? responsePosition)
         None
         (YaoInfo.prosperity originalYao) (YaoInfo.isVoid originalYao)
         (YaoInfo.isDayBroken originalYao) (YaoInfo.isMonthBroken originalYao))
    originalYaoInfos.

Definition findYaoByLiuQin (yaoInfos : list YaoInfo.t) (liuQin : LiuQin) : list YaoInfo.t :=
  filter (fun yao => LiuQin_eqb (YaoInfo.liuQin yao) liuQin) yaoInfos.

Definition getWorldYao (yaoInfos : list YaoInfo.t) : completion YaoInfo.t :=
  match find_first YaoInfo.isWorld yaoInfos with
  | Some worldYao => Normal worldYao
  | None => Throw (Error "未找到世爻")
  end.

Definition getResponseYao (yaoInfos : list YaoInfo.t) : completion YaoInfo.t :=
  match find_first YaoInfo.isResponse yaoInfos with
  | Some responseYao => Normal responseYao
  | None => Throw (Error "未找到应爻")
  end.

(** ** liushen.ts *)

Definition getStartLiuShen (dayGan : TianGan) : LiuShen := LIU_SHEN_START dayGan.

Definition getLiuShenArray (dayGan : TianGan) : list LiuShen :=
  let startShen := getStartLiuShen dayGan in
  let startIndex := indexOf LiuShen_eqb LIU_SHEN_ORDER startShen in
  map (fun i => arr_get QingLong LIU_SHEN_ORDER (jsmod (startIndex + i) 6)) [0; 1; 2; 3; 4; 5].

Definition with_liuShen (yao : YaoInfo.t) (liuShen : LiuShen) : YaoInfo.t :=
  YaoInfo.mk (YaoInfo.yinYang yao) (YaoInfo.isMoving yao) (YaoInfo.type yao)
    (YaoInfo.coinResult yao) (YaoInfo.position yao) (YaoInfo.diZhi yao) (YaoInfo.tianGan yao)
    (YaoInfo.wuXing yao) (YaoInfo.liuQin yao) liuShen (YaoInfo.isWorld yao)
    (YaoInfo.isResponse yao) (YaoInfo.changedYao yao) (YaoInfo.prosperity yao)
    (YaoInfo.isVoid yao) (YaoInfo.isDayBroken yao) (YaoInfo.isMonthBroken yao).

(** [liuShenArray[index]] is defined for the six lines of a hexagram. *)
Definition installLiuShen (yaoInfos : list YaoInfo.t) (dayGan : TianGan) : list YaoInfo.t :=
  let liuShenArray := getLiuShenArray dayGan in
  mapi (fun yao index => with_liuShen yao (arr_get QingLong liuShenArray index)) yaoInfos.

(** ** prosperity.ts *)

Definition Qlt_bool (a b : Q) : bool := negb (Qle_bool b a).

Definition getMonthProsperityScore (prosperity : ProsperityState) : Z :=
  match prosperity with
  | Wang => 5
  | Xiang => 3
  | Xiu => 0
  | Qiu => -2
  | SiState => -4
  end.

Definition getDayStatus (yaoWuXing dayWuXing : WuXing) : DayStatus.t :=
  if WuXing_eqb (WU_XING_SHENG dayWuXing) yaoWuXing || WuXing_eqb dayWuXing yaoWuXing
  then DayStatus.support
  else if WuXing_eqb (WU_XING_KE dayWuXing) yaoWuXing then DayStatus.restrain
  else DayStatus.neutral.

Definition getDayStatusScore (status : DayStatus.t) : Z :=
  match status with
  | DayStatus.support => 2
  | DayStatus.restrain => -2
  | DayStatus.neutral => 0
  end.

Definition TWELVE_STAGES : list TwelveStage :=
  [stChangSheng; stMuYu; stGuanDai; stLinGuan; stDiWang; stShuai;
   stBing; stSi; stMu; stJue; stTai; stYang].

(** The [yang] entry of [WU_XING_CHANG_SHENG_START], the only one read. *)
Definition WU_XING_CHANG_SHENG_START_yang (w : WuXing) : DiZhi :=
  match w with
  | Mu => zHai
  | Huo => zYin
  | Tu => zYin
  | Jin => zSi
  | Shui => zShen
  end.

Definition getTwelveStage (wuXing : WuXing) (diZhi : DiZhi) : option TwelveStage :=
  let startZhi := WU_XING_CHANG_SHENG_START_yang wuXing in
  let startIdx := indexOf DiZhi_eqb DI_ZHI startZhi in
  let currentIdx := indexOf DiZhi_eqb DI_ZHI diZhi in
  let offset := jsmod (currentIdx - startIdx + 12) 12 in
  arr_at TWELVE_STAGES offset.

Definition getTwelveStageScore (stage : TwelveStage) : Z :=
  match stage with
  | stChangSheng => 3
  | stMuYu => 1
  | stGuanDai => 2
  | stLinGuan => 3
  | stDiWang => 4
  | stShuai => -1
  | stBing => -2
  | stSi => -3
  | stMu => -2
  | stJue => -4
  | stTai => 0
  | stYang => 1
  end.

Definition analyzeProsperity (yaoInfo : YaoInfo.t) (ganZhiTime : GanZhiTime.t)
  : ProsperityAnalysis.t :=
  let yaoWuXing := YaoInfo.wuXing yaoInfo in
  let monthWuXing := GanZhiTime.monthWuXing ganZhiTime in
  let dayWuXing := GanZhiTime.dayWuXing ganZhiTime in
  let monthZhi := GanZhi.zhi (GanZhiTime.month ganZhiTime) in
  let dayZhi := GanZhi.zhi (GanZhiTime.day ganZhiTime) in
  (* 1 *)
  let monthProsperity := getProsperityByMonth yaoWuXing monthWuXing in
  let monthScore := getMonthProsperityScore monthProsperity in
  let score1 := Qplus 0 (inject_Z monthScore) in
  let reasons1 := ["月令旺衰"] in
  (* 2 *)
  let dayStatus := getDayStatus yaoWuXing dayWuXing in
  let dayScore := getDayStatusScore dayStatus in
  let score2 := Qplus score1 (inject_Z dayScore) in
  let reasons2 := reasons1 ++ ["日辰作用"] in
  (* 3 *)
  let isYaoVoid := isVoid (YaoInfo.diZhi yaoInfo) (GanZhiTime.voidBranches ganZhiTime) in
  let score3 := if isYaoVoid then Qminus score2 3 else score2 in
  let reasons3 := if isYaoVoid then reasons2 ++ ["旬空"] else reasons2 in
  (* 4 *)
  let isYaoDayBroken := isDayBroken (YaoInfo.diZhi yaoInfo) dayZhi in
  let score4 := if isYaoDayBroken then Qminus score3 4 else score3 in
  let reasons4 := if isYaoDayBroken then reasons3 ++ ["日破"] else reasons3 in
  (* 5 *)
  let isYaoMonthBroken := isMonthBroken (YaoInfo.diZhi yaoInfo) monthZhi in
  let score5 := if isYaoMonthBroken then Qminus score4 5 else score4 in
  let reasons5 := if isYaoMonthBroken then reasons4 ++ ["月破"] else reasons4 in
  (* 6 *)
  let monthStage := getTwelveStage yaoWuXing monthZhi in
  let dayStage := getTwelveStage yaoWuXing dayZhi in
  let '(score6, reasons6) :=
    match monthStage with
    | Some stage =>
        let stageScore := getTwelveStageScore stage in
        if negb (stageScore =? 0)
        then (Qplus score5 (Qmult (inject_Z stageScore) (1 # 2)), reasons5 ++ ["十二长生（月）"])
        else (score5, reasons5)
    | None => (score5, reasons5)
    end in
  let score := Qmax (inject_Z (-10)) (Qmin 10 score6) in
  ProsperityAnalysis.mk monthProsperity dayStatus monthStage dayStage score reasons6.

Definition with_prosperity (yao : YaoInfo.t) (prosperity : ProsperityState)
    (isVoid isDayBroken isMonthBroken : bool) : YaoInfo.t :=
  YaoInfo.mk (YaoInfo.yinYang yao) (YaoInfo.isMoving yao) (YaoInfo.type yao)
    (YaoInfo.coinResult yao) (YaoInfo.position yao) (YaoInfo.diZhi yao) (YaoInfo.tianGan yao)
    (YaoInfo.wuXing yao) (YaoInfo.liuQin yao) (YaoInfo.liuShen yao) (YaoInfo.isWorld yao)
    (YaoInfo.isResponse yao) (YaoInfo.changedYao yao) (Some prosperity)
    isVoid isDayBroken isMonthBroken.

Definition analyzeAllProsperity (yaoInfos : list YaoInfo.t) (ganZhiTime : GanZhiTime.t)
  : list YaoInfo.t :=
  map (fun yao =>
         let prosperity := analyzeProsperity yao ganZhiTime in
         with_prosperity yao (ProsperityAnalysis.monthProsperity prosperity)
           (isVoid (YaoInfo.diZhi yao) (GanZhiTime.voidBranches ganZhiTime))
           (isDayBroken (YaoInfo.diZhi yao) (GanZhi.zhi (GanZhiTime.day ganZhiTime)))
           (isMonthBroken (YaoInfo.diZhi yao) (GanZhi.zhi (GanZhiTime.month ganZhiTime))))
      yaoInfos.

(** ** relations.ts *)

Definition checkSixClash (zhi1 zhi2 : DiZhi) : bool := DiZhi_eqb (DI_ZHI_CHONG zhi1) zhi2.

Definition checkSixHarmony (zhi1 zhi2 : DiZhi) : bool := DiZhi_eqb (DI_ZHI_HE zhi1) zhi2.

Definition checkSixHarm (zhi1 zhi2 : DiZhi) : bool := DiZhi_eqb (DI_ZHI_HAI zhi1) zhi2.

(** [arr.includes(z)] *)
Definition includes_zhi (l : list DiZhi) (z : DiZhi) : bool := existsb (DiZhi_eqb z) l.

Definition checkThreePenalty (zhi1 zhi2 : DiZhi) : bool := includes_zhi (DI_ZHI_XING zhi1) zhi2.

(** [new Set(arr).size] *)
Fixpoint set_size (l : list DiZhi) : Z :=
  match l with
  | [] => 0
  | z :: l' => if includes_zhi l' z then set_size l' else 1 + set_size l'
  end.

(** The [for ... of Object.entries(DI_ZHI_SAN_HE)] loop of [checkThreeHarmony]. *)
Fixpoint checkThreeHarmony_loop (zhis : list DiZhi) (entries : list (list DiZhi * WuXing))
  : ThreeHarmony.t :=
  match entries with
  | [] => ThreeHarmony.mk false None
  | (sanHeKey, wuXing) :: rest =>
      let has := includes_zhi sanHeKey in
      let isMatch := forallb has zhis && (set_size sanHeKey =? set_size zhis) in
      if (Z.of_nat (List.length zhis) =? 3) && isMatch
      then ThreeHarmony.mk true (Some wuXing)
      else
        let matchCount := Z.of_nat (List.length (filter has zhis)) in
        if 2 <=? matchCount
        then ThreeHarmony.mk false (Some wuXing)
        else checkThreeHarmony_loop zhis rest
  end.

Definition checkThreeHarmony (zhis : list DiZhi) : ThreeHarmony.t :=
  checkThreeHarmony_loop zhis DI_ZHI_SAN_HE.

Definition party (yao : YaoInfo.t) : Party := PartyYao (YaoInfo.position yao) (YaoInfo.diZhi yao).

(** The body of the inner loop over line pairs. *)
Definition pair_relations (yao1 yao2 : YaoInfo.t) : list RelationAnalysis.t :=
  let z1 := YaoInfo.diZhi yao1 in
  let z2 := YaoInfo.diZhi yao2 in
  (if checkSixClash z1 z2
   then [RelationAnalysis.mk six_clash [party yao1; party yao2] Impact.negative] else [])
  ++ (if checkSixHarmony z1 z2
      then [RelationAnalysis.mk six_harmony [party yao1; party yao2] Impact.positive] else [])
  ++ (if checkSixHarm z1 z2
      then [RelationAnalysis.mk six_harm [party yao1; party yao2] Impact.negative] else [])
  ++ (if checkThreePenalty z1 z2
      then [RelationAnalysis.mk three_penalty [party yao1; party yao2] Impact.negative] else []).

(** [for i ... for j = i + 1 ...] *)
Fixpoint all_pair_relations (yaoInfos : list YaoInfo.t) : list RelationAnalysis.t :=
  match yaoInfos with
  | [] => []
  | yao1 :: rest => flat_map (pair_relations yao1) rest ++ all_pair_relations rest
  end.

Definition is_wang_xiang (p : option ProsperityState) : bool :=
  match p with
  | Some Wang | Some Xiang => true
  | _ => false
  end.

Definition day_relations (dayZhi : DiZhi) (yao : YaoInfo.t) : list RelationAnalysis.t :=
  (if checkSixClash (YaoInfo.diZhi yao) dayZhi
   then
     let isWangXiang := is_wang_xiang (YaoInfo.prosperity yao) in
     if isWangXiang && negb (YaoInfo.isMoving yao)
     then [RelationAnalysis.mk six_clash [party yao; PartyDay dayZhi] Impact.neutral]
     else []
   else [])
  ++ (if checkSixHarmony (YaoInfo.diZhi yao) dayZhi
      then [RelationAnalysis.mk six_harmony [party yao; PartyDay dayZhi] Impact.positive]
      else []).

Definition month_relations (monthZhi : DiZhi) (yao : YaoInfo.t) : list RelationAnalysis.t :=
  (if checkSixClash (YaoInfo.diZhi yao) monthZhi
   then [RelationAnalysis.mk six_clash [party yao; PartyMonth monthZhi] Impact.negative]
   else [])
  ++ (if checkSixHarmony (YaoInfo.diZhi yao) monthZhi
      then [RelationAnalysis.mk six_harmony [party yao; PartyMonth monthZhi] Impact.positive]
      else []).

Definition changed_relations (yao : YaoInfo.t) : list RelationAnalysis.t :=
  match YaoInfo.isMoving yao, YaoInfo.changedYao yao with
  | true, Some changedYao =>
      let originalZhi := YaoInfo.diZhi yao in
      let changedZhi := ChangedYaoInfo.diZhi changedYao in
      (if checkSixClash originalZhi changedZhi
       then [RelationAnalysis.mk six_clash
               [PartyYao (YaoInfo.position yao) originalZhi; PartyChanged changedZhi]
               Impact.negative]
       else [])
      ++ (if checkSixHarmony originalZhi changedZhi
          then [RelationAnalysis.mk six_harmony
                  [PartyYao (YaoInfo.position yao) originalZhi; PartyChanged changedZhi]
                  Impact.neutral]
          else [])
  | _, _ => []
  end.

Definition analyzeRelations (yaoInfos : list YaoInfo.t) (ganZhiTime : GanZhiTime.t)
  : list RelationAnalysis.t :=
  let monthZhi := GanZhi.zhi (GanZhiTime.month ganZhiTime) in
  let dayZhi := GanZhi.zhi (GanZhiTime.day ganZhiTime) in
  let allZhis := map YaoInfo.diZhi yaoInfos in
  let threeHarmonyResult := checkThreeHarmony allZhis in
  all_pair_relations yaoInfos
  ++ flat_map (day_relations dayZhi) yaoInfos
  ++ flat_map (month_relations monthZhi) yaoInfos
  ++ flat_map changed_relations yaoInfos
  ++ (match ThreeHarmony.isComplete threeHarmonyResult, ThreeHarmony.wuXing threeHarmonyResult with
      | true, Some _ => [RelationAnalysis.mk three_harmony (map PartyZhi allZhis) Impact.positive]
      | _, _ => []
      end).

(** ** yongshen.ts *)

Definition YONG_SHEN_RULES : list (string * YongShenRule.t) :=
  [ ("career_job", YongShenRule.mk (TargetLiuQin GuanGui) None);
    ("career_business", YongShenRule.mk (TargetLiuQin QiCai) None);
    ("career_promotion", YongShenRule.mk (TargetLiuQin GuanGui) None);
    ("career_interview", YongShenRule.mk (TargetLiuQin GuanGui) None);
    ("love_male", YongShenRule.mk (TargetLiuQin QiCai) None);
    ("love_female", YongShenRule.mk (TargetLiuQin GuanGui) None);
    ("love_relationship", YongShenRule.mk YingYao (Some ShiYao));
    ("wealth_general", YongShenRule.mk (TargetLiuQin QiCai) None);
    ("wealth_investment", YongShenRule.mk (TargetLiuQin QiCai) None);
    ("wealth_business", YongShenRule.mk (TargetLiuQin QiCai) None);
    ("health_self", YongShenRule.mk ShiYao (Some (TargetLiuQin GuanGui)));
    ("health_other", YongShenRule.mk YongShen (Some (TargetLiuQin GuanGui)));
    ("study_exam", YongShenRule.mk (TargetLiuQin FuMu) (Some (TargetLiuQin GuanGui)));
    ("study_learning", YongShenRule.mk (TargetLiuQin FuMu) None);
    ("lawsuit_plaintiff", YongShenRule.mk ShiYao (Some (TargetLiuQin GuanGui)));
    ("lawsuit_defendant", YongShenRule.mk ShiYao (Some (TargetLiuQin ZiSun)));
    ("travel_self", YongShenRule.mk ShiYao None);
    ("travel_safety", YongShenRule.mk ShiYao (Some (TargetLiuQin GuanGui)));
    ("lost_item", YongShenRule.mk (TargetLiuQin QiCai) None);
    ("lost_person", YongShenRule.mk YongShen None);
    ("other_general", YongShenRule.mk ShiYao None) ].

(** The [subType] names of [QUESTION_SUBTYPES], in order. *)
Definition QUESTION_SUBTYPES (category : QuestionCategory) : list string :=
  match category with
  | career => ["career_job"; "career_business"; "career_promotion"; "career_interview"]
  | love => ["love_male"; "love_female"; "love_samesex"; "love_relationship"]
  | wealth => ["wealth_general"; "wealth_investment"; "wealth_business"]
  | health => ["health_self"; "health_other"]
  | study => ["study_exam"; "study_learning"]
  | lawsuit => ["lawsuit_plaintiff"; "lawsuit_defendant"]
  | travel => ["travel_self"; "travel_safety"]
  | lost => ["lost_item"; "lost_person"]
  | other => ["other_general"]
  end.

Definition createWorldYongShen (yaoInfos : list YaoInfo.t) : completion YongShenInfo.t :=
  worldYao <- getWorldYao yaoInfos ;;
  Normal (YongShenInfo.mk (YaoInfo.liuQin worldYao) [YaoInfo.position worldYao] true None).

(** [questionSubType] is a sub-type name such as [getQuestionSubType]
    returns: [YONG_SHEN_RULES] is read as the table of its own entries,
    and a name that a JS object inherits ("constructor", "toString", ...)
    is outside the model. *)
Definition selectYongShen (yaoInfos : list YaoInfo.t) (questionSubType : string)
    (gender : option GenderOption) : completion YongShenInfo.t :=
  match lookup questionSubType YONG_SHEN_RULES with
  | None => createWorldYongShen yaoInfos
  | Some rule =>
      match YongShenRule.primary rule with
      | ShiYao => createWorldYongShen yaoInfos
      | YingYao =>
          responseYao <- getResponseYao yaoInfos ;;
          Normal (YongShenInfo.mk (YaoInfo.liuQin responseYao) [YaoInfo.position responseYao]
                                  true None)
      | YongShen => createWorldYongShen yaoInfos
      | TargetLiuQin primaryLiuQin =>
          let secondaryLiuQin :=
            match YongShenRule.secondary rule with
            | Some (TargetLiuQin l) => Some l
            | _ => None
            end in
          let alternatives :=
            match secondaryLiuQin with
            | Some l => Some [l]
            | None => None
            end in
          let yongShenYaos := findYaoByLiuQin yaoInfos primaryLiuQin in
          if Z.of_nat (List.length yongShenYaos) =? 0
          then Normal (YongShenInfo.mk primaryLiuQin [] true alternatives)
          else Normal (YongShenInfo.mk primaryLiuQin (map YaoInfo.position yongShenYaos)
                                       true alternatives)
      end
  end.

(** ** prosperity.ts and relations.ts, the remaining helpers *)

Definition getProsperityLevel (score : Q) : ProsperityLevel.t :=
  if Qle_bool 5 score then ProsperityLevel.strong
  else if Qle_bool 2 score then ProsperityLevel.medium
  else if Qle_bool (inject_Z (-2)) score then ProsperityLevel.weak
  else ProsperityLevel.very_weak.

Definition checkVoidFilled (yaoInfo : YaoInfo.t) (ganZhiTime : GanZhiTime.t) : VoidFilled.t :=
  if negb (YaoInfo.isVoid yaoInfo) then VoidFilled.mk false None
  else
    let dayZhi := GanZhi.zhi (GanZhiTime.day ganZhiTime) in
    let monthZhi := GanZhi.zhi (GanZhiTime.month ganZhiTime) in
    if DiZhi_eqb (YaoInfo.diZhi yaoInfo) dayZhi
    then VoidFilled.mk true (Some (FilledByDay dayZhi))
    else if DiZhi_eqb (YaoInfo.diZhi yaoInfo) monthZhi
    then VoidFilled.mk true (Some (FilledByMonth monthZhi))
    else if checkSixClash (YaoInfo.diZhi yaoInfo) dayZhi
    then VoidFilled.mk true (Some (FilledByDayClash dayZhi))
    else VoidFilled.mk false None.

(** [overrideYongShen] of yongshen.ts; the reason text is left out. *)
Definition overrideYongShen (yaoInfos : list YaoInfo.t) (liuQin : LiuQin) : YongShenInfo.t :=
  let yongShenYaos := findYaoByLiuQin yaoInfos liuQin in
  YongShenInfo.mk liuQin (map YaoInfo.position yongShenYaos) false None.


(** ** ganzhi.ts, the search for future days *)

(** The iterations [i], [i + 1], ... of the loop, [n] of them. *)
Fixpoint findFutureDatesWithZhi_loop (n : nat) (i : Z) (startDate : Date) (targetZhiIndex : Z)
  : list Date :=
  match n with
  | O => []
  | S n' =>
      let checkDate := getTime startDate + i * 24 * 60 * 60 * 1000 in
      let dayGanZhi := getDayGanZhi checkDate in
      let dayZhiIndex := indexOf DiZhi_eqb DI_ZHI (GanZhi.zhi dayGanZhi) in
      (if dayZhiIndex =? targetZhiIndex then [checkDate] else [])
      ++ findFutureDatesWithZhi_loop n' (i + 1) startDate targetZhiIndex
  end.

(** The days checked are 24 hours apart; they are valid Dates as long as
    [startDate] plus [maxDays] days is within the range of time values,
    and each begins a new local day when the offset of the zone is the
    same on all of them. *)
Definition findFutureDatesWithZhi (startDate : Date) (targetZhi : DiZhi) (maxDays : Z)
  : list Date :=
  let targetZhiIndex := indexOf DiZhi_eqb DI_ZHI targetZhi in
  findFutureDatesWithZhi_loop (Z.to_nat maxDays) 1 startDate targetZhiIndex.

(** ** interpretation.ts *)

Definition includes_pos (l : list Z) (p : Z) : bool := existsb (Z.eqb p) l.

Definition analyzeYongShenStatus (yaoInfos : list YaoInfo.t) (yongShen : YongShenInfo.t)
    (ganZhiTime : GanZhiTime.t)
  : completion (InterpretationItem.t * option Uncertainty.t) :=
  if Z.of_nat (List.length (YongShenInfo.positions yongShen)) =? 0
  then Normal (InterpretationItem.mk ItemType.obstacle "用神不现" (Some []),
               Some (Uncertainty.mk "用神不在卦中显现"))
  else
    match find_first (fun y => includes_pos (YongShenInfo.positions yongShen) (YaoInfo.position y))
                     yaoInfos with
    | None => Throw TypeError
    | Some yongShenYao =>
        let prosperity := analyzeProsperity yongShenYao ganZhiTime in
        let isStrong :=
          match ProsperityAnalysis.monthProsperity prosperity with
          | Wang | Xiang => true
          | _ => false
          end in
        let isVoid := YaoInfo.isVoid yongShenYao in
        let isBroken := YaoInfo.isDayBroken yongShenYao || YaoInfo.isMonthBroken yongShenYao in
        let uncertainty := if isVoid then Some (Uncertainty.mk "用神临空亡") else None in
        Normal (InterpretationItem.mk
                  (if isStrong && negb isVoid && negb isBroken
                   then ItemType.support else ItemType.obstacle)
                  (hd "" (ProsperityAnalysis.reasons prosperity))
                  (Some [YaoInfo.position yongShenYao]),
                uncertainty)
    end.

Definition analyzeWorldResponse (yaoInfos : list YaoInfo.t) (ganZhiTime : GanZhiTime.t)
    (questionCategory : QuestionCategory) : completion InterpretationItem.t :=
  worldYao <- getWorldYao yaoInfos ;;
  responseYao <- getResponseYao yaoInfos ;;
  let worldProsperity := analyzeProsperity worldYao ganZhiTime in
  let responseProsperity := analyzeProsperity responseYao ganZhiTime in
  let worldStrong := Qlt_bool 0 (ProsperityAnalysis.score worldProsperity) in
  let responseStrong := Qlt_bool 0 (ProsperityAnalysis.score responseProsperity) in
  Normal (InterpretationItem.mk
            (if worldStrong then ItemType.support else ItemType.obstacle)
            "世应分析"
            (Some [YaoInfo.position worldYao; YaoInfo.position responseYao])).

(** [null] is [None]. *)
Definition analyzeMovingYao (yaoInfos : list YaoInfo.t) (changedYaoInfos : option (list YaoInfo.t))
    (yongShen : YongShenInfo.t) : option (InterpretationItem.t * option Uncertainty.t) :=
  let movingYaos := filter YaoInfo.isMoving yaoInfos in
  if Z.of_nat (List.length movingYaos) =? 0 then None
  else if 4 <=? Z.of_nat (List.length movingYaos)
  then Some (InterpretationItem.mk ItemType.risk "多爻齐动"
               (Some (map YaoInfo.position movingYaos)),
             Some (Uncertainty.mk "动爻过多"))
  else Some (InterpretationItem.mk ItemType.trend "动爻分析"
               (Some (map YaoInfo.position movingYaos)),
             None).

Definition getRelationTypeName (type : DiZhiRelation) : string :=
  match type with
  | six_clash => "六冲"
  | six_harmony => "六合"
  | three_harmony => "三合"
  | three_penalty => "三刑"
  | six_harm => "六害"
  | destruction => "破"
  | none => "none"
  end.

Definition analyzeRelationsImpact (relations : list RelationAnalysis.t)
    (yongShen : YongShenInfo.t) (yaoInfos : list YaoInfo.t) : list InterpretationItem.t :=
  let importantRelations :=
    filter (fun r =>
              match RelationAnalysis.type r with
              | six_clash | six_harmony | three_penalty | six_harm => true
              | _ => false
              end) relations in
  map (fun relation =>
         InterpretationItem.mk
           (match RelationAnalysis.impact relation with
            | Impact.positive => ItemType.support
            | Impact.negative => ItemType.obstacle
            | Impact.neutral => ItemType.trend
            end)
           (getRelationTypeName (RelationAnalysis.type relation))
           None)
      (slice 0 3 importantRelations).

Definition analyzeVoidAndBroken (yaoInfos : list YaoInfo.t) (yongShen : YongShenInfo.t)
    (ganZhiTime : GanZhiTime.t) : option InterpretationItem.t :=
  match find_first (fun y => includes_pos (YongShenInfo.positions yongShen) (YaoInfo.position y))
                   yaoInfos with
  | None => None
  | Some yongShenYao =>
      if YaoInfo.isVoid yongShenYao
      then Some (InterpretationItem.mk ItemType.obstacle "用神空亡"
                   (Some [YaoInfo.position yongShenYao]))
      else if YaoInfo.isDayBroken yongShenYao || YaoInfo.isMonthBroken yongShenYao
      then
        let breakType := if YaoInfo.isMonthBroken yongShenYao then "月破" else "日破" in
        Some (InterpretationItem.mk ItemType.obstacle breakType
                (Some [YaoInfo.position yongShenYao]))
      else None
  end.

(** [dates.sort((a, b) => a.getTime() - b.getTime())] *)
Fixpoint insert_date (d : Date) (l : list Date) : list Date :=
  match l with
  | [] => [d]
  | x :: l' => if d <? x then d :: l else x :: insert_date d l'
  end.

Fixpoint sort_dates (l : list Date) : list Date :=
  match l with
  | [] => []
  | d :: l' => insert_date d (sort_dates l')
  end.

(** [today] is the value of the [new Date()] that the function evaluates.
    The months found by [findFutureMonthsWithZhi] only reach the text of
    a prediction and are not embedded. *)
Definition predictTiming (today : Date) (yaoInfos : list YaoInfo.t) (yongShen : YongShenInfo.t)
    (ganZhiTime : GanZhiTime.t) (changedYaoInfos : option (list YaoInfo.t))
  : list TimingPrediction.t :=
  match find_first (fun y => includes_pos (YongShenInfo.positions yongShen) (YaoInfo.position y))
                   yaoInfos with
  | None => []
  | Some yongShenYao =>
      (if YaoInfo.isVoid yongShenYao
       then
         let voidZhi := YaoInfo.diZhi yongShenYao in
         let clashZhi := DI_ZHI_CHONG voidZhi in
         let fillDates := slice 0 3 (findFutureDatesWithZhi today voidZhi 90) in
         let clashDates := slice 0 3 (findFutureDatesWithZhi today clashZhi 90) in
         let allDates := slice 0 4 (sort_dates (fillDates ++ clashDates)) in
         [TimingPrediction.mk "用神出空后事情才会有进展" Confidence.medium allDates]
       else [])
      ++ (if negb (YaoInfo.isVoid yongShenYao) && negb (YaoInfo.isDayBroken yongShenYao)
          then
            let targetZhi := YaoInfo.diZhi yongShenYao in
            let futureDates := slice 0 4 (findFutureDatesWithZhi today targetZhi 90) in
            [TimingPrediction.mk "关键因素发力的时间" Confidence.medium futureDates]
          else [])
      ++ (match YaoInfo.isMoving yongShenYao, YaoInfo.changedYao yongShenYao with
          | true, Some changedYao =>
              let changedZhi := ChangedYaoInfo.diZhi changedYao in
              let futureDates := slice 0 3 (findFutureDatesWithZhi today changedZhi 90) in
              [TimingPrediction.mk "变化完成的时间" Confidence.low futureDates]
          | _, _ => []
          end)
  end.

(** The [for] loop of [judgeTrend] over the items, threading the two counters. *)
Fixpoint judgeTrend_count (items : list InterpretationItem.t) (supportCount obstacleCount : Z)
  : Z * Z :=
  match items with
  | [] => (supportCount, obstacleCount)
  | item :: rest =>
      let supportCount1 :=
        match InterpretationItem.type item with
        | ItemType.support => supportCount + 1
        | _ => supportCount
        end in
      let obstacleCount1 :=
        match InterpretationItem.type item with
        | ItemType.obstacle => obstacleCount + 1
        | _ => obstacleCount
        end in
      let obstacleCount2 :=
        match InterpretationItem.type item with
        | ItemType.risk => obstacleCount1 + 2
        | _ => obstacleCount1
        end in
      judgeTrend_count rest supportCount1 obstacleCount2
  end.

Definition judgeTrend (items : list InterpretationItem.t)
    (yongShenAnalysis : InterpretationItem.t * option Uncertainty.t) (uncertaintyCount : Z)
  : TrendJudgment.t :=
  if 2 <=? uncertaintyCount then TrendJudgment.uncertain
  else
    let '(supportCount0, obstacleCount0) := judgeTrend_count items 0 0 in
    let '(supportCount, obstacleCount) :=
      match InterpretationItem.type (fst yongShenAnalysis) with
      | ItemType.support => (supportCount0 + 2, obstacleCount0)
      | ItemType.obstacle => (supportCount0, obstacleCount0 + 2)
      | _ => (supportCount0, obstacleCount0)
      end in
    let diff := supportCount - obstacleCount in
    if 4 <=? diff then TrendJudgment.very_favorable
    else if 2 <=? diff then TrendJudgment.favorable
    else if diff <=? -4 then TrendJudgment.very_unfavorable
    else if diff <=? -2 then TrendJudgment.unfavorable
    else TrendJudgment.neutral.

Definition option_to_list {A : Type} (o : option A) : list A :=
  match o with
  | Some a => [a]
  | None => []
  end.

(** [generateSummary] only assembles text; [generateCausalChain] reads the
    self line again and so can raise like [getWorldYao]. *)
Definition generateInterpretation (today : Date)
    (primaryYaoInfos : list YaoInfo.t) (changedYaoInfos : option (list YaoInfo.t))
    (primaryGua : GuaInfo.t) (changedGua : option GuaInfo.t)
    (ganZhiTime : GanZhiTime.t) (yongShen : YongShenInfo.t)
    (relations : list RelationAnalysis.t) (questionCategory : QuestionCategory)
  : completion InterpretationResult.t :=
  (* 1 *)
  yongShenAnalysis <- analyzeYongShenStatus primaryYaoInfos yongShen ganZhiTime ;;
  let items1 := [fst yongShenAnalysis] in
  let uncertainties1 := option_to_list (snd yongShenAnalysis) in
  (* 2 *)
  worldResponseAnalysis <- analyzeWorldResponse primaryYaoInfos ganZhiTime questionCategory ;;
  let items2 := items1 ++ [worldResponseAnalysis] in
  (* 3 *)
  let movingYaoAnalysis := analyzeMovingYao primaryYaoInfos changedYaoInfos yongShen in
  let items3 :=
    match movingYaoAnalysis with
    | Some a => items2 ++ [fst a]
    | None => items2
    end in
  let uncertainties3 :=
    match movingYaoAnalysis with
    | Some a => uncertainties1 ++ option_to_list (snd a)
    | None => uncertainties1
    end in
  (* 4 *)
  let relationAnalysis := analyzeRelationsImpact relations yongShen primaryYaoInfos in
  let items4 := items3 ++ relationAnalysis in
  (* 5 *)
  let voidAnalysis := analyzeVoidAndBroken primaryYaoInfos yongShen ganZhiTime in
  let items := items4 ++ option_to_list voidAnalysis in
  (* 6 *)
  let timingPredictions := predictTiming today primaryYaoInfos yongShen ganZhiTime changedYaoInfos in
  (* 7 *)
  let trend := judgeTrend items yongShenAnalysis (Z.of_nat (List.length uncertainties3)) in
  (* 9 *)
  _ <- getWorldYao primaryYaoInfos ;;
  Normal (InterpretationResult.mk trend items timingPredictions uncertainties3).

(** ** engine.ts *)

Definition option_string_eqb (o : option string) (s : string) : bool :=
  match o with
  | Some s' => String.eqb s' s
  | None => false
  end.

Definition gender_is (o : option GenderOption) (g : GenderOption) : bool :=
  match o, g with
  | Some male, male | Some female, female | Some same_sex, same_sex => true
  | _, _ => false
  end.

Definition getQuestionSubType (category : QuestionCategory) (userSubType : option string)
    (gender : option GenderOption) : string :=
  match category with
  | love =>
      if option_string_eqb userSubType "same_sex" || gender_is gender same_sex
      then "love_samesex"
      else if option_string_eqb userSubType "female" || gender_is gender female
      then "love_female"
      else if option_string_eqb userSubType "male" || gender_is gender male
      then "love_male"
      else "love_male"
  | career =>
      if option_string_eqb userSubType "business" then "career_business" else "career_job"
  | health =>
      if option_string_eqb userSubType "other" then "health_other" else "health_self"
  | lost =>
      if option_string_eqb userSubType "person" then "lost_person" else "lost_item"
  | _ =>
      match QUESTION_SUBTYPES category with
      | subtype :: _ => subtype
      | [] => "other_general"
      end
  end.

(** [castHexagram] of engine.ts, its ten steps numbered as in the source;
    of an entry of the reasoning chain the model keeps the rule name.
    Step 1 also formats the casting time with [toISOString], which
    returns for every valid Date and raises a RangeError on the Invalid
    Date, which is outside [Date]: the model is of castings at a valid
    Date. *)
Definition castHexagram (env : Env.t) (input : CastingInput.t) : completion DivinationResult.t :=
  (* 1 *)
  let ganZhiTime := getGanZhiTime (CastingTime.gregorian (CastingInput.time input)) in
  let chain1 := ["时间转换"] in
  (* 2 *)
  primaryGua <- getGuaFromYaoStates (CastingInput.yaoStates input) ;;
  let chain2 := chain1 ++ ["本卦确定"] in
  (* 3 *)
  primaryYaoInfos0 <- installHexagram (CastingInput.yaoStates input) primaryGua ;;
  let chain3 := chain2 ++ ["纳甲装卦"] in
  (* 4 *)
  let primaryYaoInfos1 := installLiuShen primaryYaoInfos0 (GanZhi.gan (GanZhiTime.day ganZhiTime)) in
  _ <- (match primaryYaoInfos1 with [] => Throw TypeError | _ :: _ => Normal tt end) ;;
  let chain4 := chain3 ++ ["安六神"] in
  (* 5 *)
  let primaryYaoInfos := analyzeAllProsperity primaryYaoInfos1 ganZhiTime in
  let chain5 := chain4 ++ ["旺衰分析"] in
  (* 6 *)
  let movingPositions := getMovingPositions (CastingInput.yaoStates input) in
  changed <-
    (if 0 <? Z.of_nat (List.length movingPositions)
     then
       changedGua <- getChangedGua (CastingInput.yaoStates input) ;;
       match changedGua with
       | Some g =>
           let changedYaoInfos0 := getChangedYaoInfos primaryYaoInfos g in
           let changedYaoInfos := analyzeAllProsperity changedYaoInfos0 ganZhiTime in
           Normal (Some g, Some changedYaoInfos, chain5 ++ ["变卦确定"])
       | None => Normal (None, None, chain5)
       end
     else Normal (None, None, chain5)) ;;
  let '(changedGua, changedYaoInfos, chain6) := changed in
  (* 7 *)
  mutualGua <- getMutualGua (CastingInput.yaoStates input) ;;
  let oppositeGua := getOppositeGua (CastingInput.yaoStates input) in
  let reverseGua := getReverseGua (CastingInput.yaoStates input) in
  (* 8 *)
  let relations := analyzeRelations primaryYaoInfos ganZhiTime in
  let chain8 :=
    if 0 <? Z.of_nat (List.length relations) then chain6 ++ ["关系分析"] else chain6 in
  (* 9 *)
  let questionSubType :=
    getQuestionSubType (CastingInput.questionCategory input) (CastingInput.subType input)
                       (CastingInput.gender input) in
  yongShen <- selectYongShen primaryYaoInfos questionSubType (CastingInput.gender input) ;;
  let chain9 := chain8 ++ ["用神选取"] in
  (* 10 *)
  interpretation <-
    generateInterpretation (Env.today env) primaryYaoInfos changedYaoInfos primaryGua changedGua
      ganZhiTime yongShen relations (CastingInput.questionCategory input) ;;
  Normal (DivinationResult.mk (Env.nanoid env) (Env.createdAt env) input
            primaryGua primaryYaoInfos changedGua changedYaoInfos
            mutualGua oppositeGua reverseGua movingPositions
            ganZhiTime yongShen relations interpretation chain9).

Definition createCastingTime (date : Date) (timezone : string) : CastingTime.t :=
  CastingTime.mk date timezone (getGanZhiTime date).

(** ** engine.ts, the share code *)

Definition method_name (m : CastingMethod.t) : string :=
  match m with
  | CastingMethod.coin => "coin"
  | CastingMethod.time => "time"
  | CastingMethod.manual => "manual"
  end.

Definition category_name (q : QuestionCategory) : string :=
  match q with
  | career => "career"
  | love => "love"
  | wealth => "wealth"
  | health => "health"
  | study => "study"
  | lawsuit => "lawsuit"
  | travel => "travel"
  | lost => "lost"
  | other => "other"
  end.

Definition draw_char (type : YaoType) : ascii :=
  match type with
  | old_yang => "9"%char
  | young_yang => "7"%char
  | young_yin => "8"%char
  | old_yin => "6"%char
  end.

(** The object [data] of [serializeResult]. *)
Definition share_data (result : DivinationResult.t) : JSON :=
  let input := DivinationResult.input result in
  JObject
    [ ("y", JString (join_chars (map (fun y => draw_char (YaoState.type y))
                                   (CastingInput.yaoStates input))));
      ("t", JNumber (inject_Z (getTime (CastingTime.gregorian (CastingInput.time input)))));
      ("q", JString (category_name (CastingInput.questionCategory input)));
      ("m", JString (method_name (CastingInput.method input))) ].

(** [v.key]: [undefined] is [None]; reading a property of [null] raises. *)
Definition get_property (v : JSON) (key : string) : completion (option JSON) :=
  match v with
  | JNull => Throw TypeError
  | JObject fields => Normal (lookup key fields)
  | _ => Normal None
  end.

Definition truthy (o : option JSON) : bool :=
  match o with
  | None => false
  | Some JNull => false
  | Some (JBool b) => b
  | Some (JNumber q) => negb (Qeq_bool q 0)
  | Some (JString s) => negb (String.eqb s "")
  | Some (JArray _) => true
  | Some (JObject _) => true
  end.

(** [o || d] *)
Definition or_default (o : option JSON) (d : JSON) : JSON :=
  match o with
  | Some v => if truthy o then v else d
  | None => d
  end.

(** [parseInt(char)] for a one-character string; [NaN] is [None]. *)
Definition parseInt_char (c : ascii) : option Z :=
  let n := Z.of_nat (nat_of_ascii c) in
  if (48 <=? n) && (n <=? 57) then Some (n - 48) else None.

Definition num_is (num : option Z) (k : Z) : bool :=
  match num with
  | Some n => n =? k
  | None => false
  end.

(** The callback of [data.y.split('').map(...)].  A [coinResult] that is
    [NaN] is rendered as an absent one. *)
Definition yaoState_of_char (char : ascii) : YaoState.t :=
  let num := parseInt_char char in
  YaoState.mk
    (if num_is num 7 || num_is num 9 then Yang else Yin)
    (num_is num 6 || num_is num 9)
    (if num_is num 9 then old_yang
     else if num_is num 7 then young_yang
     else if num_is num 8 then young_yin
     else old_yin)
    num.

Definition maxTimeValue : Z := 8640000000000000.

(** [TimeClip] of a number taken at its exact value. *)
Definition TimeClip (q : Q) : option Date :=
  if Qle_bool (inject_Z (- maxTimeValue)) q && Qle_bool q (inject_Z maxTimeValue)
  then Some (Z.quot (Qnum q) (Z.pos (Qden q)))
  else None.

(** Whether [ToPrimitive] finds no primitive value for a decoded array or
    object and raises a TypeError.  A decoded object inherits [valueOf],
    which returns the object itself, and [toString], which returns a
    string, unless an own member "toString" shadows the latter: a decoded
    value is never callable.  An array is joined from the strings of its
    members, so it has no primitive value when one of them has none. *)
Fixpoint no_primitive (v : JSON) : bool :=
  match v with
  | JObject fields =>
      match lookup "toString" fields with
      | Some _ => true
      | None => false
      end
  | JArray items => existsb no_primitive items
  | _ => false
  end.

Section Builtins.

(** The builtins of the host: base64, JSON, date parsing, the conversion of
    an object or array to a string, and the resolved time zone name. *)
Variable btoa : string -> completion string.
Variable atob : string -> completion string.
Variable JSON_stringify : JSON -> string.
Variable JSON_parse : string -> completion JSON.
Variable Date_parse : string -> option Date.
Variable ToString : JSON -> string.
Variable resolvedTimeZone : string.

Definition serializeResult (result : DivinationResult.t) : completion string :=
  btoa (JSON_stringify (share_data result)).

(** [new Date(v)] for a value read from the decoded object: [undefined]
    and a number out of range give an Invalid Date ([None]), a string is
    parsed, and an array or object is first converted to a primitive
    value, which raises when it has none. *)
Definition new_Date_of (o : option JSON) : completion (option Date) :=
  match o with
  | None => Normal None
  | Some JNull => Normal (Some 0)
  | Some (JBool b) => Normal (Some (if b then 1 else 0))
  | Some (JNumber q) => Normal (TimeClip q)
  | Some (JString s) => Normal (Date_parse s)
  | Some v => if no_primitive v then Throw TypeError else Normal (Date_parse (ToString v))
  end.

Definition createCastingTime_raw (date : option Date) : RawCastingTime.t :=
  RawCastingTime.mk date resolvedTimeZone (option_map getGanZhiTime date).

(** The [try] block of [deserializeResult]. *)
Definition deserializeResult_try (encoded : string) : completion RawCastingInput.t :=
  text <- atob encoded ;;
  data <- JSON_parse text ;;
  y <- get_property data "y" ;;
  match y with
  | Some (JString ystr) =>
      let yaoStates := map yaoState_of_char (split_chars ystr) in
      m <- get_property data "m" ;;
      t <- get_property data "t" ;;
      date <- new_Date_of t ;;
      q <- get_property data "q" ;;
      Normal (RawCastingInput.mk
                (or_default m (JString "coin"))
                yaoStates
                (createCastingTime_raw date)
                (or_default q (JString "other")))
  | _ => Throw TypeError
  end.

(** [null] is [None]. *)
Definition deserializeResult (encoded : string) : completion (option RawCastingInput.t) :=
  try_catch (r <- deserializeResult_try encoded ;; Normal (Some r)) None.

End Builtins.

Definition validateCastingInput (yaoStates : option (list YaoState.t))
    (time : option CastingTime.t) (questionCategory : option QuestionCategory) : list string :=
  (match yaoStates with
   | Some l => if Z.of_nat (List.length l) =? 6 then [] else ["必须提供6个爻的状态"]
   | None => ["必须提供6个爻的状态"]
   end)
  ++ (match time with Some _ => [] | None => ["必须提供起卦时间"] end)
  ++ (match questionCategory with Some _ => [] | None => ["必须选择问事类别"] end).

End LocalZone.

(** ** store/divination.ts *)

Definition coinResultToYaoState (sum : Z) : option YaoState.t :=
  if sum =? 6 then Some (YaoState.mk Yin true old_yin (Some 6))
  else if sum =? 7 then Some (YaoState.mk Yang false young_yang (Some 7))
  else if sum =? 8 then Some (YaoState.mk Yin false young_yin (Some 8))
  else if sum =? 9 then Some (YaoState.mk Yang true old_yang (Some 9))
  else None.

Definition getDefaultSubType (category : QuestionCategory) : string :=
  match category with
  | career => "career_job"
  | love => "love_relationship"
  | wealth => "wealth_general"
  | health => "health_self"
  | study => "study_exam"
  | lawsuit => "lawsuit_plaintiff"
  | travel => "travel_self"
  | lost => "lost_item"
  | other => "other_general"
  end.

(** The initial state of [useDivinationStore]. *)
Definition initialState : DivinationState.t :=
  DivinationState.mk CastingMethod.coin other "other_general" [] 0 [] None false true.

Definition setMethod (s : DivinationState.t) (method : CastingMethod.t) : DivinationState.t :=
  DivinationState.mk method (DivinationState.questionCategory s)
    (DivinationState.questionSubType s) (DivinationState.coinResults s)
    (DivinationState.currentYaoIndex s) (DivinationState.yaoStates s)
    (DivinationState.result s) (DivinationState.isExpertMode s)
    (DivinationState.isFirstVisit s).

Definition setQuestionCategory (s : DivinationState.t) (category : QuestionCategory)
  : DivinationState.t :=
  DivinationState.mk (DivinationState.method s) category (getDefaultSubType category)
    (DivinationState.coinResults s) (DivinationState.currentYaoIndex s)
    (DivinationState.yaoStates s) (DivinationState.result s)
    (DivinationState.isExpertMode s) (DivinationState.isFirstVisit s).

Definition setQuestionSubType (s : DivinationState.t) (subType : string) : DivinationState.t :=
  DivinationState.mk (DivinationState.method s) (DivinationState.questionCategory s) subType
    (DivinationState.coinResults s) (DivinationState.currentYaoIndex s)
    (DivinationState.yaoStates s) (DivinationState.result s)
    (DivinationState.isExpertMode s) (DivinationState.isFirstVisit s).

(** [set({ coinResults, yaoStates, currentYaoIndex })] *)
Definition set_coins (s : DivinationState.t) (coinResults : list Z)
    (yaoStates : list (option YaoState.t)) (currentYaoIndex : Z) : DivinationState.t :=
  DivinationState.mk (DivinationState.method s) (DivinationState.questionCategory s)
    (DivinationState.questionSubType s) coinResults currentYaoIndex yaoStates
    (DivinationState.result s) (DivinationState.isExpertMode s)
    (DivinationState.isFirstVisit s).

(** [set({ result })] *)
Definition set_result (s : DivinationState.t) (result : option DivinationResult.t)
  : DivinationState.t :=
  DivinationState.mk (DivinationState.method s) (DivinationState.questionCategory s)
    (DivinationState.questionSubType s) (DivinationState.coinResults s)
    (DivinationState.currentYaoIndex s) (DivinationState.yaoStates s) result
    (DivinationState.isExpertMode s) (DivinationState.isFirstVisit s).

(** Every third coin closes a line: the sum of the last three coins. *)
Definition addCoinResult (s : DivinationState.t) (result : Z) : DivinationState.t :=
  let coinResults := DivinationState.coinResults s in
  let currentYaoIndex := DivinationState.currentYaoIndex s in
  let yaoStates := DivinationState.yaoStates s in
  let newCoinResults := coinResults ++ [result] in
  if jsmod (Z.of_nat (List.length newCoinResults)) 3 =? 0
  then
    let lastThree := skipn (List.length newCoinResults - 3) newCoinResults in
    let sum := fold_left Z.add lastThree 0 in
    let yaoState := coinResultToYaoState sum in
    let newYaoStates := yaoStates ++ [yaoState] in
    set_coins s newCoinResults newYaoStates (currentYaoIndex + 1)
  else set_coins s newCoinResults yaoStates currentYaoIndex.

Definition setAllYaoStates (s : DivinationState.t) (states : list YaoState.t)
  : DivinationState.t :=
  set_coins s (DivinationState.coinResults s) (map Some states) 6.

Definition reset (s : DivinationState.t) : DivinationState.t :=
  DivinationState.mk (DivinationState.method s) (DivinationState.questionCategory s)
    (DivinationState.questionSubType s) [] 0 [] None
    (DivinationState.isExpertMode s) (DivinationState.isFirstVisit s).

Definition toggleExpertMode (s : DivinationState.t) : DivinationState.t :=
  DivinationState.mk (DivinationState.method s) (DivinationState.questionCategory s)
    (DivinationState.questionSubType s) (DivinationState.coinResults s)
    (DivinationState.currentYaoIndex s) (DivinationState.yaoStates s)
    (DivinationState.result s) (negb (DivinationState.isExpertMode s))
    (DivinationState.isFirstVisit s).

(** The lines of the store as [castHexagram] reads them: reading
    [yinYang] of an [undefined] line raises. *)
Fixpoint defined_lines (l : list (option YaoState.t)) : completion (list YaoState.t) :=
  match l with
  | [] => Normal []
  | Some y :: l' => (ys <- defined_lines l' ;; Normal (y :: ys))%js
  | None :: _ => Throw TypeError
  end.

(** [now] is the value of [new Date()] in the action and [timezone] the
    resolved time zone of the host; with other than six lines the action
    only logs an error. *)
Definition performDivination (tza : Z) (env : Env.t) (now : Date) (timezone : string)
    (s : DivinationState.t) : completion DivinationState.t :=
  if negb (Z.of_nat (List.length (DivinationState.yaoStates s)) =? 6) then Normal s
  else
    (yaoStates <- defined_lines (DivinationState.yaoStates s) ;;
     let input :=
       CastingInput.mk (DivinationState.method s) yaoStates
         (createCastingTime tza now timezone) (DivinationState.questionCategory s) None None in
     result <- castHexagram tza env input ;;
     Normal (set_result s (Some result)))%js.


(** ** A reference implementation of the host builtins

    Base64 and JSON for the values that share codes hold: objects, arrays,
    strings, integers, booleans and [null].  It serves to run the share
    code on concrete castings. *)

Definition dquote : ascii := ascii_of_nat 34.
Definition backslash : ascii := ascii_of_nat 92.

Definition base64_alphabet : string :=
  "ABCDEFGHIJKLMNOPQRSTUVWXYZabcdefghijklmnopqrstuvwxyz0123456789+/".

Definition base64_char (n : Z) : ascii :=
  match String.get (Z.to_nat n) base64_alphabet with
  | Some c => c
  | None => "="%char
  end.

Definition byte_value (c : ascii) : Z := Z.of_nat (nat_of_ascii c).

Fixpoint base64_encode (l : list ascii) : list ascii :=
  match l with
  | [] => []
  | [a] =>
      let n := byte_value a * 65536 in
      [base64_char (n / 262144); base64_char ((n / 4096) mod 64); "="%char; "="%char]
  | [a; b] =>
      let n := byte_value a * 65536 + byte_value b * 256 in
      [base64_char (n / 262144); base64_char ((n / 4096) mod 64);
       base64_char ((n / 64) mod 64); "="%char]
  | a :: b :: c :: rest =>
      let n := byte_value a * 65536 + byte_value b * 256 + byte_value c in
      base64_char (n / 262144) :: base64_char ((n / 4096) mod 64)
        :: base64_char ((n / 64) mod 64) :: base64_char (n mod 64)
        :: base64_encode rest
  end.

Definition base64_index (c : ascii) : option Z :=
  let n := byte_value c in
  if (65 <=? n) && (n <=? 90) then Some (n - 65)
  else if (97 <=? n) && (n <=? 122) then Some (n - 71)
  else if (48 <=? n) && (n <=? 57) then Some (n + 4)
  else if n =? 43 then Some 62
  else if n =? 47 then Some 63
  else None.

Definition byte_of (n : Z) : ascii := ascii_of_nat (Z.to_nat (n mod 256)).

Definition is_pad (c : ascii) : bool := Ascii.eqb c "=".

Fixpoint base64_decode (l : list ascii) : option (list ascii) :=
  match l with
  | [] => Some []
  | a :: b :: c :: d :: rest =>
      match base64_index a, base64_index b with
      | Some ia, Some ib =>
          if is_pad c && is_pad d
          then match rest with
               | [] => Some [byte_of ((ia * 262144 + ib * 4096) / 65536)]
               | _ :: _ => None
               end
          else
            match base64_index c with
            | Some ic =>
                if is_pad d
                then match rest with
                     | [] =>
                         let n := ia * 262144 + ib * 4096 + ic * 64 in
                         Some [byte_of (n / 65536); byte_of (n / 256)]
                     | _ :: _ => None
                     end
                else
                  match base64_index d, base64_decode rest with
                  | Some id, Some bytes =>
                      let n := ia * 262144 + ib * 4096 + ic * 64 + id in
                      Some (byte_of (n / 65536) :: byte_of (n / 256) :: byte_of n :: bytes)
                  | _, _ => None
                  end
            | None => None
            end
      | _, _ => None
      end
  | _ => None
  end.

Definition reference_btoa (s : string) : completion string :=
  Normal (string_of_list_ascii (base64_encode (list_ascii_of_string s))).

Definition reference_atob (s : string) : completion string :=
  match base64_decode (list_ascii_of_string s) with
  | Some bytes => Normal (string_of_list_ascii bytes)
  | None => Throw InvalidCharacterError
  end.

(** Decimal digits of a positive number, with [fuel] above their count. *)
Fixpoint digits_of (fuel : nat) (n : Z) (acc : list ascii) : list ascii :=
  match fuel with
  | O => acc
  | S fuel' =>
      let acc' := ascii_of_nat (Z.to_nat (48 + n mod 10)) :: acc in
      if n / 10 =? 0 then acc' else digits_of fuel' (n / 10) acc'
  end.

Definition print_Z (z : Z) : string :=
  if z <? 0
  then String "-" (string_of_list_ascii (digits_of (Z.to_nat (Z.log2 (- z)) + 1) (- z) []))
  else string_of_list_ascii (digits_of (Z.to_nat (Z.log2 z) + 1) z []).

Fixpoint escape_chars (l : list ascii) : list ascii :=
  match l with
  | [] => []
  | c :: l' =>
      if Ascii.eqb c dquote || Ascii.eqb c backslash
      then backslash :: c :: escape_chars l'
      else c :: escape_chars l'
  end.

Definition print_string (s : string) : string :=
  String dquote (String.append (string_of_list_ascii (escape_chars (list_ascii_of_string s)))
                               (String dquote "")).

Fixpoint reference_JSON_stringify (v : JSON) : string :=
  match v with
  | JNull => "null"
  | JBool b => if b then "true" else "false"
  | JNumber q => if Pos.eqb (Qden q) 1 then print_Z (Qnum q) else "null"
  | JString s => print_string s
  | JArray items =>
      String.append "["
        (String.append
           ((fix loop (l : list JSON) : string :=
               match l with
               | [] => ""
               | x :: l' =>
                   String.append (reference_JSON_stringify x)
                     (match l' with
                      | [] => ""
                      | _ :: _ => String.append "," (loop l')
                      end)
               end) items)
           "]")
  | JObject fields =>
      String.append "{"
        (String.append
           ((fix loop (l : list (string * JSON)) : string :=
               match l with
               | [] => ""
               | (k, x) :: l' =>
                   String.append (print_string k)
                     (String.append ":"
                        (String.append (reference_JSON_stringify x)
                           (match l' with
                            | [] => ""
                            | _ :: _ => String.append "," (loop l')
                            end)))
               end) fields)
           "}")
  end.

Definition is_ws (c : ascii) : bool :=
  let n := byte_value c in
  (n =? 32) || (n =? 9) || (n =? 10) || (n =? 13).

Fixpoint skip_ws (l : list ascii) : list ascii :=
  match l with
  | c :: l' => if is_ws c then skip_ws l' else l
  | [] => []
  end.

Definition is_digit (c : ascii) : bool :=
  let n := byte_value c in (48 <=? n) && (n <=? 57).

(** The characters of a string literal after the opening quote. *)
Fixpoint parse_string_body (l : list ascii) (acc : list ascii) : option (string * list ascii) :=
  match l with
  | [] => None
  | c :: l' =>
      if Ascii.eqb c dquote then Some (string_of_list_ascii (rev acc), l')
      else if Ascii.eqb c backslash
      then match l' with
           | e :: l'' =>
               if Ascii.eqb e dquote || Ascii.eqb e backslash || Ascii.eqb e "/"
               then parse_string_body l'' (e :: acc)
               else None
           | [] => None
           end
      else if byte_value c <? 32 then None
      else parse_string_body l' (c :: acc)
  end.

Fixpoint parse_digits (l : list ascii) (acc : Z) : Z * list ascii :=
  match l with
  | c :: l' => if is_digit c then parse_digits l' (acc * 10 + (byte_value c - 48)) else (acc, l)
  | [] => (acc, [])
  end.

(** An integer literal; fractions and exponents are outside the fragment. *)
Definition parse_number (l : list ascii) : option (Z * list ascii) :=
  let '(negative, l1) :=
    match l with
    | c :: l' => if Ascii.eqb c "-" then (true, l') else (false, l)
    | [] => (false, l)
    end in
  match l1 with
  | c :: _ =>
      if is_digit c
      then
        let '(n, rest) := parse_digits l1 0 in
        match rest with
        | d :: _ =>
            if Ascii.eqb d "." || Ascii.eqb d "e" || Ascii.eqb d "E" then None
            else Some (if negative then - n else n, rest)
        | [] => Some (if negative then - n else n, rest)
        end
      else None
  | [] => None
  end.

Fixpoint strip_prefix (p l : list ascii) : option (list ascii) :=
  match p, l with
  | [], _ => Some l
  | c :: p', d :: l' => if Ascii.eqb c d then strip_prefix p' l' else None
  | _ :: _, [] => None
  end.

(** A later member replaces an earlier one of the same name. *)
Fixpoint set_field (k : string) (v : JSON) (fields : list (string * JSON))
  : list (string * JSON) :=
  match fields with
  | [] => [(k, v)]
  | (k', v') :: rest =>
      if String.eqb k' k then (k, v) :: rest else (k', v') :: set_field k v rest
  end.

Fixpoint parse_value (fuel : nat) (l : list ascii) : option (JSON * list ascii) :=
  match fuel with
  | O => None
  | S fuel' =>
      match skip_ws l with
      | [] => None
      | c :: rest =>
          if Ascii.eqb c dquote
          then match parse_string_body rest [] with
               | Some (s, r) => Some (JString s, r)
               | None => None
               end
          else if Ascii.eqb c "["
          then match skip_ws rest with
               | d :: r => if Ascii.eqb d "]" then Some (JArray [], r)
                           else parse_elements fuel' rest []
               | [] => None
               end
          else if Ascii.eqb c "{"
          then match skip_ws rest with
               | d :: r => if Ascii.eqb d "}" then Some (JObject [], r)
                           else parse_members fuel' rest []
               | [] => None
               end
          else if Ascii.eqb c "t"
          then option_map (fun r => (JBool true, r))
                 (strip_prefix (list_ascii_of_string "rue") rest)
          else if Ascii.eqb c "f"
          then option_map (fun r => (JBool false, r))
                 (strip_prefix (list_ascii_of_string "alse") rest)
          else if Ascii.eqb c "n"
          then option_map (fun r => (JNull, r))
                 (strip_prefix (list_ascii_of_string "ull") rest)
          else match parse_number (c :: rest) with
               | Some (n, r) => Some (JNumber (inject_Z n), r)
               | None => None
               end
      end
  end
with parse_elements (fuel : nat) (l : list ascii) (acc : list JSON)
  : option (JSON * list ascii) :=
  match fuel with
  | O => None
  | S fuel' =>
      match parse_value fuel' l with
      | Some (v, r) =>
          match skip_ws r with
          | d :: r' =>
              if Ascii.eqb d "," then parse_elements fuel' r' (acc ++ [v])
              else if Ascii.eqb d "]" then Some (JArray (acc ++ [v]), r')
              else None
          | [] => None
          end
      | None => None
      end
  end
with parse_members (fuel : nat) (l : list ascii) (acc : list (string * JSON))
  : option (JSON * list ascii) :=
  match fuel with
  | O => None
  | S fuel' =>
      match skip_ws l with
      | q :: l1 =>
          if Ascii.eqb q dquote
          then match parse_string_body l1 [] with
               | Some (k, l2) =>
                   match skip_ws l2 with
                   | colon :: l3 =>
                       if Ascii.eqb colon ":"
                       then match parse_value fuel' l3 with
                            | Some (v, r) =>
                                match skip_ws r with
                                | d :: r' =>
                                    if Ascii.eqb d ","
                                    then parse_members fuel' r' (set_field k v acc)
                                    else if Ascii.eqb d "}"
                                    then Some (JObject (set_field k v acc), r')
                                    else None
                                | [] => None
                                end
                            | None => None
                            end
                       else None
                   | [] => None
                   end
               | None => None
               end
          else None
      | [] => None
      end
  end.

Definition reference_JSON_parse (s : string) : completion JSON :=
  match parse_value (S (String.length s)) (list_ascii_of_string s) with
  | Some (v, rest) =>
      match skip_ws rest with
      | [] => Normal v
      | _ :: _ => Throw SyntaxError
      end
  | None => Throw SyntaxError
  end.

(** No date string is recognised; objects print as [Object.prototype.toString] does. *)
Definition reference_Date_parse (s : string) : option Date := None.

Definition reference_ToString (v : JSON) : string := "[object Object]".

(** ** Definitions used by the statements *)

Definition key_of_lines (lines : list YinYang) : string :=
  join_chars (map bit_of_yinYang lines).




(** Lines, bottom to top: active yin, yin, yin, yang, yang, yang. *)
Definition pi_lines : list YaoState.t :=
  [ YaoState.mk Yin true old_yin (Some 6);
    YaoState.mk Yin false young_yin (Some 8);
    YaoState.mk Yin false young_yin (Some 8);
    YaoState.mk Yang false young_yang (Some 7);
    YaoState.mk Yang false young_yang (Some 7);
    YaoState.mk Yang false young_yang (Some 7) ].

(** The same lines with the first one turned into a resting yang line. *)
Definition pi_lines_flipped : list YaoState.t :=
  YaoState.mk Yang false young_yang None :: tl pi_lines.

(** A relation other than a complete triad union. *)
Definition not_three_harmony (r : RelationAnalysis.t) : Prop :=
  RelationAnalysis.type r <> three_harmony.

(** The six branches of 乾为天, first line to sixth. *)
Definition qian_branches : list DiZhi := getFullNaJiaDiZhi Qian Qian.

(** The casting of test case 3: the lines [pi_lines] cast with coins on
    2024-06-21 at 14:00 local time, in a zone at offset 0, for a question
    about love. *)
Definition pi_time : Date := 1718978400000.

Definition pi_input : CastingInput.t :=
  CastingInput.mk CastingMethod.coin pi_lines (createCastingTime 0 pi_time "UTC") love None None.

Definition pi_env : Env.t := Env.mk pi_time pi_time "V1StGXR8_Z5j".

(** Six yang lines, the lower four active, cast by hand at [pi_time] for a
    question about career. *)
Definition four_moving_lines : list YaoState.t :=
  [ createManualYaoState Yang true; createManualYaoState Yang true;
    createManualYaoState Yang true; createManualYaoState Yang true;
    createManualYaoState Yang false; createManualYaoState Yang false ].

Definition four_moving_input : CastingInput.t :=
  CastingInput.mk CastingMethod.manual four_moving_lines
    (createCastingTime 0 pi_time "UTC") career None None.

Definition is_normal {A : Type} (c : completion A) : bool :=
  match c with
  | Normal _ => true
  | Throw _ => false
  end.

(** What the pipeline needs of a resolved hexagram: the self and other
    positions lie in 1..6 and the changed half-trigram of each position
    is one of the eight trigrams. *)
Definition gua_ok (g : GuaInfo.t) : bool :=
  (1 <=? GuaInfo.worldPosition g) && (GuaInfo.worldPosition g <=? 6)
  && (1 <=? GuaInfo.responsePosition g) && (GuaInfo.responsePosition g <=? 6)
  && forallb (fun position =>
                is_normal (calculateChangedYao (createManualYaoState Yang true) position g))
             [1; 2; 3; 4; 5; 6].

(** The focus selection is empty or names the position of one of the lines. *)
Definition focus_located (yaoInfos : list YaoInfo.t) (yongShen : YongShenInfo.t) : Prop :=
  YongShenInfo.positions yongShen = []
  \/ existsb (fun y => includes_pos (YongShenInfo.positions yongShen) (YaoInfo.position y))
             yaoInfos = true.

Definition changed_yinYang (y : YaoState.t) : YinYang :=
  if YaoState.isMoving y
  then match YaoState.yinYang y with Yang => Yin | Yin => Yang end
  else YaoState.yinYang y.

Definition is_risk (item : InterpretationItem.t) : bool :=
  match InterpretationItem.type item with
  | ItemType.risk => true
  | _ => false
  end.

(** An item that is neither a risk item nor the narrative of the moving lines. *)
Definition plain_item (item : InterpretationItem.t) : Prop :=
  is_risk item = false /\ InterpretationItem.ruleName item <> "动爻分析".

(** What the determinism property observes of a result: the name of the
    primary hexagram, the branches and the familial roles of its lines,
    the role of the focus element and the trend. *)
Definition observed (r : DivinationResult.t)
  : string * list DiZhi * list LiuQin * LiuQin * TrendJudgment.t :=
  (GuaInfo.name (DivinationResult.primaryGua r),
   map YaoInfo.diZhi (DivinationResult.primaryYao r),
   map YaoInfo.liuQin (DivinationResult.primaryYao r),
   YongShenInfo.liuQin (DivinationResult.yongShen r),
   InterpretationResult.trend (DivinationResult.interpretation r)).

Definition observe (c : completion DivinationResult.t)
  : completion (string * list DiZhi * list LiuQin * LiuQin * TrendJudgment.t) :=
  match c with
  | Normal r => Normal (observed r)
  | Throw e => Throw e
  end.

(** The draw value that a line type stands for. *)
Definition draw_value (type : YaoType) : Z :=
  match type with
  | old_yin => 6
  | young_yang => 7
  | young_yin => 8
  | old_yang => 9
  end.

(** The line state of a draw, as [coinSumToYaoState] builds it. *)
Definition yaoState_of_type (type : YaoType) : YaoState.t :=
  match type with
  | old_yin => YaoState.mk Yin true old_yin (Some 6)
  | young_yang => YaoState.mk Yang false young_yang (Some 7)
  | young_yin => YaoState.mk Yin false young_yin (Some 8)
  | old_yang => YaoState.mk Yang true old_yang (Some 9)
  end.

(** A line state is valid when polarity and active flag agree with its
    type and its draw value, if recorded, is the one of its type. *)
Definition valid_yaoState (y : YaoState.t) : Prop :=
  YaoState.yinYang y = YaoState.yinYang (yaoState_of_type (YaoState.type y))
  /\ YaoState.isMoving y = YaoState.isMoving (yaoState_of_type (YaoState.type y))
  /\ (YaoState.coinResult y = None
      \/ YaoState.coinResult y = Some (draw_value (YaoState.type y))).

Definition valid_input (input : CastingInput.t) : Prop :=
  List.length (CastingInput.yaoStates input) = 6%nat
  /\ Forall valid_yaoState (CastingInput.yaoStates input)
  /\ - maxTimeValue <= CastingTime.gregorian (CastingInput.time input) <= maxTimeValue.

(** The object that a share code holds, in the words of the spec: the
    draw values of the six lines, each 6, 7, 8 or 9, a time stamp in
    epoch milliseconds, a category and a method. *)
Definition well_formed_share_data (data : JSON) : Prop :=
  exists (types : list YaoType) (t : Z) (q : QuestionCategory) (m : CastingMethod.t),
    List.length types = 6%nat
    /\ - maxTimeValue <= t <= maxTimeValue
    /\ data = JObject [ ("y", JString (join_chars (map draw_char types)));
                        ("t", JNumber (inject_Z t));
                        ("q", JString (category_name q));
                        ("m", JString (method_name m)) ].

(** A well-formed share code is the base64 text of such an object; every
    other string is a malformed share code. *)
Definition well_formed_code (atob : string -> completion string)
    (JSON_parse : string -> completion JSON) (encoded : string) : Prop :=
  exists text data,
    atob encoded = Normal text /\ JSON_parse text = Normal data
    /\ well_formed_share_data data.

(** The strings from which nothing can be decoded: not base64, not the
    text of a JSON value, a value that is not an object with a string
    under "y", or an object whose "t" is an array or object without a
    primitive value. *)
Definition undecodable (atob : string -> completion string)
    (JSON_parse : string -> completion JSON) (encoded : string) : Prop :=
  match atob encoded with
  | Throw _ => True
  | Normal text =>
      match JSON_parse text with
      | Normal (JObject fields) =>
          match lookup "y" fields with
          | Some (JString _) =>
              match lookup "t" fields with
              | Some t => no_primitive t = true
              | None => False
              end
          | _ => True
          end
      | _ => True
      end
  end.

(** The weighted tally of the interpretation, in the words of the spec:
    one up for every supportive item, one down for every obstructive
    item, two down for every risk item, and two more, up or down, for the
    item of the focus element. *)
Definition count_items (type : ItemType.t) (items : list InterpretationItem.t) : Z :=
  Z.of_nat (List.length
              (filter (fun item =>
                         match InterpretationItem.type item, type with
                         | ItemType.support, ItemType.support
                         | ItemType.obstacle, ItemType.obstacle
                         | ItemType.risk, ItemType.risk => true
                         | _, _ => false
                         end) items)).

Definition tally (items : list InterpretationItem.t) (focus : InterpretationItem.t) : Z :=
  count_items ItemType.support items
  - count_items ItemType.obstacle items
  - 2 * count_items ItemType.risk items
  + match InterpretationItem.type focus with
    | ItemType.support => 2
    | ItemType.obstacle => -2
    | _ => 0
    end.

(** The trend that a tally selects, with thresholds at 2 and 4 on either
    side. *)
Definition trend_of_tally (score : Z) : TrendJudgment.t :=
  if 4 <=? score then TrendJudgment.very_favorable
  else if 2 <=? score then TrendJudgment.favorable
  else if score <=? -4 then TrendJudgment.very_unfavorable
  else if score <=? -2 then TrendJudgment.unfavorable
  else TrendJudgment.neutral.

(** The base64 text of the object with the single member "y" : "12". *)
Definition two_line_code : string := "eyJ5IjoiMTIifQ==".

(** Stem and branch of a pillar have the same polarity, as the sixty
    pairs of the sexagenary cycle do. *)
Definition same_polarity (p : GanZhi.t) : Prop :=
  TIAN_GAN_YIN_YANG (GanZhi.gan p) = DI_ZHI_YIN_YANG (GanZhi.zhi p).

(** The index in [DI_ZHI] of the branch of a day. *)
Definition day_branch_index (tza : Z) (date : Date) : Z :=
  indexOf DiZhi_eqb DI_ZHI (GanZhi.zhi (getDayGanZhi tza date)).


(** Five yang lines under a yin line, the lower four active, cast by hand
    at [pi_time] for a question about wealth. *)
Definition hidden_focus_input : CastingInput.t :=
  CastingInput.mk CastingMethod.manual
    [ createManualYaoState Yang true; createManualYaoState Yang true;
      createManualYaoState Yang true; createManualYaoState Yang true;
      createManualYaoState Yang false; createManualYaoState Yin false ]
    (createCastingTime 0 pi_time "UTC") wealth None None.

(** The lines that a run of coins closes, one for every three coins, as
    [throwCoins] builds them. *)
Fixpoint lines_of_coins (coins : list Z) : list (option YaoState.t) :=
  match coins with
  | c1 :: c2 :: c3 :: rest =>
      coinSumToYaoState (fold_left Z.add [c1; c2; c3] 0) :: lines_of_coins rest
  | _ => []
  end.

(** Eighteen coins: the lines 7, 8, 9, 6, 7, 8. *)
Definition eighteen_coins : list Z :=
  [2; 2; 3; 2; 3; 3; 3; 3; 3; 2; 2; 2; 3; 2; 2; 3; 3; 2].

(** The line with the other polarity and the same active flag. *)
Definition opposite_line (y : YaoState.t) : YaoState.t :=
  createManualYaoState (match YaoState.yinYang y with Yang => Yin | Yin => Yang end)
                       (YaoState.isMoving y).

(** A time value that a Date can hold; any other gives an Invalid Date. *)
Definition valid_time (t : Z) : Prop := - maxTimeValue <= t <= maxTimeValue.

(** A date at least one day inside the range of the time values, in a
    zone whose offset stays below a day: the dates that the code derives
    from it, by adding a day or by taking the midnight of its local
    calendar day, are valid Dates too. *)
Definition inside_range (tza : Z) (date : Date) : Prop :=
  - msPerDay < tza < msPerDay
  /\ - maxTimeValue + msPerDay <= getTime date <= maxTimeValue - msPerDay.


(** * Verified properties *)

(** ** Generic facts about the JavaScript helpers *)

Ltac div_lia := Z.to_euclidean_division_equations; lia.

Lemma jsmod_nonneg (a b : Z) : 0 <= a -> 0 < b -> jsmod a b = a mod b.
Proof. intros Ha Hb. unfold jsmod. apply Z.rem_mod_nonneg; lia. Qed.

Lemma jsmod_range (a b : Z) : 0 <= a -> 0 < b -> 0 <= jsmod a b < b.
Proof.
  intros Ha Hb. rewrite jsmod_nonneg by assumption. apply Z.mod_pos_bound; lia.
Qed.

Lemma getDiZhiIndex_range (zhi : DiZhi) : 0 <= getDiZhiIndex zhi <= 11.
Proof. destruct zhi; vm_compute; split; discriminate. Qed.

Lemma getTianGanIndex_range (gan : TianGan) : 0 <= getTianGanIndex gan <= 9.
Proof. destruct gan; vm_compute; split; discriminate. Qed.

Lemma arr_at_DI_ZHI_index (zhi : DiZhi) : arr_at DI_ZHI (getDiZhiIndex zhi) = Some zhi.
Proof. destruct zhi; reflexivity. Qed.

(** ** The hexagram table *)







Lemma lookup_six_lines (y1 y2 y3 y4 y5 y6 : YinYang) :
  exists g, lookup (key_of_lines [y1; y2; y3; y4; y5; y6]) GUA_64_DATA = Some g.
Proof. destruct y1, y2, y3, y4, y5, y6; vm_compute; eexists; reflexivity. Qed.


(** The sibling readers [getUpperGua] and [getLowerGua] take the first three
    characters of a key for the lower trigram and the last three for the
    upper one.  The table agrees with them on the eight doubled hexagrams
    only. *)
Lemma GUA_64_DATA_trigrams_of_key :
  Forall (fun e =>
            (getUpperGua (fst e) = Normal (GuaData.upperGua (snd e))
             /\ getLowerGua (fst e) = Normal (GuaData.lowerGua (snd e)))
            <-> GuaData.upperGua (snd e) = GuaData.lowerGua (snd e))
         GUA_64_DATA.
Proof.
  unfold GUA_64_DATA.
  repeat (constructor;
          [vm_compute; split; [intros [H1 H2]; congruence | intros H; split; congruence] |]).
  constructor.
Qed.

(** ** The scenario of test case 3 *)



(** C1.  On the lines [active yin, yin, yin, yang, yang, yang], bottom to
    top, [getGuaFromYaoStates] builds the key "000111" and returns the
    entry stored under it, 地天泰, and not 天地否, which the table stores
    under "111000", although [getUpperGua] and [getLowerGua] read the key
    "000111" as 乾 over 坤; the changed hexagram is the one resolved from
    the lines with position 1 turned to yang, which the table names
    山天大畜. *)
Theorem getGua_pi_lines :
  getGuaFromYaoStates pi_lines
    = Normal (with_binary (mkGua "地天泰" 60 Kun Qian Kun 3 6 Tu) "000111")
  /\ lookup "111000" GUA_64_DATA = Some (mkGua "天地否" 4 Qian Kun Qian 3 6 Jin)
  /\ getUpperGua "000111" = Normal Qian
  /\ getLowerGua "000111" = Normal Kun
  /\ getMovingPositions pi_lines = [1]
  /\ getChangedGua pi_lines
     = (g <- getGuaFromYaoStates pi_lines_flipped ;; Normal (Some g))%js
  /\ getChangedGua pi_lines
     = Normal (Some (with_binary (mkGua "山天大畜" 51 Gen Qian Gen 2 5 Tu) "100111")).
Proof. repeat split. Qed.

(** ** The void branches *)

(** C6.  For every day stem (index [g] in 0..9) and day branch (index [z]
    in 0..11), [getVoidBranches] returns the branches at the indices
    [((z - g) mod 12 + 10) mod 12] and [((z - g) mod 12 + 11) mod 12]; the
    second follows the first cyclically; for 甲子 they are 戌 and 亥. *)
Theorem getVoidBranches_spec (dayGan : TianGan) (dayZhi : DiZhi) :
  let g := getTianGanIndex dayGan in
  let z := getDiZhiIndex dayZhi in
  let start := (z - g) mod 12 in
  let void := getVoidBranches dayGan dayZhi in
  (0 <= g <= 9 /\ 0 <= z <= 11)
  /\ arr_at DI_ZHI ((start + 10) mod 12) = Some (fst void)
  /\ arr_at DI_ZHI ((start + 11) mod 12) = Some (snd void)
  /\ getDiZhiIndex (snd void) = (getDiZhiIndex (fst void) + 1) mod 12
  /\ getVoidBranches gJia zZi = (zXu, zHai).
Proof.
  destruct dayGan, dayZhi; vm_compute; repeat split; discriminate.
Qed.

(** ** The triad unions *)

Lemma checkThreeHarmony_loop_not_three (zhis : list DiZhi) entries :
  List.length zhis <> 3%nat ->
  ThreeHarmony.isComplete (checkThreeHarmony_loop zhis entries) = false.
Proof.
  intros Hlen. induction entries as [| [sanHeKey wuXing] rest IH]; simpl.
  - reflexivity.
  - assert (E : (Z.of_nat (List.length zhis) =? 3) = false) by (apply Z.eqb_neq; lia).
    rewrite E. simpl.
    destruct (2 <=? Z.of_nat (List.length (filter (includes_zhi sanHeKey) zhis))).
    + reflexivity.
    + exact IH.
Qed.

(** The detector never reports a complete triad for six branches. *)
Lemma checkThreeHarmony_six_incomplete (z1 z2 z3 z4 z5 z6 : DiZhi) :
  ThreeHarmony.isComplete (checkThreeHarmony [z1; z2; z3; z4; z5; z6]) = false.
Proof. apply checkThreeHarmony_loop_not_three. simpl. discriminate. Qed.


(** None of the first four steps of [analyzeRelations] yields a triad
    union, and the fifth needs a complete one. *)
Lemma pair_relations_types (yao1 yao2 : YaoInfo.t) :
  Forall not_three_harmony (pair_relations yao1 yao2).
Proof.
  unfold pair_relations.
  destruct (checkSixClash _ _), (checkSixHarmony _ _), (checkSixHarm _ _),
    (checkThreePenalty _ _); simpl;
    repeat (constructor; [discriminate |]); constructor.
Qed.

Lemma all_pair_relations_types (yaoInfos : list YaoInfo.t) :
  Forall not_three_harmony (all_pair_relations yaoInfos).
Proof.
  induction yaoInfos as [| yao1 rest IH]; simpl.
  - constructor.
  - apply Forall_app. split; [| exact IH].
    apply Forall_flat_map, Forall_forall. intros yao2 _. apply pair_relations_types.
Qed.

Lemma day_relations_types (dayZhi : DiZhi) (yao : YaoInfo.t) :
  Forall not_three_harmony (day_relations dayZhi yao).
Proof.
  unfold day_relations.
  destruct (checkSixClash _ _), (checkSixHarmony _ _),
    (is_wang_xiang (YaoInfo.prosperity yao)), (YaoInfo.isMoving yao); simpl;
    repeat (constructor; [discriminate |]); constructor.
Qed.

Lemma month_relations_types (monthZhi : DiZhi) (yao : YaoInfo.t) :
  Forall not_three_harmony (month_relations monthZhi yao).
Proof.
  unfold month_relations.
  destruct (checkSixClash _ _), (checkSixHarmony _ _); simpl;
    repeat (constructor; [discriminate |]); constructor.
Qed.

Lemma changed_relations_types (yao : YaoInfo.t) :
  Forall not_three_harmony (changed_relations yao).
Proof.
  unfold changed_relations.
  destruct (YaoInfo.isMoving yao), (YaoInfo.changedYao yao) as [c |]; try constructor.
  destruct (checkSixClash _ _), (checkSixHarmony _ _); simpl;
    repeat (constructor; [discriminate |]); constructor.
Qed.

Lemma analyzeRelations_no_three_harmony (yaoInfos : list YaoInfo.t) (ganZhiTime : GanZhiTime.t) :
  List.length yaoInfos <> 3%nat ->
  Forall not_three_harmony (analyzeRelations yaoInfos ganZhiTime).
Proof.
  intros Hlen. unfold analyzeRelations.
  assert (E : ThreeHarmony.isComplete (checkThreeHarmony (map YaoInfo.diZhi yaoInfos)) = false).
  { apply checkThreeHarmony_loop_not_three. rewrite length_map. exact Hlen. }
  cbv zeta. rewrite E.
  apply Forall_app. split; [apply all_pair_relations_types |].
  apply Forall_app. split.
  { apply Forall_flat_map, Forall_forall. intros yao _. apply day_relations_types. }
  apply Forall_app. split.
  { apply Forall_flat_map, Forall_forall. intros yao _. apply month_relations_types. }
  apply Forall_app. split.
  { apply Forall_flat_map, Forall_forall. intros yao _. apply changed_relations_types. }
  constructor.
Qed.

(** C3.  The six branches 子 寅 辰 午 申 戌 of 乾为天 hold all three members
    of the triad 申子辰 (and of 寅午戌), yet [checkThreeHarmony] reports
    the first set as a partial union only: with six branches the test for
    a complete union, guarded by [zhis.length === 3], is never made, and
    [analyzeRelations] never records a triad union for six lines. *)
Theorem checkThreeHarmony_qian_branches :
  qian_branches = [zZi; zYin; zChen; zWu; zShen; zXu]
  /\ forallb (includes_zhi qian_branches) [zShen; zZi; zChen] = true
  /\ checkThreeHarmony qian_branches = ThreeHarmony.mk false (Some Shui)
  /\ (forall z1 z2 z3 z4 z5 z6 : DiZhi,
        ThreeHarmony.isComplete (checkThreeHarmony [z1; z2; z3; z4; z5; z6]) = false)
  /\ (forall (y1 y2 y3 y4 y5 y6 : YaoInfo.t) (ganZhiTime : GanZhiTime.t),
        Forall not_three_harmony (analyzeRelations [y1; y2; y3; y4; y5; y6] ganZhiTime)).
Proof.
  split; [reflexivity |]. split; [reflexivity |]. split; [reflexivity |].
  split; [exact checkThreeHarmony_six_incomplete |].
  intros. apply analyzeRelations_no_three_harmony. simpl. discriminate.
Qed.

(** ** Casting by time *)

(** The two calendar conversions agree: the civil date of a day number
    has a month in 1..12 and a day in 1..31 and converts back to it. *)
Lemma civil_from_days_fields (z : Z) :
  let '(y, m, d) := civil_from_days z in
  1 <= m <= 12 /\ 1 <= d <= 31 /\ days_from_civil y m d = z.
Proof.
  unfold civil_from_days, days_from_civil.
  set (z' := z + 719468).
  set (era := z' / 146097).
  set (doe := z' - era * 146097).
  assert (Hdoe : 0 <= doe <= 146096) by (unfold doe, era; div_lia).
  assert (Hz : z = era * 146097 + doe - 719468) by (unfold doe, z'; lia).
  clearbody doe era. clear z'.
  set (yoe := (doe - doe / 1460 + doe / 36524 - doe / 146096) / 365).
  assert (Hyoe : 0 <= yoe <= 399) by (unfold yoe; div_lia).
  set (doy := doe - (365 * yoe + yoe / 4 - yoe / 100)).
  assert (Hdoy : 0 <= doy <= 365).
  { unfold doy, yoe. div_lia. }
  assert (Hdoe' : doe = yoe * 365 + yoe / 4 - yoe / 100 + doy) by (unfold doy; lia).
  clearbody doy. clearbody yoe.
  set (mp := (5 * doy + 2) / 153).
  assert (Hmp : 0 <= mp <= 11) by (unfold mp; div_lia).
  set (d := doy - (153 * mp + 2) / 5 + 1).
  assert (Hd : 1 <= d <= 31) by (unfold d, mp; div_lia).
  assert (Hdoy' : doy = (153 * mp + 2) / 5 + d - 1) by (unfold d; lia).
  clearbody d. clearbody mp.
  destruct (mp <? 10) eqn:Emp.
  - apply Z.ltb_lt in Emp.
    replace (mp + 3 <=? 2) with false by (symmetry; apply Z.leb_gt; lia).
    split; [lia |]. split; [lia |].
    replace (2 <? mp + 3) with true by (symmetry; apply Z.ltb_lt; lia).
    replace (mp + 3 - 3) with mp by lia.
    replace ((yoe + era * 400) / 400) with era by div_lia.
    replace (yoe + era * 400 - era * 400) with yoe by lia. lia.
  - apply Z.ltb_ge in Emp.
    replace (mp - 9 <=? 2) with true by (symmetry; apply Z.leb_le; lia).
    split; [lia |]. split; [lia |].
    replace (2 <? mp - 9) with false by (symmetry; apply Z.ltb_ge; lia).
    replace (mp - 9 + 9) with mp by lia.
    replace (yoe + era * 400 + 1 - 1) with (yoe + era * 400) by lia.
    replace ((yoe + era * 400) / 400) with era by div_lia.
    replace (yoe + era * 400 - era * 400) with yoe by lia. lia.
Qed.

Lemma civil_from_days_day_pos (z : Z) :
  let '(_, _, d) := civil_from_days z in 1 <= d.
Proof.
  unfold civil_from_days.
  set (doe := z + 719468 - (z + 719468) / 146097 * 146097).
  set (yoe := (doe - doe / 1460 + doe / 36524 - doe / 146096) / 365).
  set (doy := doe - (365 * yoe + yoe / 4 - yoe / 100)).
  clearbody doy. clear. div_lia.
Qed.

Lemma getDate_pos (tza : Z) (date : Date) : 1 <= getDate tza date.
Proof.
  unfold getDate.
  pose proof (civil_from_days_day_pos (LocalTime tza date / msPerDay)) as H.
  destruct (civil_from_days (LocalTime tza date / msPerDay)) as [[y m] d]. exact H.
Qed.

Lemma numToBaGua_some (n : Z) : 1 <= n <= 8 -> exists g, numToBaGua n = Some g.
Proof.
  intros H.
  assert (C : n = 1 \/ n = 2 \/ n = 3 \/ n = 4 \/ n = 5 \/ n = 6 \/ n = 7 \/ n = 8) by lia.
  repeat (destruct C as [-> | C]; [eexists; reflexivity |]). subst. eexists; reflexivity.
Qed.


(** The hexagram resolved from the lines of [castByTime] has the upper and
    lower trigram that [castByTime] chose only when the two are equal. *)
Lemma castByTime_trigrams (tza : Z) (date : Date) :
  let ganZhi := getGanZhiTime tza date in
  let yearNum := getDiZhiIndex (GanZhi.zhi (GanZhiTime.year ganZhi)) + 1 in
  let monthNum := getDiZhiIndex (GanZhi.zhi (GanZhiTime.month ganZhi)) + 1 in
  let dayNum := getDate tza date in
  let hourNum := getDiZhiIndex (GanZhi.zhi (GanZhiTime.hour ganZhi)) + 1 in
  let upperSum := yearNum + monthNum + dayNum in
  let lowerSum := upperSum + hourNum in
  exists yaoStates gua upperGua lowerGua,
    castByTime tza date = Normal yaoStates
    /\ getGuaFromYaoStates yaoStates = Normal gua
    /\ numToBaGua (jsmod (upperSum - 1) 8 + 1) = Some upperGua
    /\ numToBaGua (jsmod (lowerSum - 1) 8 + 1) = Some lowerGua
    /\ (GuaInfo.upperGua gua = upperGua /\ GuaInfo.lowerGua gua = lowerGua
        <-> upperGua = lowerGua).
Proof.
  intros ganZhi yearNum monthNum dayNum hourNum upperSum lowerSum.
  pose proof (getDiZhiIndex_range (GanZhi.zhi (GanZhiTime.year ganZhi))) as Hy.
  pose proof (getDiZhiIndex_range (GanZhi.zhi (GanZhiTime.month ganZhi))) as Hm.
  pose proof (getDiZhiIndex_range (GanZhi.zhi (GanZhiTime.hour ganZhi))) as Hh.
  pose proof (getDate_pos tza date) as Hd.
  fold dayNum in Hd.
  assert (Hu : 1 <= jsmod (upperSum - 1) 8 + 1 <= 8).
  { pose proof (jsmod_range (upperSum - 1) 8). lia. }
  assert (Hl : 1 <= jsmod (lowerSum - 1) 8 + 1 <= 8).
  { pose proof (jsmod_range (lowerSum - 1) 8). lia. }
  destruct (numToBaGua_some _ Hu) as [upperGua Eu].
  destruct (numToBaGua_some _ Hl) as [lowerGua El].
  unfold castByTime.
  fold ganZhi. fold yearNum. fold monthNum. fold dayNum. fold hourNum.
  fold upperSum. fold lowerSum.
  rewrite Eu, El.
  generalize (jsmod (lowerSum - 1) 6 + 1). intros movingPosition.
  clear.
  destruct upperGua, lowerGua;
    (eexists; eexists; eexists; eexists;
     split; [reflexivity |]; split; [reflexivity |];
     split; [reflexivity |]; split; [reflexivity |];
     vm_compute; split; [intros [H1 H2]; congruence | intros H; split; congruence]).
Qed.


(** ** Structure of the installed lines *)

Tactic Notation "inv_bind" hyp(H) "as" ident(x) ident(E) :=
  match type of H with
  | bind ?c _ = Normal _ =>
      destruct c as [x |] eqn:E; cbn [bind] in H; [| discriminate H]
  end.

Lemma mapi_from_length {A B : Type} (f : A -> Z -> B) (l : list A) (i0 : Z) :
  List.length (mapi_from f l i0) = List.length l.
Proof. revert i0. induction l as [| x l IH]; intros i0; simpl; [reflexivity | now rewrite IH]. Qed.

Lemma map_mapi_from {A B C : Type} (p : B -> C) (q : A -> C) (f : A -> Z -> B)
    (l : list A) (i0 : Z) :
  (forall x i, p (f x i) = q x) -> map p (mapi_from f l i0) = map q l.
Proof.
  intros H. revert i0. induction l as [| x l IH]; intros i0; simpl.
  - reflexivity.
  - now rewrite H, IH.
Qed.

Lemma mapi_c_from_spec {A B : Type} (f : A -> Z -> completion B) (l : list A) (i0 : Z)
    (ys : list B) :
  mapi_c_from f l i0 = Normal ys ->
  List.length ys = List.length l
  /\ forall n x, nth_error l n = Some x ->
       exists y, nth_error ys n = Some y /\ f x (i0 + Z.of_nat n) = Normal y.
Proof.
  revert i0 ys. induction l as [| x l IH]; intros i0 ys H; simpl in H.
  - injection H as <-. split; [reflexivity |]. intros [| n] x0 Hx; discriminate.
  - inv_bind H as a E. inv_bind H as b E0. injection H as <-.
    destruct (IH _ _ E0) as [Hlen Hnth].
    split; [simpl; now rewrite Hlen |].
    intros [| n] x0 Hx; simpl in Hx.
    + injection Hx as <-. exists a. split; [reflexivity |].
      now rewrite Z.add_0_r.
    + destruct (Hnth n x0 Hx) as [y [Hy Hf]].
      exists y. split; [exact Hy |].
      rewrite <- Hf. f_equal. lia.
Qed.

Lemma mapi_c_from_total {A B : Type} (f : A -> Z -> completion B) (l : list A) (i0 : Z) :
  (forall x j, In x l -> i0 <= j < i0 + Z.of_nat (List.length l) -> exists y, f x j = Normal y) ->
  exists ys, mapi_c_from f l i0 = Normal ys.
Proof.
  revert i0. induction l as [| x l IH]; intros i0 H; simpl.
  - eexists; reflexivity.
  - destruct (H x i0 (or_introl eq_refl)) as [y Hy]; [simpl List.length; lia |].
    rewrite Hy. cbn [bind].
    destruct (IH (i0 + 1)) as [ys Hys].
    { intros x0 j Hin Hj. apply H; [now right | simpl List.length; lia]. }
    rewrite Hys. cbn [bind]. eexists; reflexivity.
Qed.

Lemma mapi_c_from_Forall2 {A B : Type} (f : A -> Z -> completion B) (l : list A) (i0 : Z)
    (ys : list B) :
  mapi_c_from f l i0 = Normal ys ->
  Forall2 (fun x y => exists j, f x j = Normal y) l ys.
Proof.
  revert i0 ys. induction l as [| x l IH]; intros i0 ys H; simpl in H.
  - injection H as <-. constructor.
  - inv_bind H as a E. inv_bind H as b E0. injection H as <-.
    constructor; [now exists i0 | now apply (IH (i0 + 1))].
Qed.

(** The line that [installHexagram] builds from a line state keeps its
    active flag, and has a transformation descriptor exactly when the
    line is active. *)
Lemma installHexagram_lines (yaoStates : list YaoState.t) (guaInfo : GuaInfo.t)
    (yaoInfos : list YaoInfo.t) :
  installHexagram yaoStates guaInfo = Normal yaoInfos ->
  map YaoInfo.isMoving yaoInfos = map YaoState.isMoving yaoStates
  /\ Forall (fun y => YaoInfo.isMoving y = true <-> YaoInfo.changedYao y <> None) yaoInfos.
Proof.
  unfold installHexagram. intros H.
  apply mapi_c_from_Forall2 in H.
  induction H as [| s y l ys [j Hj] _ [IH1 IH2]]; simpl.
  - split; constructor.
  - assert (Hy : YaoInfo.isMoving y = YaoState.isMoving s
                 /\ (YaoInfo.isMoving y = true <-> YaoInfo.changedYao y <> None)).
    { destruct (YaoState.isMoving s) eqn:Em.
      - inv_bind Hj as c E. inv_bind E as c0 E0. injection E as <-. injection Hj as <-. simpl.
        split; [reflexivity |]. split; [discriminate | reflexivity].
      - cbn [bind] in Hj. injection Hj as <-. simpl.
        split; [reflexivity |]. split; [discriminate | intros C; now elim C]. }
    destruct Hy as [Hy1 Hy2].
    split; [now rewrite Hy1, IH1 | now constructor].
Qed.

Lemma installLiuShen_preserves {C : Type} (p : YaoInfo.t -> C) (yaoInfos : list YaoInfo.t)
    (dayGan : TianGan) :
  (forall y s, p (with_liuShen y s) = p y) ->
  map p (installLiuShen yaoInfos dayGan) = map p yaoInfos.
Proof.
  intros H. unfold installLiuShen, mapi. apply map_mapi_from. intros x i. apply H.
Qed.

Lemma analyzeAllProsperity_preserves {C : Type} (p : YaoInfo.t -> C) (yaoInfos : list YaoInfo.t)
    (ganZhiTime : GanZhiTime.t) :
  (forall y s a b c, p (with_prosperity y s a b c) = p y) ->
  map p (analyzeAllProsperity yaoInfos ganZhiTime) = map p yaoInfos.
Proof.
  intros H. unfold analyzeAllProsperity. rewrite map_map. apply map_ext. intros y. apply H.
Qed.

Lemma getChangedYaoInfos_lines (originalYaoInfos : list YaoInfo.t) (changedGuaInfo : GuaInfo.t) :
  map YaoInfo.isMoving (getChangedYaoInfos originalYaoInfos changedGuaInfo)
    = map YaoInfo.isMoving originalYaoInfos
  /\ map YaoInfo.changedYao (getChangedYaoInfos originalYaoInfos changedGuaInfo)
    = map (fun _ => None) originalYaoInfos.
Proof.
  unfold getChangedYaoInfos, mapi. split; apply map_mapi_from; reflexivity.
Qed.

Lemma Forall_map_eq {A C : Type} (p : A -> C) (P : C -> Prop) (l l' : list A) :
  map p l = map p l' -> Forall (fun x => P (p x)) l' -> Forall (fun x => P (p x)) l.
Proof.
  intros E H. apply Forall_map. rewrite E. now apply Forall_map.
Qed.

(** The primary lines of a casting keep the active flags of the input and
    carry a descriptor exactly on the active lines. *)
Lemma pipeline_primary_lines (yaoStates : list YaoState.t) (guaInfo : GuaInfo.t)
    (yaoInfos : list YaoInfo.t) (dayGan : TianGan) (ganZhiTime : GanZhiTime.t) :
  installHexagram yaoStates guaInfo = Normal yaoInfos ->
  let primary := analyzeAllProsperity (installLiuShen yaoInfos dayGan) ganZhiTime in
  map YaoInfo.isMoving primary = map YaoState.isMoving yaoStates
  /\ Forall (fun y => YaoInfo.isMoving y = true <-> YaoInfo.changedYao y <> None) primary.
Proof.
  intros H primary.
  destruct (installHexagram_lines _ _ _ H) as [H1 H2].
  assert (Em : map YaoInfo.isMoving primary = map YaoInfo.isMoving yaoInfos).
  { unfold primary. rewrite analyzeAllProsperity_preserves by reflexivity.
    now rewrite installLiuShen_preserves by reflexivity. }
  assert (Ec : map YaoInfo.changedYao primary = map YaoInfo.changedYao yaoInfos).
  { unfold primary. rewrite analyzeAllProsperity_preserves by reflexivity.
    now rewrite installLiuShen_preserves by reflexivity. }
  split; [now rewrite Em |].
  clear H H1. clearbody primary.
  revert primary Em Ec. induction H2 as [| y l Hy _ IH]; intros primary Em Ec.
  - destruct primary; [constructor | discriminate].
  - destruct primary as [| y' l']; [discriminate |].
    simpl in Em, Ec. injection Em as Em1 Em2. injection Ec as Ec1 Ec2.
    constructor; [now rewrite Em1, Ec1 | now apply IH].
Qed.

(** ** What a casting result is made of *)

Lemma Normal_inj {A : Type} (a b : A) : Normal a = Normal b -> a = b.
Proof. intros H. injection H as H. exact H. Qed.

Lemma Some_inj {A : Type} (a b : A) : Some a = Some b -> a = b.
Proof. intros H. injection H as H. exact H. Qed.

Lemma castHexagram_inv (tza : Z) (env : Env.t) (input : CastingInput.t)
    (r : DivinationResult.t) :
  castHexagram tza env input = Normal r ->
  let ganZhiTime := getGanZhiTime tza (CastingTime.gregorian (CastingInput.time input)) in
  exists primaryGua yaoInfos0 yongShen,
    let primary :=
      analyzeAllProsperity (installLiuShen yaoInfos0 (GanZhi.gan (GanZhiTime.day ganZhiTime)))
                           ganZhiTime in
    getGuaFromYaoStates (CastingInput.yaoStates input) = Normal primaryGua
    /\ installHexagram (CastingInput.yaoStates input) primaryGua = Normal yaoInfos0
    /\ selectYongShen primary
         (getQuestionSubType (CastingInput.questionCategory input) (CastingInput.subType input)
                             (CastingInput.gender input))
         (CastingInput.gender input) = Normal yongShen
    /\ generateInterpretation tza (Env.today env) primary (DivinationResult.changedYao r)
         primaryGua (DivinationResult.changedGua r) ganZhiTime yongShen
         (analyzeRelations primary ganZhiTime) (CastingInput.questionCategory input)
       = Normal (DivinationResult.interpretation r)
    /\ DivinationResult.input r = input
    /\ DivinationResult.primaryGua r = primaryGua
    /\ DivinationResult.primaryYao r = primary
    /\ DivinationResult.ganZhiTime r = ganZhiTime
    /\ DivinationResult.yongShen r = yongShen
    /\ DivinationResult.relations r = analyzeRelations primary ganZhiTime
    /\ DivinationResult.movingYaoPositions r = getMovingPositions (CastingInput.yaoStates input)
    /\ (forall changed, DivinationResult.changedYao r = Some changed ->
          exists g, DivinationResult.changedGua r = Some g
                    /\ changed = analyzeAllProsperity (getChangedYaoInfos primary g) ganZhiTime).
Proof.
  intros H ganZhiTime. unfold castHexagram in H. fold ganZhiTime in H.
  inv_bind H as primaryGua Egua.
  inv_bind H as yaoInfos0 Einst.
  inv_bind H as u Eu. clear Eu.
  inv_bind H as changed Echg. destruct changed as [[changedGua changedYaoInfos] chain6].
  inv_bind H as mutualGua Emut. clear Emut.
  inv_bind H as yongShen Eys.
  inv_bind H as interpretation Eint.
  apply Normal_inj in H. subst r. cbn [DivinationResult.input DivinationResult.primaryGua
    DivinationResult.primaryYao DivinationResult.ganZhiTime DivinationResult.yongShen
    DivinationResult.relations DivinationResult.movingYaoPositions
    DivinationResult.changedYao DivinationResult.changedGua DivinationResult.interpretation].
  exists primaryGua, yaoInfos0, yongShen. cbv zeta. 
  split; [exact eq_refl |].
  split; [exact Einst |].
  split; [exact Eys |].
  split; [exact Eint |].
  do 7 (split; [reflexivity |]). 
  intros changed Hc. subst changedYaoInfos.
  destruct (0 <? Z.of_nat (List.length (getMovingPositions (CastingInput.yaoStates input)))).
  - inv_bind Echg as cg Ecg. destruct cg as [g |].
    + apply Normal_inj in Echg.
      apply pair_equal_spec in Echg. destruct Echg as [Echg _].
      apply pair_equal_spec in Echg. destruct Echg as [Eg Ec].
      apply Some_inj in Ec. exists g. split; [now symmetry | now symmetry].
    + discriminate Echg.
  - discriminate Echg.
Qed.

Lemma generateInterpretation_inv (tza : Z) (today : Date)
    (primaryYaoInfos : list YaoInfo.t) (changedYaoInfos : option (list YaoInfo.t))
    (primaryGua : GuaInfo.t) (changedGua : option GuaInfo.t)
    (ganZhiTime : GanZhiTime.t) (yongShen : YongShenInfo.t)
    (relations : list RelationAnalysis.t) (questionCategory : QuestionCategory)
    (res : InterpretationResult.t) :
  generateInterpretation tza today primaryYaoInfos changedYaoInfos primaryGua changedGua
    ganZhiTime yongShen relations questionCategory = Normal res ->
  exists yongShenAnalysis worldResponseAnalysis,
    analyzeYongShenStatus primaryYaoInfos yongShen ganZhiTime = Normal yongShenAnalysis
    /\ analyzeWorldResponse primaryYaoInfos ganZhiTime questionCategory
       = Normal worldResponseAnalysis
    /\ InterpretationResult.items res
       = ([fst yongShenAnalysis] ++ [worldResponseAnalysis])
         ++ match analyzeMovingYao primaryYaoInfos changedYaoInfos yongShen with
            | Some a => [fst a]
            | None => []
            end
         ++ analyzeRelationsImpact relations yongShen primaryYaoInfos
         ++ option_to_list (analyzeVoidAndBroken primaryYaoInfos yongShen ganZhiTime)
    /\ InterpretationResult.uncertainties res
       = option_to_list (snd yongShenAnalysis)
         ++ match analyzeMovingYao primaryYaoInfos changedYaoInfos yongShen with
            | Some a => option_to_list (snd a)
            | None => []
            end
    /\ InterpretationResult.trend res
       = judgeTrend (InterpretationResult.items res) yongShenAnalysis
           (Z.of_nat (List.length (InterpretationResult.uncertainties res)))
    /\ InterpretationResult.timingPredictions res
       = predictTiming tza today primaryYaoInfos yongShen ganZhiTime changedYaoInfos.
Proof.
  intros H. unfold generateInterpretation in H.
  inv_bind H as yongShenAnalysis Eys.
  inv_bind H as worldResponseAnalysis Ewr.
  inv_bind H as w Ew. clear Ew.
  apply Normal_inj in H. subst res.
  exists yongShenAnalysis, worldResponseAnalysis.
  cbn [InterpretationResult.items InterpretationResult.uncertainties
       InterpretationResult.trend InterpretationResult.timingPredictions].
  split; [exact eq_refl |].
  split; [exact eq_refl |].
  destruct (analyzeMovingYao primaryYaoInfos changedYaoInfos yongShen) as [a |].
  - rewrite <- !app_assoc. repeat split.
  - rewrite !app_nil_r. rewrite <- !app_assoc. repeat split.
Qed.



Lemma analyzeProsperity_first_reason (yaoInfo : YaoInfo.t) (ganZhiTime : GanZhiTime.t) :
  hd "" (ProsperityAnalysis.reasons (analyzeProsperity yaoInfo ganZhiTime)) = "月令旺衰".
Proof.
  unfold analyzeProsperity.
  destruct (isVoid _ _), (isDayBroken _ _), (isMonthBroken _ _);
    destruct (getTwelveStage _ _) as [stage |];
    try reflexivity;
    destruct (negb (getTwelveStageScore stage =? 0)); reflexivity.
Qed.

Lemma analyzeYongShenStatus_plain (yaoInfos : list YaoInfo.t) (yongShen : YongShenInfo.t)
    (ganZhiTime : GanZhiTime.t) a :
  analyzeYongShenStatus yaoInfos yongShen ganZhiTime = Normal a ->
  plain_item (fst a)
  /\ (InterpretationItem.type (fst a) = ItemType.support
      \/ InterpretationItem.type (fst a) = ItemType.obstacle).
Proof.
  unfold analyzeYongShenStatus. intros H.
  destruct (Z.of_nat (List.length (YongShenInfo.positions yongShen)) =? 0).
  - apply Normal_inj in H. subst a. cbn. split; [split; [reflexivity | discriminate] | now right].
  - destruct (find_first _ yaoInfos) as [yongShenYao |]; [| discriminate H].
    apply Normal_inj in H. subst a. cbn [fst].
    unfold plain_item, is_risk. cbn [InterpretationItem.type InterpretationItem.ruleName].
    rewrite analyzeProsperity_first_reason.
    destruct (_ && _ && _); (split; [split; [reflexivity | discriminate] |]); [now left | now right].
Qed.

Lemma analyzeWorldResponse_plain (yaoInfos : list YaoInfo.t) (ganZhiTime : GanZhiTime.t)
    (questionCategory : QuestionCategory) item :
  analyzeWorldResponse yaoInfos ganZhiTime questionCategory = Normal item ->
  plain_item item.
Proof.
  unfold analyzeWorldResponse. intros H.
  inv_bind H as worldYao Ew. inv_bind H as responseYao Er.
  apply Normal_inj in H. subst item.
  unfold plain_item, is_risk. cbn [InterpretationItem.type InterpretationItem.ruleName].
  destruct (Qlt_bool 0 _); (split; [reflexivity | discriminate]).
Qed.

Lemma getRelationTypeName_not_moving (type : DiZhiRelation) :
  getRelationTypeName type <> "动爻分析".
Proof. destruct type; discriminate. Qed.

Lemma analyzeRelationsImpact_plain (relations : list RelationAnalysis.t)
    (yongShen : YongShenInfo.t) (yaoInfos : list YaoInfo.t) :
  Forall plain_item (analyzeRelationsImpact relations yongShen yaoInfos).
Proof.
  unfold analyzeRelationsImpact. apply Forall_map. apply Forall_forall. intros relation _.
  unfold plain_item, is_risk. cbn [InterpretationItem.type InterpretationItem.ruleName].
  split; [destruct (RelationAnalysis.impact relation); reflexivity
         | apply getRelationTypeName_not_moving].
Qed.

Lemma analyzeVoidAndBroken_plain (yaoInfos : list YaoInfo.t) (yongShen : YongShenInfo.t)
    (ganZhiTime : GanZhiTime.t) :
  Forall plain_item (option_to_list (analyzeVoidAndBroken yaoInfos yongShen ganZhiTime)).
Proof.
  unfold analyzeVoidAndBroken.
  destruct (find_first _ yaoInfos) as [yongShenYao |]; [| constructor].
  destruct (YaoInfo.isVoid yongShenYao).
  - repeat constructor. discriminate.
  - destruct (_ || _); [| constructor].
    destruct (YaoInfo.isMonthBroken yongShenYao); repeat constructor; discriminate.
Qed.

Lemma filter_plain (l : list InterpretationItem.t) :
  Forall plain_item l -> filter is_risk l = [].
Proof.
  induction 1 as [| x l [Hx _] _ IH]; simpl; [reflexivity | now rewrite Hx].
Qed.

Lemma filter_length_map {A B : Type} (p : A -> bool) (q : B -> bool) (l : list A) (l' : list B) :
  map p l = map q l' -> List.length (filter p l) = List.length (filter q l').
Proof.
  revert l'. induction l as [| x l IH]; intros [| y l'] H; try discriminate; [reflexivity |].
  simpl in H. injection H as Hx Hl. simpl. rewrite Hx.
  destruct (q y); simpl; now rewrite (IH l').
Qed.

Lemma judgeTrend_uncertain_iff items yongShenAnalysis (uncertaintyCount : Z) :
  judgeTrend items yongShenAnalysis uncertaintyCount = TrendJudgment.uncertain
  <-> 2 <= uncertaintyCount.
Proof.
  unfold judgeTrend.
  destruct (2 <=? uncertaintyCount) eqn:E.
  - apply Z.leb_le in E. split; [intros _; exact E | reflexivity].
  - apply Z.leb_gt in E.
    split; [| lia].
    destruct (judgeTrend_count items 0 0) as [s o].
    destruct (InterpretationItem.type (fst yongShenAnalysis));
      repeat match goal with
             | |- context [if ?b then _ else _] => destruct b
             end; discriminate.
Qed.

Lemma judgeTrend_count_tally (items : list InterpretationItem.t) (supportCount obstacleCount : Z) :
  judgeTrend_count items supportCount obstacleCount
  = (supportCount + count_items ItemType.support items,
     obstacleCount + count_items ItemType.obstacle items + 2 * count_items ItemType.risk items).
Proof.
  revert supportCount obstacleCount.
  induction items as [| item items IH]; intros supportCount obstacleCount.
  - unfold count_items. cbn. f_equal; lia.
  - cbn [judgeTrend_count]. rewrite IH. unfold count_items. cbn [filter].
    destruct (InterpretationItem.type item); cbn [List.length]; f_equal; lia.
Qed.

Lemma judgeTrend_tally (items : list InterpretationItem.t)
    (yongShenAnalysis : InterpretationItem.t * option Uncertainty.t) (uncertaintyCount : Z) :
  judgeTrend items yongShenAnalysis uncertaintyCount
  = if 2 <=? uncertaintyCount then TrendJudgment.uncertain
    else trend_of_tally (tally items (fst yongShenAnalysis)).
Proof.
  unfold judgeTrend. destruct (2 <=? uncertaintyCount); [reflexivity |].
  rewrite judgeTrend_count_tally. unfold tally, trend_of_tally.
  set (s := count_items ItemType.support items).
  set (o := count_items ItemType.obstacle items).
  set (k := count_items ItemType.risk items).
  destruct (InterpretationItem.type (fst yongShenAnalysis)); cbv zeta beta iota;
    match goal with
    | |- (if 4 <=? ?a then _ else _) = (if 4 <=? ?b then _ else _) =>
        replace a with b by lia; reflexivity
    end.
Qed.


(** ** Active lines and their transformation descriptors *)


(** C4, as stated, fails: in the result of the casting [pi_input] the
    first line of the changed hexagram is flagged active and carries no
    transformation descriptor. *)
Lemma changed_lines_without_descriptor :
  ~ (forall r changed,
        castHexagram 0 pi_env pi_input = Normal r ->
        DivinationResult.changedYao r = Some changed ->
        Forall (fun y => YaoInfo.isMoving y = true <-> YaoInfo.changedYao y <> None) changed).
Proof.
  intros H.
  assert (E : exists r changed y rest,
             castHexagram 0 pi_env pi_input = Normal r
             /\ DivinationResult.changedYao r = Some changed
             /\ changed = y :: rest
             /\ YaoInfo.isMoving y = true
             /\ YaoInfo.changedYao y = None).
  { do 4 eexists. split; [vm_compute; reflexivity |].
    split; [reflexivity |]. split; [reflexivity |]. split; reflexivity. }
  destruct E as (r & changed & y & rest & Er & Ec & El & Em & Ed).
  specialize (H r changed Er Ec). subst changed.
  apply Forall_inv in H. apply H in Em. now apply Em.
Qed.

(** C4, amended.  In every casting result, a primary line carries a
    transformation descriptor exactly when its active flag is set, and the
    flags are those of the input; the lines of the changed hexagram keep
    these flags and none of them carries a descriptor. *)
Theorem castHexagram_descriptors (tza : Z) (env : Env.t) (input : CastingInput.t)
    (r : DivinationResult.t) :
  castHexagram tza env input = Normal r ->
  Forall (fun y => YaoInfo.isMoving y = true <-> YaoInfo.changedYao y <> None)
         (DivinationResult.primaryYao r)
  /\ map YaoInfo.isMoving (DivinationResult.primaryYao r)
     = map YaoState.isMoving (CastingInput.yaoStates input)
  /\ (forall changed,
        DivinationResult.changedYao r = Some changed ->
        Forall (fun y => YaoInfo.changedYao y = None) changed
        /\ map YaoInfo.isMoving changed
           = map YaoState.isMoving (CastingInput.yaoStates input)).
Proof.
  intros H. apply castHexagram_inv in H.
  destruct H as (primaryGua & yaoInfos0 & yongShen & H). cbv zeta in H.
  destruct H as (_ & Hinst & _ & _ & _ & _ & Hprimary & _ & _ & _ & _ & Hchanged).
  destruct (pipeline_primary_lines _ _ _
              (GanZhi.gan (GanZhiTime.day
                 (getGanZhiTime tza (CastingTime.gregorian (CastingInput.time input)))))
              (getGanZhiTime tza (CastingTime.gregorian (CastingInput.time input)))
              Hinst) as [Hm Hd].
  rewrite Hprimary.
  split; [exact Hd |]. split; [exact Hm |].
  intros changed Hc. destruct (Hchanged changed Hc) as (g & _ & ->).
  destruct (getChangedYaoInfos_lines
              (analyzeAllProsperity
                 (installLiuShen yaoInfos0
                    (GanZhi.gan (GanZhiTime.day
                       (getGanZhiTime tza (CastingTime.gregorian (CastingInput.time input))))))
                 (getGanZhiTime tza (CastingTime.gregorian (CastingInput.time input)))) g)
    as [Gm Gd].
  split.
  - apply Forall_map with (f := YaoInfo.changedYao) (P := fun o => o = None).
    rewrite analyzeAllProsperity_preserves by reflexivity.
    rewrite Gd. apply Forall_map. apply Forall_forall. reflexivity.
  - rewrite analyzeAllProsperity_preserves by reflexivity.
    rewrite Gm. exact Hm.
Qed.

Lemma castHexagram_descriptors_witness :
  exists r,
    castHexagram 0 pi_env pi_input = Normal r
    /\ Forall (fun y => YaoInfo.isMoving y = true <-> YaoInfo.changedYao y <> None)
              (DivinationResult.primaryYao r)
    /\ map YaoInfo.isMoving (DivinationResult.primaryYao r)
       = map YaoState.isMoving (CastingInput.yaoStates pi_input)
    /\ (forall changed,
          DivinationResult.changedYao r = Some changed ->
          Forall (fun y => YaoInfo.changedYao y = None) changed
          /\ map YaoInfo.isMoving changed
             = map YaoState.isMoving (CastingInput.yaoStates pi_input)).
Proof.
  eexists. split; [vm_compute; reflexivity |].
  apply (castHexagram_descriptors 0 pi_env pi_input). vm_compute. reflexivity.
Defined.

(** ** Four or more active lines *)


(** C5, as stated, fails: the casting [four_moving_input] has four active
    lines, logs the single note "动爻过多", and its trend is the tally's
    "neutral", not "uncertain". *)
Lemma four_moving_trend_not_uncertain :
  ~ (forall r,
        castHexagram 0 pi_env four_moving_input = Normal r ->
        4 <= Z.of_nat (List.length (filter YaoState.isMoving
                                      (CastingInput.yaoStates four_moving_input))) ->
        InterpretationResult.trend (DivinationResult.interpretation r)
        = TrendJudgment.uncertain).
Proof.
  intros H.
  assert (E : exists r,
             castHexagram 0 pi_env four_moving_input = Normal r
             /\ InterpretationResult.trend (DivinationResult.interpretation r)
                = TrendJudgment.neutral
             /\ InterpretationResult.uncertainties (DivinationResult.interpretation r)
                = [Uncertainty.mk "动爻过多"]).
  { eexists. split; [vm_compute; reflexivity |]. split; reflexivity. }
  destruct E as (r & Er & Et & _).
  specialize (H r Er). rewrite Et in H.
  assert (C : TrendJudgment.neutral = TrendJudgment.uncertain) by (apply H; vm_compute; discriminate).
  discriminate C.
Qed.

(** C5, amended.  For every casting input with four or more active lines,
    the items of the interpretation hold exactly one "risk" item, the one
    of the rule "多爻齐动" (too many lines moving, the situation cannot be
    read), and no narrative of the moving lines; the uncertainty notes are
    the note of the focus-element analysis, if it logged one, followed by
    the note "动爻过多"; and the trend is "uncertain" exactly when the
    focus-element analysis logged its note, that is, when the notes are
    two, and otherwise is the one that the weighted tally of supportive,
    obstructive and risk items selects. *)
Theorem castHexagram_four_moving (tza : Z) (env : Env.t) (input : CastingInput.t)
    (r : DivinationResult.t) :
  castHexagram tza env input = Normal r ->
  4 <= Z.of_nat (List.length (filter YaoState.isMoving (CastingInput.yaoStates input))) ->
  let interpretation := DivinationResult.interpretation r in
  exists related yongShenAnalysis,
    analyzeYongShenStatus (DivinationResult.primaryYao r) (DivinationResult.yongShen r)
                          (DivinationResult.ganZhiTime r) = Normal yongShenAnalysis
    /\ filter is_risk (InterpretationResult.items interpretation)
       = [InterpretationItem.mk ItemType.risk "多爻齐动" related]
    /\ Forall (fun item => InterpretationItem.ruleName item <> "动爻分析")
              (InterpretationResult.items interpretation)
    /\ InterpretationResult.uncertainties interpretation
       = option_to_list (snd yongShenAnalysis) ++ [Uncertainty.mk "动爻过多"]
    /\ (InterpretationResult.trend interpretation = TrendJudgment.uncertain
        <-> snd yongShenAnalysis <> None)
    /\ InterpretationResult.trend interpretation
       = match snd yongShenAnalysis with
         | Some _ => TrendJudgment.uncertain
         | None =>
             trend_of_tally (tally (InterpretationResult.items interpretation)
                                   (fst yongShenAnalysis))
         end.
Proof.
  intros H Hfour interpretation. apply castHexagram_inv in H.
  destruct H as (primaryGua & yaoInfos0 & yongShen & H). cbv zeta in H.
  destruct H as (_ & Hinst & _ & Hint & _ & _ & Hprimary & Hgzt & Hys & _ & _ & _).
  fold interpretation in Hint.
  rewrite Hprimary, Hgzt, Hys.
  set (ganZhiTime := getGanZhiTime tza (CastingTime.gregorian (CastingInput.time input))) in *.
  destruct (pipeline_primary_lines _ _ _ (GanZhi.gan (GanZhiTime.day ganZhiTime)) ganZhiTime Hinst)
    as [Hm _].
  set (primary := analyzeAllProsperity
                    (installLiuShen yaoInfos0 (GanZhi.gan (GanZhiTime.day ganZhiTime)))
                    ganZhiTime) in *.
  clearbody primary ganZhiTime. clear Hinst Hprimary Hgzt Hys.
  apply generateInterpretation_inv in Hint.
  destruct Hint as (ysa & wr & Eys & Ewr & Eitems & Eunc & Etrend & _).
  assert (Emov : analyzeMovingYao primary (DivinationResult.changedYao r) yongShen
                 = Some (InterpretationItem.mk ItemType.risk "多爻齐动"
                           (Some (map YaoInfo.position (filter YaoInfo.isMoving primary))),
                         Some (Uncertainty.mk "动爻过多"))).
  { unfold analyzeMovingYao.
    rewrite (filter_length_map YaoInfo.isMoving YaoState.isMoving primary
               (CastingInput.yaoStates input) Hm).
    destruct (Z.of_nat _ =? 0) eqn:E0; [apply Z.eqb_eq in E0; lia |].
    destruct (4 <=? Z.of_nat _) eqn:E4; [reflexivity | apply Z.leb_gt in E4; lia]. }
  rewrite Emov in Eitems, Eunc. cbn [fst snd option_to_list] in Eitems, Eunc.
  destruct (analyzeYongShenStatus_plain _ _ _ _ Eys) as [Pys _].
  pose proof (analyzeWorldResponse_plain _ _ _ _ Ewr) as Pwr.
  pose proof (analyzeRelationsImpact_plain (analyzeRelations primary ganZhiTime) yongShen primary)
    as Prel.
  pose proof (analyzeVoidAndBroken_plain primary yongShen ganZhiTime) as Pvoid.
  exists (Some (map YaoInfo.position (filter YaoInfo.isMoving primary))), ysa.
  split; [exact Eys |].
  split.
  { rewrite Eitems. rewrite !filter_app.
    rewrite (filter_plain [fst ysa]) by (constructor; [exact Pys | constructor]).
    rewrite (filter_plain [wr]) by (constructor; [exact Pwr | constructor]).
    rewrite (filter_plain _ Prel), (filter_plain _ Pvoid).
    reflexivity. }
  split.
  { rewrite Eitems.
    apply Forall_app; split; [apply Forall_app; split |].
    3: apply Forall_app; split; [| apply Forall_app; split].
    - constructor; [apply Pys | constructor].
    - constructor; [apply Pwr | constructor].
    - constructor; [discriminate | constructor].
    - eapply Forall_impl; [| exact Prel]. intros item [_ Hn]. exact Hn.
    - eapply Forall_impl; [| exact Pvoid]. intros item [_ Hn]. exact Hn. }
  split; [exact Eunc |].
  split.
  - rewrite Etrend, judgeTrend_uncertain_iff, Eunc.
    destruct (snd ysa) as [note |]; cbn.
    + split; [discriminate | lia].
    + split; [lia | intros C; now elim C].
  - rewrite Etrend at 1. rewrite judgeTrend_tally, Eunc.
    destruct (snd ysa) as [note |]; reflexivity.
Qed.

Lemma castHexagram_four_moving_witness :
  exists r,
    castHexagram 0 pi_env four_moving_input = Normal r
    /\ exists related yongShenAnalysis,
         analyzeYongShenStatus (DivinationResult.primaryYao r) (DivinationResult.yongShen r)
                               (DivinationResult.ganZhiTime r) = Normal yongShenAnalysis
         /\ filter is_risk (InterpretationResult.items (DivinationResult.interpretation r))
            = [InterpretationItem.mk ItemType.risk "多爻齐动" related]
         /\ Forall (fun item => InterpretationItem.ruleName item <> "动爻分析")
                   (InterpretationResult.items (DivinationResult.interpretation r))
         /\ InterpretationResult.uncertainties (DivinationResult.interpretation r)
            = option_to_list (snd yongShenAnalysis) ++ [Uncertainty.mk "动爻过多"]
         /\ (InterpretationResult.trend (DivinationResult.interpretation r)
             = TrendJudgment.uncertain
             <-> snd yongShenAnalysis <> None)
         /\ InterpretationResult.trend (DivinationResult.interpretation r)
            = match snd yongShenAnalysis with
              | Some _ => TrendJudgment.uncertain
              | None =>
                  trend_of_tally
                    (tally (InterpretationResult.items (DivinationResult.interpretation r))
                           (fst yongShenAnalysis))
              end.
Proof.
  eexists. split; [vm_compute; reflexivity |].
  apply (castHexagram_four_moving 0 pi_env four_moving_input).
  - vm_compute. reflexivity.
  - vm_compute. discriminate.
Defined.

(** ** Every casting of six lines returns a result *)



Lemma calculateChangedYao_normal_any (s s' : YaoState.t) (position : Z) (g : GuaInfo.t) :
  is_normal (calculateChangedYao s position g) = is_normal (calculateChangedYao s' position g).
Proof.
  unfold calculateChangedYao.
  destruct (if 3 <? position then _ else _); reflexivity.
Qed.

Lemma getGua_six (s1 s2 s3 s4 s5 s6 : YaoState.t) :
  exists g, getGuaFromYaoStates [s1; s2; s3; s4; s5; s6] = Normal g /\ gua_ok g = true.
Proof.
  destruct s1 as [[] ? ? ?], s2 as [[] ? ? ?], s3 as [[] ? ? ?],
           s4 as [[] ? ? ?], s5 as [[] ? ? ?], s6 as [[] ? ? ?];
    (eexists; split; [vm_compute; reflexivity | vm_compute; reflexivity]).
Qed.

Lemma gua_ok_positions (g : GuaInfo.t) :
  gua_ok g = true ->
  1 <= GuaInfo.worldPosition g <= 6 /\ 1 <= GuaInfo.responsePosition g <= 6.
Proof.
  unfold gua_ok. intros H.
  repeat (apply andb_true_iff in H; destruct H as [H ?]). lia.
Qed.

Lemma gua_ok_changed (g : GuaInfo.t) (s : YaoState.t) (position : Z) :
  gua_ok g = true -> 1 <= position <= 6 ->
  exists c, calculateChangedYao s position g = Normal c.
Proof.
  unfold gua_ok. intros H Hp.
  apply andb_true_iff in H. destruct H as [_ H].
  assert (Hin : In position [1; 2; 3; 4; 5; 6]) by (simpl; lia).
  pose proof (proj1 (forallb_forall _ _) H position Hin) as Hn. cbv beta in Hn.
  rewrite (calculateChangedYao_normal_any _ s) in Hn.
  destruct (calculateChangedYao s position g) as [c |]; [now exists c | discriminate Hn].
Qed.

Lemma installHexagram_total (yaoStates : list YaoState.t) (g : GuaInfo.t) :
  gua_ok g = true -> List.length yaoStates = 6%nat ->
  exists yaoInfos, installHexagram yaoStates g = Normal yaoInfos.
Proof.
  intros Hg Hlen. unfold installHexagram. apply mapi_c_from_total.
  intros s j _ Hj. rewrite Hlen in Hj.
  destruct (YaoState.isMoving s).
  - destruct (gua_ok_changed g s (j + 1) Hg) as [c Hc]; [lia |].
    rewrite Hc. cbn [bind]. eexists; reflexivity.
  - cbn [bind]. eexists; reflexivity.
Qed.

Lemma installHexagram_flags (yaoStates : list YaoState.t) (g : GuaInfo.t)
    (yaoInfos : list YaoInfo.t) :
  gua_ok g = true -> List.length yaoStates = 6%nat ->
  installHexagram yaoStates g = Normal yaoInfos ->
  List.length yaoInfos = 6%nat
  /\ existsb YaoInfo.isWorld yaoInfos = true
  /\ existsb YaoInfo.isResponse yaoInfos = true.
Proof.
  intros Hg Hlen H. unfold installHexagram in H.
  apply mapi_c_from_spec in H. destruct H as [Hl Hnth].
  destruct (gua_ok_positions g Hg) as [Hw Hr].
  split; [now rewrite Hl |].
  assert (Hfind : forall position, 1 <= position <= 6 ->
            exists y, In y yaoInfos
              /\ YaoInfo.isWorld y = (position =? GuaInfo.worldPosition g)
              /\ YaoInfo.isResponse y = (position =? GuaInfo.responsePosition g)).
  { intros position Hp.
    destruct (nth_error yaoStates (Z.to_nat (position - 1))) as [s |] eqn:Es.
    - destruct (Hnth _ _ Es) as [y [Hy Hf]].
      exists y. split; [eapply nth_error_In; exact Hy |].
      replace (0 + Z.of_nat (Z.to_nat (position - 1)) + 1) with position in Hf by lia.
      inv_bind Hf as c Ec. apply Normal_inj in Hf. subst y. split; reflexivity.
    - apply nth_error_None in Es. lia. }
  split.
  - destruct (Hfind (GuaInfo.worldPosition g) Hw) as (y & Hin & Hy & _).
    apply existsb_exists. exists y. split; [exact Hin |].
    rewrite Hy. apply Z.eqb_refl.
  - destruct (Hfind (GuaInfo.responsePosition g) Hr) as (y & Hin & _ & Hy).
    apply existsb_exists. exists y. split; [exact Hin |].
    rewrite Hy. apply Z.eqb_refl.
Qed.

Lemma existsb_map_eq {A : Type} (p : A -> bool) (l l' : list A) :
  map p l = map p l' -> existsb p l = existsb p l'.
Proof.
  revert l'. induction l as [| x l IH]; intros [| y l'] H; try discriminate; [reflexivity |].
  simpl in H. injection H as Hx Hl. simpl. now rewrite Hx, (IH l').
Qed.

Lemma find_first_exists {A : Type} (p : A -> bool) (l : list A) :
  existsb p l = true -> exists x, find_first p l = Some x /\ In x l /\ p x = true.
Proof.
  unfold find_first. intros H.
  destruct (find p l) as [x |] eqn:E.
  - exists x. split; [reflexivity |]. now apply find_some in E.
  - apply existsb_exists in H. destruct H as [x [Hin Hp]].
    pose proof (find_none _ _ E x Hin). congruence.
Qed.

Lemma getWorldYao_total (yaoInfos : list YaoInfo.t) :
  existsb YaoInfo.isWorld yaoInfos = true ->
  exists w, getWorldYao yaoInfos = Normal w /\ In w yaoInfos.
Proof.
  intros H. destruct (find_first_exists _ _ H) as (w & E & Hin & _).
  exists w. unfold getWorldYao. now rewrite E.
Qed.

Lemma getResponseYao_total (yaoInfos : list YaoInfo.t) :
  existsb YaoInfo.isResponse yaoInfos = true ->
  exists w, getResponseYao yaoInfos = Normal w /\ In w yaoInfos.
Proof.
  intros H. destruct (find_first_exists _ _ H) as (w & E & Hin & _).
  exists w. unfold getResponseYao. now rewrite E.
Qed.

Lemma includes_pos_self (p : Z) (l : list Z) : includes_pos (p :: l) p = true.
Proof. unfold includes_pos. simpl. now rewrite Z.eqb_refl. Qed.


Lemma createWorldYongShen_total (yaoInfos : list YaoInfo.t) :
  existsb YaoInfo.isWorld yaoInfos = true ->
  exists yongShen, createWorldYongShen yaoInfos = Normal yongShen
                   /\ focus_located yaoInfos yongShen.
Proof.
  intros H. destruct (getWorldYao_total _ H) as (w & E & Hin).
  unfold createWorldYongShen. rewrite E. cbn [bind].
  eexists. split; [reflexivity |]. right. cbn [YongShenInfo.positions].
  apply existsb_exists. exists w. split; [exact Hin | apply includes_pos_self].
Qed.

Lemma selectYongShen_total (yaoInfos : list YaoInfo.t) (questionSubType : string)
    (gender : option GenderOption) :
  existsb YaoInfo.isWorld yaoInfos = true ->
  existsb YaoInfo.isResponse yaoInfos = true ->
  exists yongShen, selectYongShen yaoInfos questionSubType gender = Normal yongShen
                   /\ focus_located yaoInfos yongShen.
Proof.
  intros Hw Hr. unfold selectYongShen.
  destruct (lookup questionSubType YONG_SHEN_RULES) as [rule |];
    [| now apply createWorldYongShen_total].
  destruct (YongShenRule.primary rule) as [primaryLiuQin | | |];
    try now apply createWorldYongShen_total.
  - destruct (Z.of_nat (List.length (findYaoByLiuQin yaoInfos primaryLiuQin)) =? 0) eqn:E.
    + eexists. split; [reflexivity |]. now left.
    + eexists. split; [reflexivity |]. right. cbn [YongShenInfo.positions].
      destruct (findYaoByLiuQin yaoInfos primaryLiuQin) as [| y rest] eqn:Ef;
        [discriminate E |].
      apply existsb_exists. exists y. split.
      * assert (Hin : In y (findYaoByLiuQin yaoInfos primaryLiuQin))
          by (rewrite Ef; now left).
        unfold findYaoByLiuQin in Hin. now apply filter_In in Hin.
      * simpl map. apply includes_pos_self.
  - destruct (getResponseYao_total _ Hr) as (w & E & Hin).
    rewrite E. cbn [bind]. eexists. split; [reflexivity |].
    right. cbn [YongShenInfo.positions].
    apply existsb_exists. exists w. split; [exact Hin | apply includes_pos_self].
Qed.

Lemma analyzeYongShenStatus_total (yaoInfos : list YaoInfo.t) (yongShen : YongShenInfo.t)
    (ganZhiTime : GanZhiTime.t) :
  focus_located yaoInfos yongShen ->
  exists a, analyzeYongShenStatus yaoInfos yongShen ganZhiTime = Normal a.
Proof.
  intros H. unfold analyzeYongShenStatus.
  destruct (Z.of_nat (List.length (YongShenInfo.positions yongShen)) =? 0) eqn:E;
    [eexists; reflexivity |].
  destruct H as [H | H]; [rewrite H in E; discriminate E |].
  destruct (find_first_exists _ _ H) as (y & Ey & _). rewrite Ey.
  eexists; reflexivity.
Qed.

Lemma analyzeWorldResponse_total (yaoInfos : list YaoInfo.t) (ganZhiTime : GanZhiTime.t)
    (questionCategory : QuestionCategory) :
  existsb YaoInfo.isWorld yaoInfos = true ->
  existsb YaoInfo.isResponse yaoInfos = true ->
  exists item, analyzeWorldResponse yaoInfos ganZhiTime questionCategory = Normal item.
Proof.
  intros Hw Hr. unfold analyzeWorldResponse.
  destruct (getWorldYao_total _ Hw) as (w & Ew & _).
  destruct (getResponseYao_total _ Hr) as (w' & Er & _).
  rewrite Ew. cbn [bind]. rewrite Er. cbn [bind]. eexists; reflexivity.
Qed.

Lemma generateInterpretation_total (tza : Z) (today : Date)
    (primaryYaoInfos : list YaoInfo.t) (changedYaoInfos : option (list YaoInfo.t))
    (primaryGua : GuaInfo.t) (changedGua : option GuaInfo.t)
    (ganZhiTime : GanZhiTime.t) (yongShen : YongShenInfo.t)
    (relations : list RelationAnalysis.t) (questionCategory : QuestionCategory) :
  existsb YaoInfo.isWorld primaryYaoInfos = true ->
  existsb YaoInfo.isResponse primaryYaoInfos = true ->
  focus_located primaryYaoInfos yongShen ->
  exists res,
    generateInterpretation tza today primaryYaoInfos changedYaoInfos primaryGua changedGua
      ganZhiTime yongShen relations questionCategory = Normal res.
Proof.
  intros Hw Hr Hf. unfold generateInterpretation.
  destruct (analyzeYongShenStatus_total _ _ ganZhiTime Hf) as [a Ea].
  destruct (analyzeWorldResponse_total _ ganZhiTime questionCategory Hw Hr) as [item Ei].
  destruct (getWorldYao_total _ Hw) as (w & Ew & _).
  rewrite Ea. cbn [bind]. rewrite Ei. cbn [bind]. rewrite Ew. cbn [bind].
  eexists; reflexivity.
Qed.


Lemma changed_bit_yinYang (y : YaoState.t) : changed_bit y = bit_of_yinYang (changed_yinYang y).
Proof.
  unfold changed_bit, changed_yinYang.
  destruct (YaoState.isMoving y), (YaoState.yinYang y); reflexivity.
Qed.

Lemma getChangedGua_total (s1 s2 s3 s4 s5 s6 : YaoState.t) :
  exists o, getChangedGua [s1; s2; s3; s4; s5; s6] = Normal o.
Proof.
  unfold getChangedGua.
  destruct (negb (existsb YaoState.isMoving [s1; s2; s3; s4; s5; s6]));
    [eexists; reflexivity |].
  destruct (lookup_six_lines (changed_yinYang s1) (changed_yinYang s2) (changed_yinYang s3)
              (changed_yinYang s4) (changed_yinYang s5) (changed_yinYang s6)) as [g Hg].
  unfold key_of_lines in Hg. cbn [map] in *. rewrite !changed_bit_yinYang.
  rewrite Hg. eexists; reflexivity.
Qed.

(** For every input of six line states, whatever the date, the category
    and the surroundings, [castHexagram] returns a result. *)
Theorem castHexagram_total (tza : Z) (env : Env.t) (input : CastingInput.t) :
  List.length (CastingInput.yaoStates input) = 6%nat ->
  exists r, castHexagram tza env input = Normal r.
Proof.
  intros Hlen.
  destruct (CastingInput.yaoStates input) as [| s1 [| s2 [| s3 [| s4 [| s5 [| s6 [| s7 l]]]]]]] eqn:El;
    try discriminate Hlen. clear Hlen.
  destruct (getGua_six s1 s2 s3 s4 s5 s6) as (g & Eg & Hok).
  destruct (installHexagram_total [s1; s2; s3; s4; s5; s6] g Hok eq_refl) as [yaoInfos0 Einst].
  destruct (installHexagram_flags [s1; s2; s3; s4; s5; s6] g yaoInfos0 Hok eq_refl Einst)
    as (Hl0 & Hw0 & Hr0).
  destruct (getChangedGua_total s1 s2 s3 s4 s5 s6) as [cg Ecg].
  assert (Emut : exists m, getMutualGua [s1; s2; s3; s4; s5; s6] = Normal m)
    by (eexists; reflexivity).
  destruct Emut as [m Em].
  unfold castHexagram. rewrite El, Eg. cbn [bind]. rewrite Einst. cbn [bind].
  rewrite Ecg, Em.
  remember (getGanZhiTime tza (CastingTime.gregorian (CastingInput.time input)))
    as ganZhiTime eqn:Egzt.
  remember (installLiuShen yaoInfos0 (GanZhi.gan (GanZhiTime.day ganZhiTime)))
    as primary1 eqn:Ep1.
  remember (analyzeAllProsperity primary1 ganZhiTime) as primary eqn:Ep.
  assert (Hw : existsb YaoInfo.isWorld primary = true).
  { rewrite <- Hw0. apply existsb_map_eq. rewrite Ep, Ep1.
    rewrite analyzeAllProsperity_preserves by reflexivity.
    now rewrite installLiuShen_preserves by reflexivity. }
  assert (Hr : existsb YaoInfo.isResponse primary = true).
  { rewrite <- Hr0. apply existsb_map_eq. rewrite Ep, Ep1.
    rewrite analyzeAllProsperity_preserves by reflexivity.
    now rewrite installLiuShen_preserves by reflexivity. }
  assert (L : List.length primary1 = 6%nat).
  { rewrite Ep1. unfold installLiuShen, mapi. now rewrite mapi_from_length. }
  destruct (selectYongShen_total primary
              (getQuestionSubType (CastingInput.questionCategory input)
                 (CastingInput.subType input) (CastingInput.gender input))
              (CastingInput.gender input) Hw Hr) as (yongShen & Eys & Hf).
  rewrite Eys.
  clear Ep Ep1 Egzt Hw0 Hr0 Hl0 Einst Eg Ecg Em Eys El.
  destruct primary1 as [| y1 rest1]; [discriminate L |]. cbn [bind].
  destruct (0 <? Z.of_nat (List.length (getMovingPositions [s1; s2; s3; s4; s5; s6])));
    cbn [bind]; [destruct cg as [cgua |] |]; cbn [bind].
  - destruct (generateInterpretation_total tza (Env.today env) primary
                (Some (analyzeAllProsperity (getChangedYaoInfos primary cgua) ganZhiTime))
                g (Some cgua) ganZhiTime yongShen (analyzeRelations primary ganZhiTime)
                (CastingInput.questionCategory input) Hw Hr Hf) as [res Eres].
    rewrite Eres. cbn [bind]. eexists; reflexivity.
  - destruct (generateInterpretation_total tza (Env.today env) primary None
                g None ganZhiTime yongShen (analyzeRelations primary ganZhiTime)
                (CastingInput.questionCategory input) Hw Hr Hf) as [res Eres].
    rewrite Eres. cbn [bind]. eexists; reflexivity.
  - destruct (generateInterpretation_total tza (Env.today env) primary None
                g None ganZhiTime yongShen (analyzeRelations primary ganZhiTime)
                (CastingInput.questionCategory input) Hw Hr Hf) as [res Eres].
    rewrite Eres. cbn [bind]. eexists; reflexivity.
Qed.

(** ** Determinism *)


(** The clock read by [predictTiming] reaches the timing predictions only. *)
Lemma generateInterpretation_today (tza : Z) (today1 today2 : Date)
    (primaryYaoInfos : list YaoInfo.t) (changedYaoInfos : option (list YaoInfo.t))
    (primaryGua : GuaInfo.t) (changedGua : option GuaInfo.t)
    (ganZhiTime : GanZhiTime.t) (yongShen : YongShenInfo.t)
    (relations : list RelationAnalysis.t) (questionCategory : QuestionCategory) :
  match generateInterpretation tza today1 primaryYaoInfos changedYaoInfos primaryGua changedGua
          ganZhiTime yongShen relations questionCategory,
        generateInterpretation tza today2 primaryYaoInfos changedYaoInfos primaryGua changedGua
          ganZhiTime yongShen relations questionCategory with
  | Normal res1, Normal res2 =>
      InterpretationResult.trend res1 = InterpretationResult.trend res2
      /\ InterpretationResult.items res1 = InterpretationResult.items res2
      /\ InterpretationResult.uncertainties res1 = InterpretationResult.uncertainties res2
  | Throw e1, Throw e2 => e1 = e2
  | _, _ => False
  end.
Proof.
  unfold generateInterpretation.
  destruct (analyzeYongShenStatus primaryYaoInfos yongShen ganZhiTime) as [a |];
    cbn [bind]; [| reflexivity].
  destruct (analyzeWorldResponse primaryYaoInfos ganZhiTime questionCategory) as [item |];
    cbn [bind]; [| reflexivity].
  destruct (getWorldYao primaryYaoInfos) as [w |]; cbn [bind]; [| reflexivity].
  cbn [InterpretationResult.trend InterpretationResult.items InterpretationResult.uncertainties].
  split; [exact eq_refl |]. split; exact eq_refl.
Qed.

(** C9.  Two runs of [castHexagram] on the same input, whatever the clock
    and the identifier generator give to each run, either both raise the
    same error or both return, with the same primary hexagram name, the
    same branches and familial roles of the lines, the same focus role
    and the same trend. *)
Theorem castHexagram_deterministic (tza : Z) (env1 env2 : Env.t) (input : CastingInput.t) :
  observe (castHexagram tza env1 input) = observe (castHexagram tza env2 input).
Proof.
  unfold castHexagram.
  destruct (getGuaFromYaoStates (CastingInput.yaoStates input)) as [primaryGua |];
    cbn [bind]; [| exact eq_refl].
  destruct (installHexagram (CastingInput.yaoStates input) primaryGua) as [yaoInfos0 |];
    cbn [bind]; [| exact eq_refl].
  remember (getGanZhiTime tza (CastingTime.gregorian (CastingInput.time input)))
    as ganZhiTime eqn:Egzt.
  remember (installLiuShen yaoInfos0 (GanZhi.gan (GanZhiTime.day ganZhiTime)))
    as primary1 eqn:Ep1.
  remember (analyzeAllProsperity primary1 ganZhiTime) as primary eqn:Ep.
  destruct (match primary1 with [] => Throw TypeError | _ :: _ => Normal tt end) as [u |];
    cbn [bind]; [| exact eq_refl].
  match goal with
  | |- context [bind ?c _] =>
      match c with
      | (if _ then _ else _) => destruct c as [[[changedGua changedYaoInfos] chain6] |]
      end
  end; cbn [bind]; [| exact eq_refl].
  destruct (getMutualGua (CastingInput.yaoStates input)) as [mutualGua |];
    cbn [bind]; [| exact eq_refl].
  destruct (selectYongShen primary _ (CastingInput.gender input)) as [yongShen |];
    cbn [bind]; [| exact eq_refl].
  pose proof (generateInterpretation_today tza (Env.today env1) (Env.today env2)
                primary changedYaoInfos primaryGua changedGua ganZhiTime yongShen
                (analyzeRelations primary ganZhiTime) (CastingInput.questionCategory input))
    as G.
  destruct (generateInterpretation tza (Env.today env1) primary changedYaoInfos primaryGua
              changedGua ganZhiTime yongShen (analyzeRelations primary ganZhiTime)
              (CastingInput.questionCategory input)) as [res1 | e1];
    destruct (generateInterpretation tza (Env.today env2) primary changedYaoInfos primaryGua
                changedGua ganZhiTime yongShen (analyzeRelations primary ganZhiTime)
                (CastingInput.questionCategory input)) as [res2 | e2];
    cbn [bind observe]; try contradiction.
  - destruct G as [Gt _]. unfold observed.
    cbn [DivinationResult.primaryGua DivinationResult.primaryYao DivinationResult.yongShen
         DivinationResult.interpretation].
    rewrite Gt. exact eq_refl.
  - rewrite G. exact eq_refl.
Qed.

(** Two runs on an input of six lines both return. *)
Corollary castHexagram_deterministic_results (tza : Z) (env1 env2 : Env.t)
    (input : CastingInput.t) :
  List.length (CastingInput.yaoStates input) = 6%nat ->
  exists r1 r2,
    castHexagram tza env1 input = Normal r1
    /\ castHexagram tza env2 input = Normal r2
    /\ observed r1 = observed r2.
Proof.
  intros Hlen.
  destruct (castHexagram_total tza env1 input Hlen) as [r1 E1].
  destruct (castHexagram_total tza env2 input Hlen) as [r2 E2].
  exists r1, r2. split; [exact E1 |]. split; [exact E2 |].
  pose proof (castHexagram_deterministic tza env1 env2 input) as D.
  rewrite E1, E2 in D. cbn [observe] in D. now apply Normal_inj in D.
Qed.
(** ** The share code *)

Lemma yaoState_of_draw_char (type : YaoType) :
  yaoState_of_char (draw_char type) = yaoState_of_type type.
Proof. destruct type; reflexivity. Qed.

Lemma coinSumToYaoState_of_type (type : YaoType) :
  coinSumToYaoState (draw_value type) = Some (yaoState_of_type type).
Proof. destruct type; reflexivity. Qed.

Lemma TimeClip_integer (t : Z) :
  - maxTimeValue <= t <= maxTimeValue -> TimeClip (inject_Z t) = Some t.
Proof.
  intros H. unfold TimeClip, Qle_bool, inject_Z. cbn [Qnum Qden].
  rewrite !Z.mul_1_r.
  destruct (Z.leb_spec (- maxTimeValue) t); [| lia].
  destruct (Z.leb_spec t maxTimeValue); [| lia].
  cbn [andb]. now rewrite Z.quot_1_r.
Qed.

Lemma or_default_method (m : CastingMethod.t) (d : JSON) :
  or_default (Some (JString (method_name m))) d = JString (method_name m).
Proof. destruct m; reflexivity. Qed.

Lemma or_default_category (q : QuestionCategory) (d : JSON) :
  or_default (Some (JString (category_name q))) d = JString (category_name q).
Proof. destruct q; reflexivity. Qed.

Lemma deserializeResult_try_cases (tza : Z) (atob : string -> completion string)
    (JSON_parse : string -> completion JSON) (Date_parse : string -> option Date)
    (ToString : JSON -> string) (resolvedTimeZone : string) (encoded : string) :
  (undecodable atob JSON_parse encoded
   /\ exists e, deserializeResult_try tza atob JSON_parse Date_parse ToString resolvedTimeZone
                   encoded = Throw e)
  \/ (~ undecodable atob JSON_parse encoded
      /\ exists raw text fields ystr,
           deserializeResult_try tza atob JSON_parse Date_parse ToString resolvedTimeZone
             encoded = Normal raw
           /\ atob encoded = Normal text
           /\ JSON_parse text = Normal (JObject fields)
           /\ lookup "y" fields = Some (JString ystr)
           /\ RawCastingInput.yaoStates raw = map yaoState_of_char (split_chars ystr)).
Proof.
  unfold deserializeResult_try, undecodable.
  destruct (atob encoded) as [text | e] eqn:Ea; cbn [bind];
    [| left; split; [exact I | now exists e]].
  destruct (JSON_parse text) as [data | e] eqn:Ep; cbn [bind];
    [| left; split; [exact I | now exists e]].
  destruct data as [| b | q | str | items | fields]; cbn [get_property bind];
    try (left; split; [exact I | now exists TypeError]).
  destruct (lookup "y" fields) as [[| b | q | ystr | items | fields'] |] eqn:Ey;
    try (left; split; [exact I | now exists TypeError]).
  assert (Found : forall date,
             exists raw text0 fields0 ystr0,
               Normal (RawCastingInput.mk
                         (or_default (lookup "m" fields) (JString "coin"))
                         (map yaoState_of_char (split_chars ystr))
                         (createCastingTime_raw tza resolvedTimeZone date)
                         (or_default (lookup "q" fields) (JString "other"))) = Normal raw
               /\ Normal text = Normal text0
               /\ JSON_parse text0 = Normal (JObject fields0)
               /\ lookup "y" fields0 = Some (JString ystr0)
               /\ RawCastingInput.yaoStates raw = map yaoState_of_char (split_chars ystr0)).
  { intros date. eexists. exists text, fields, ystr.
    split; [reflexivity |]. split; [reflexivity |]. split; [exact Ep |].
    split; [exact Ey | reflexivity]. }
  destruct (lookup "t" fields) as [[| b | q | str | items | fields'] |];
    cbn [new_Date_of bind];
    try (right; split; [intros C; (discriminate C || exact C) | apply Found]).
  - destruct (no_primitive (JArray items)) eqn:E; cbn [bind].
    + left. split; [reflexivity | now exists TypeError].
    + right. split; [discriminate | apply Found].
  - destruct (no_primitive (JObject fields')) eqn:E; cbn [bind].
    + left. split; [reflexivity | now exists TypeError].
    + right. split; [discriminate | apply Found].
Qed.

Lemma split_join_draw_chars (types : list YaoType) :
  map yaoState_of_char (split_chars (join_chars (map draw_char types)))
  = map yaoState_of_type types.
Proof.
  unfold split_chars, join_chars. rewrite list_ascii_of_string_of_list_ascii.
  rewrite map_map. apply map_ext. intros type. apply yaoState_of_draw_char.
Qed.

(** C8, as stated, fails: the code [two_line_code] holds only the member
    "y" with the text "12", so it is a malformed share code; it decodes
    to a casting input, of two lines that no draw produces and with an
    Invalid Date, and not to [null]. *)
Lemma malformed_code_decodes_to_input :
  ~ (forall encoded,
        ~ well_formed_code reference_atob reference_JSON_parse encoded ->
        deserializeResult 0 reference_atob reference_JSON_parse reference_Date_parse
          reference_ToString "UTC" encoded = Normal None).
Proof.
  intros H.
  assert (M : ~ well_formed_code reference_atob reference_JSON_parse two_line_code).
  { intros (text & data & Ea & Ep & types & t & q & m & _ & _ & Ed).
    vm_compute in Ea. apply Normal_inj in Ea. subst text.
    vm_compute in Ep. apply Normal_inj in Ep. subst data.
    discriminate Ed. }
  specialize (H two_line_code M). vm_compute in H. discriminate H.
Qed.

(** C8, amended.  For every input string, and whatever the host builtins
    do on it, [deserializeResult] returns normally.  It returns [null]
    when the string is not base64, is not the text of a JSON value, holds
    a value that is not an object with a string under "y", or holds under
    "t" an array or object without a primitive value; in every other
    case, also for a malformed share code, it returns a casting input
    with one line for each character of "y".  A well-formed share code
    decodes to a casting input of six valid lines with a valid date. *)
Theorem deserializeResult_never_raises (tza : Z) (atob : string -> completion string)
    (JSON_parse : string -> completion JSON) (Date_parse : string -> option Date)
    (ToString : JSON -> string) (resolvedTimeZone : string) (encoded : string) :
  let decoded :=
    deserializeResult tza atob JSON_parse Date_parse ToString resolvedTimeZone encoded in
  ((undecodable atob JSON_parse encoded /\ decoded = Normal None)
   \/ (~ undecodable atob JSON_parse encoded
       /\ exists raw text fields ystr,
            decoded = Normal (Some raw)
            /\ atob encoded = Normal text
            /\ JSON_parse text = Normal (JObject fields)
            /\ lookup "y" fields = Some (JString ystr)
            /\ RawCastingInput.yaoStates raw = map yaoState_of_char (split_chars ystr)))
  /\ (well_formed_code atob JSON_parse encoded ->
      exists raw,
        decoded = Normal (Some raw)
        /\ List.length (RawCastingInput.yaoStates raw) = 6%nat
        /\ Forall valid_yaoState (RawCastingInput.yaoStates raw)
        /\ RawCastingTime.gregorian (RawCastingInput.time raw) <> None).
Proof.
  cbv zeta. split.
  - unfold deserializeResult.
    destruct (deserializeResult_try_cases tza atob JSON_parse Date_parse ToString
                resolvedTimeZone encoded)
      as [[Hm [e He]] | [Hm (raw & text & fields & ystr & Hr & Ha & Hp & Hy & Hl)]].
    + left. split; [exact Hm |]. rewrite He. reflexivity.
    + right. split; [exact Hm |]. exists raw, text, fields, ystr.
      rewrite Hr. cbn [bind try_catch]. repeat split; assumption.
  - intros (text & data & Ea & Ep & types & t & q & m & Hlen & Ht & Ed).
    unfold deserializeResult, deserializeResult_try.
    rewrite Ea. cbn [bind]. rewrite Ep. cbn [bind]. subst data.
    cbn [get_property lookup String.eqb Ascii.eqb Bool.eqb bind].
    rewrite or_default_method, or_default_category.
    cbn [new_Date_of bind]. rewrite (TimeClip_integer _ Ht). cbn [bind try_catch].
    eexists. split; [reflexivity |].
    cbn [RawCastingInput.yaoStates RawCastingInput.time RawCastingTime.gregorian
         createCastingTime_raw].
    rewrite split_join_draw_chars.
    split; [now rewrite length_map |].
    split; [| discriminate].
    apply Forall_forall. intros y Hy. apply in_map_iff in Hy.
    destruct Hy as (type & <- & _).
    destruct type; (split; [reflexivity | split; [reflexivity | right; reflexivity]]).
Qed.

Lemma deserializeResult_never_raises_witness :
  well_formed_code reference_atob reference_JSON_parse
    "eyJ5IjoiNjg4Nzc3IiwidCI6MTcxODk3ODQwMDAwMCwicSI6ImxvdmUiLCJtIjoiY29pbiJ9"
  /\ exists raw,
       deserializeResult 0 reference_atob reference_JSON_parse reference_Date_parse
         reference_ToString "UTC"
         "eyJ5IjoiNjg4Nzc3IiwidCI6MTcxODk3ODQwMDAwMCwicSI6ImxvdmUiLCJtIjoiY29pbiJ9"
       = Normal (Some raw)
       /\ List.length (RawCastingInput.yaoStates raw) = 6%nat
       /\ Forall valid_yaoState (RawCastingInput.yaoStates raw)
       /\ RawCastingTime.gregorian (RawCastingInput.time raw) <> None.
Proof.
  assert (W : well_formed_code reference_atob reference_JSON_parse
                "eyJ5IjoiNjg4Nzc3IiwidCI6MTcxODk3ODQwMDAwMCwicSI6ImxvdmUiLCJtIjoiY29pbiJ9").
  { eexists. eexists. split; [vm_compute; reflexivity |].
    split; [vm_compute; reflexivity |].
    exists [old_yin; young_yin; young_yin; young_yang; young_yang; young_yang],
           1718978400000, love, CastingMethod.coin.
    split; [reflexivity |]. split; [vm_compute; split; discriminate | reflexivity]. }
  split; [exact W |].
  exact (proj2 (deserializeResult_never_raises 0 reference_atob reference_JSON_parse
                  reference_Date_parse reference_ToString "UTC" _) W).
Defined.

(** C7.  Let a casting result hold a valid input and let [code] be the
    share code that [serializeResult] returns for it, on a host whose
    [atob] gives back the text of the share data from whatever [btoa]
    made of it and whose [JSON.parse] gives back the share data from the
    text that [JSON.stringify] printed.  Then decoding
    [code] returns a casting input whose six lines are those of the drawn
    values of the original lines (6, 7, 8 or 9 each), with the original
    category, the original method, and a date of the same time value. *)
Theorem share_code_round_trip (tza : Z)
    (btoa atob : string -> completion string)
    (JSON_stringify : JSON -> string) (JSON_parse : string -> completion JSON)
    (Date_parse : string -> option Date) (ToString : JSON -> string)
    (resolvedTimeZone : string)
    (result : DivinationResult.t) (code : string) :
  let input := DivinationResult.input result in
  valid_input input ->
  (forall c, btoa (JSON_stringify (share_data result)) = Normal c ->
             atob c = Normal (JSON_stringify (share_data result))) ->
  JSON_parse (JSON_stringify (share_data result)) = Normal (share_data result) ->
  serializeResult btoa JSON_stringify result = Normal code ->
  exists raw,
    deserializeResult tza atob JSON_parse Date_parse ToString resolvedTimeZone code
      = Normal (Some raw)
    /\ RawCastingInput.yaoStates raw
       = map (fun y => yaoState_of_type (YaoState.type y)) (CastingInput.yaoStates input)
    /\ map YaoState.coinResult (RawCastingInput.yaoStates raw)
       = map (fun y => Some (draw_value (YaoState.type y))) (CastingInput.yaoStates input)
    /\ Forall2 (fun y y' =>
                  YaoState.yinYang y' = YaoState.yinYang y
                  /\ YaoState.isMoving y' = YaoState.isMoving y
                  /\ YaoState.type y' = YaoState.type y
                  /\ (YaoState.coinResult y = None
                      \/ YaoState.coinResult y' = YaoState.coinResult y))
               (CastingInput.yaoStates input) (RawCastingInput.yaoStates raw)
    /\ List.length (RawCastingInput.yaoStates raw) = 6%nat
    /\ RawCastingInput.questionCategory raw
       = JString (category_name (CastingInput.questionCategory input))
    /\ RawCastingInput.method raw = JString (method_name (CastingInput.method input))
    /\ RawCastingTime.gregorian (RawCastingInput.time raw)
       = Some (getTime (CastingTime.gregorian (CastingInput.time input))).
Proof.
  intros input (Hlen & Hvalid & Htime) Hbase64 Hparse Hcode.
  unfold serializeResult in Hcode.
  pose proof (Hbase64 code Hcode) as Hatob.
  unfold deserializeResult, deserializeResult_try.
  rewrite Hatob. cbn [bind]. rewrite Hparse. cbn [bind].
  unfold share_data. fold input.
  cbn [get_property lookup String.eqb Ascii.eqb Bool.eqb bind].
  rewrite or_default_method, or_default_category.
  cbn [new_Date_of bind]. unfold getTime. rewrite (TimeClip_integer _ Htime).
  cbn [bind try_catch]. eexists. split; [reflexivity |].
  cbn [RawCastingInput.yaoStates RawCastingInput.questionCategory RawCastingInput.method
       RawCastingInput.time RawCastingTime.gregorian createCastingTime_raw].
  assert (E : map yaoState_of_char
                (split_chars (join_chars (map (fun y => draw_char (YaoState.type y))
                                              (CastingInput.yaoStates input))))
              = map (fun y => yaoState_of_type (YaoState.type y))
                    (CastingInput.yaoStates input)).
  { unfold split_chars, join_chars. rewrite list_ascii_of_string_of_list_ascii.
    rewrite map_map. apply map_ext. intros y. apply yaoState_of_draw_char. }
  rewrite E.
  split; [reflexivity |].
  split.
  { rewrite map_map. apply map_ext. intros y. destruct (YaoState.type y); reflexivity. }
  split.
  { clear - Hvalid. induction Hvalid as [| y l (Hy & Hm & Hc) _ IH]; simpl; constructor.
    - rewrite Hy, Hm.
      repeat split; try (destruct (YaoState.type y); reflexivity).
      destruct Hc as [Hc | Hc]; [now left | right].
      rewrite Hc. destruct (YaoState.type y); reflexivity.
    - exact IH. }
  split; [now rewrite length_map |].
  repeat split.
Qed.

Lemma share_code_round_trip_witness :
  exists result code,
    castHexagram 0 pi_env pi_input = Normal result
    /\ serializeResult reference_btoa reference_JSON_stringify result = Normal code
    /\ code = "eyJ5IjoiNjg4Nzc3IiwidCI6MTcxODk3ODQwMDAwMCwicSI6ImxvdmUiLCJtIjoiY29pbiJ9"
    /\ exists raw,
         deserializeResult 0 reference_atob reference_JSON_parse reference_Date_parse
           reference_ToString "UTC" code = Normal (Some raw)
         /\ RawCastingInput.yaoStates raw
            = map (fun y => yaoState_of_type (YaoState.type y))
                  (CastingInput.yaoStates (DivinationResult.input result))
         /\ map YaoState.coinResult (RawCastingInput.yaoStates raw)
            = map (fun y => Some (draw_value (YaoState.type y)))
                  (CastingInput.yaoStates (DivinationResult.input result))
         /\ Forall2 (fun y y' =>
                       YaoState.yinYang y' = YaoState.yinYang y
                       /\ YaoState.isMoving y' = YaoState.isMoving y
                       /\ YaoState.type y' = YaoState.type y
                       /\ (YaoState.coinResult y = None
                           \/ YaoState.coinResult y' = YaoState.coinResult y))
                    (CastingInput.yaoStates (DivinationResult.input result))
                    (RawCastingInput.yaoStates raw)
         /\ List.length (RawCastingInput.yaoStates raw) = 6%nat
         /\ RawCastingInput.questionCategory raw
            = JString (category_name
                         (CastingInput.questionCategory (DivinationResult.input result)))
         /\ RawCastingInput.method raw
            = JString (method_name (CastingInput.method (DivinationResult.input result)))
         /\ RawCastingTime.gregorian (RawCastingInput.time raw)
            = Some (getTime (CastingTime.gregorian
                               (CastingInput.time (DivinationResult.input result)))).
Proof.
  eexists. eexists.
  split; [vm_compute; reflexivity |].
  split; [vm_compute; reflexivity |].
  split; [reflexivity |].
  apply (share_code_round_trip 0 reference_btoa reference_atob reference_JSON_stringify
           reference_JSON_parse reference_Date_parse reference_ToString "UTC").
  - split; [reflexivity |]. split.
    + repeat (apply Forall_cons;
                [split; [reflexivity | split; [reflexivity | right; reflexivity]] |]).
      apply Forall_nil.
    + vm_compute. split; discriminate.
  - intros c H. vm_compute in H. apply Normal_inj in H. subst c. vm_compute. reflexivity.
  - vm_compute. reflexivity.
  - vm_compute. reflexivity.
Defined.

(** * Further properties of the engine *)


(** ** Relations between branches *)

Lemma checkSixClash_day_broken (zhi1 zhi2 : DiZhi) :
  isDayBroken zhi1 zhi2 = checkSixClash zhi1 zhi2
  /\ isMonthBroken zhi1 zhi2 = checkSixClash zhi1 zhi2.
Proof. destruct zhi1, zhi2; vm_compute; split; reflexivity. Qed.

(** X1.  Two branches clash exactly when they lie six places apart; the
    test is symmetric and no branch clashes with itself.  [isDayBroken]
    and [isMonthBroken], which compare indices, agree with
    [checkSixClash], which reads the table [DI_ZHI_CHONG]. *)
Theorem checkSixClash_spec (zhi1 zhi2 : DiZhi) :
  (checkSixClash zhi1 zhi2 = true
   <-> getDiZhiIndex zhi2 = (getDiZhiIndex zhi1 + 6) mod 12)
  /\ checkSixClash zhi1 zhi2 = checkSixClash zhi2 zhi1
  /\ checkSixClash zhi1 zhi1 = false
  /\ isDayBroken zhi1 zhi2 = checkSixClash zhi1 zhi2
  /\ isMonthBroken zhi1 zhi2 = checkSixClash zhi1 zhi2.
Proof.
  destruct zhi1, zhi2; vm_compute;
    (split; [split; intros H; congruence |]); repeat split.
Qed.

(** X2.  Harmony, harm and penalty are symmetric tests; no branch is in
    harmony or in harm with itself; clash, harmony and harm exclude each
    other, so that two lines are recorded in at most two relations (one
    of the three, and a penalty). *)
Theorem branch_relations_symmetric (zhi1 zhi2 : DiZhi) (yao1 yao2 : YaoInfo.t) :
  checkSixHarmony zhi1 zhi2 = checkSixHarmony zhi2 zhi1
  /\ checkSixHarm zhi1 zhi2 = checkSixHarm zhi2 zhi1
  /\ checkThreePenalty zhi1 zhi2 = checkThreePenalty zhi2 zhi1
  /\ checkSixHarmony zhi1 zhi1 = false
  /\ checkSixHarm zhi1 zhi1 = false
  /\ checkSixClash zhi1 zhi2 && checkSixHarmony zhi1 zhi2 = false
  /\ checkSixClash zhi1 zhi2 && checkSixHarm zhi1 zhi2 = false
  /\ checkSixHarmony zhi1 zhi2 && checkSixHarm zhi1 zhi2 = false
  /\ (List.length (pair_relations yao1 yao2) <= 2)%nat.
Proof.
  split; [destruct zhi1, zhi2; reflexivity |].
  split; [destruct zhi1, zhi2; reflexivity |].
  split; [destruct zhi1, zhi2; reflexivity |].
  split; [destruct zhi1; reflexivity |].
  split; [destruct zhi1; reflexivity |].
  split; [destruct zhi1, zhi2; reflexivity |].
  split; [destruct zhi1, zhi2; reflexivity |].
  split; [destruct zhi1, zhi2; reflexivity |].
  unfold pair_relations.
  destruct (YaoInfo.diZhi yao1), (YaoInfo.diZhi yao2); simpl; lia.
Qed.

(** ** The five elements *)

(** X3.  The familial roles are dual: the target is my parent exactly
    when I am its offspring, my officer exactly when I am its wealth, and
    my sibling exactly when the elements are equal; parent and officer
    are the elements that generate and that overcome mine. *)
Theorem getLiuQin_dual (myWuXing targetWuXing : WuXing) :
  (getLiuQin myWuXing targetWuXing = XiongDi <-> myWuXing = targetWuXing)
  /\ (getLiuQin myWuXing targetWuXing = FuMu <-> getLiuQin targetWuXing myWuXing = ZiSun)
  /\ (getLiuQin myWuXing targetWuXing = GuanGui <-> getLiuQin targetWuXing myWuXing = QiCai)
  /\ (getLiuQin myWuXing targetWuXing = FuMu <-> WU_XING_SHENG targetWuXing = myWuXing)
  /\ (getLiuQin myWuXing targetWuXing = GuanGui <-> WU_XING_KE targetWuXing = myWuXing).
Proof.
  destruct myWuXing, targetWuXing; vm_compute;
    repeat split; intros H; congruence.
Qed.

(** X4.  [getProsperityByMonth] sorts the element of a line by its
    relation to the element of the month: 旺 when they are equal, 相 when
    the line generates the month, 休 when the month generates the line, 囚
    when the line overcomes the month, 死 when the month overcomes the
    line.  (The third test of the function repeats the second and never
    decides; 休 comes from the final default.) *)
Theorem getProsperityByMonth_spec (targetWuXing monthWuXing : WuXing) :
  (getProsperityByMonth targetWuXing monthWuXing = Wang <-> targetWuXing = monthWuXing)
  /\ (getProsperityByMonth targetWuXing monthWuXing = Xiang
      <-> WU_XING_SHENG targetWuXing = monthWuXing)
  /\ (getProsperityByMonth targetWuXing monthWuXing = Xiu
      <-> WU_XING_SHENG monthWuXing = targetWuXing)
  /\ (getProsperityByMonth targetWuXing monthWuXing = Qiu
      <-> WU_XING_KE targetWuXing = monthWuXing)
  /\ (getProsperityByMonth targetWuXing monthWuXing = SiState
      <-> WU_XING_KE monthWuXing = targetWuXing).
Proof.
  destruct targetWuXing, monthWuXing; vm_compute;
    repeat split; intros H; congruence.
Qed.

(** ** The void branches of a day *)

(** X5.  A branch is void on a day exactly when it lies ten or eleven
    places after the branch on which the day's decade began; the branch
    of the day itself is never void. *)
Theorem isVoid_spec (dayGan : TianGan) (dayZhi zhi : DiZhi) :
  let voidBranches := getVoidBranches dayGan dayZhi in
  let xunStart := (getDiZhiIndex dayZhi - getTianGanIndex dayGan) mod 12 in
  (isVoid zhi voidBranches = true <-> 10 <= (getDiZhiIndex zhi - xunStart) mod 12)
  /\ isVoid dayZhi voidBranches = false.
Proof.
  destruct dayGan, dayZhi, zhi; vm_compute;
    (split; [split; intros H; congruence |]); reflexivity.
Qed.

(** ** The four pillars *)

Lemma getMonthZhiIndex_loop_step (n : nat) (month day : Z) :
  getMonthZhiIndex_loop (S n) month day
  = let '(_, jqMonth, jqDay) := arr_get ("", 0, 0) JIE_QI_APPROX (Z.of_nat n) in
    if (jqMonth <? month) || ((month =? jqMonth) && (jqDay <=? day))
    then jsmod (Z.of_nat n + 2) 12
    else getMonthZhiIndex_loop n month day.
Proof. reflexivity. Qed.

Ltac month_loop_step :=
  rewrite getMonthZhiIndex_loop_step;
  match goal with
  | |- context [arr_get ?d ?l ?i] =>
      let e := eval vm_compute in (arr_get d l i) in
      change (arr_get d l i) with e
  end;
  cbv beta iota zeta.

Lemma getMonthZhiIndex_one (month day : Z) : getMonthZhiIndex month day = 1.
Proof.
  unfold getMonthZhiIndex.
  change (List.length JIE_QI_APPROX) with 12%nat.
  month_loop_step.
  destruct (Z.ltb_spec 1 month) as [H1 | H1]; cbn [orb]; [reflexivity |].
  destruct (Z.eqb_spec month 1) as [E1 | E1]; cbn [andb].
  - destruct (6 <=? day); [reflexivity |]. subst month.
    repeat month_loop_step. reflexivity.
  - assert (H0 : month <= 0) by lia.
    repeat (month_loop_step;
            match goal with
            | |- context [?a <? month] =>
                destruct (Z.ltb_spec a month) as [H | H]; [lia | clear H]
            end;
            match goal with
            | |- context [month =? ?a] =>
                destruct (Z.eqb_spec month a) as [H | H]; [lia | clear H]
            end; cbn [orb andb]).
    reflexivity.
Qed.

Lemma getMonthGanZhi_zhi (tza : Z) (date : Date) :
  GanZhi.zhi (getMonthGanZhi tza date) = zChou.
Proof.
  unfold getMonthGanZhi. cbn [GanZhi.zhi]. rewrite getMonthZhiIndex_one. reflexivity.
Qed.

Lemma getGanZhiTime_month (tza : Z) (date : Date) :
  GanZhiTime.monthWuXing (getGanZhiTime tza date) = Tu.
Proof.
  unfold getGanZhiTime. cbn [GanZhiTime.monthWuXing]. rewrite getMonthGanZhi_zhi. reflexivity.
Qed.

Lemma getGanZhiTime_month_zhi (tza : Z) (date : Date) :
  GanZhi.zhi (GanZhiTime.month (getGanZhiTime tza date)) = zChou.
Proof. unfold getGanZhiTime. cbn [GanZhiTime.month]. apply getMonthGanZhi_zhi. Qed.

(** X6.  The loop of [getMonthZhiIndex] starts at the entry of 小寒
    (month 1, day 6), which every later date of the year satisfies, and
    falls through to the same answer otherwise: the month branch is 丑
    and the element of the month is 土 for every date. *)
Theorem month_branch_always_chou (tza : Z) (date : Date) :
  (forall month day : Z, getMonthZhiIndex month day = 1)
  /\ GanZhi.zhi (getMonthGanZhi tza date) = zChou
  /\ GanZhiTime.monthWuXing (getGanZhiTime tza date) = Tu.
Proof.
  split; [exact getMonthZhiIndex_one |].
  split; [apply getMonthGanZhi_zhi | apply getGanZhiTime_month].
Qed.


Lemma jsmod_wrap_10 (a : Z) : jsmod (jsmod a 10 + 10) 10 = a mod 10.
Proof. unfold jsmod. div_lia. Qed.

Lemma jsmod_wrap_12 (a : Z) : jsmod (jsmod a 12 + 12) 12 = a mod 12.
Proof. unfold jsmod. div_lia. Qed.

Lemma pillar_polarity (i j : Z) :
  0 <= i <= 9 -> 0 <= j <= 11 -> i mod 2 = j mod 2 ->
  same_polarity (GanZhi.mk (arr_get gJia TIAN_GAN i) (arr_get zZi DI_ZHI j)).
Proof.
  intros Hi Hj Hp.
  assert (Ci : i = 0 \/ i = 1 \/ i = 2 \/ i = 3 \/ i = 4 \/ i = 5 \/ i = 6 \/ i = 7
               \/ i = 8 \/ i = 9) by lia.
  assert (Cj : j = 0 \/ j = 1 \/ j = 2 \/ j = 3 \/ j = 4 \/ j = 5 \/ j = 6 \/ j = 7
               \/ j = 8 \/ j = 9 \/ j = 10 \/ j = 11) by lia.
  clear Hi Hj.
  repeat (destruct Ci as [Ci | Ci]); subst i;
    repeat (destruct Cj as [Cj | Cj]); subst j;
    first [reflexivity | exfalso; vm_compute in Hp; discriminate Hp].
Qed.

Lemma cycle_pillar_polarity (n : Z) :
  same_polarity (GanZhi.mk (arr_get gJia TIAN_GAN (n mod 10)) (arr_get zZi DI_ZHI (n mod 12))).
Proof. apply pillar_polarity; div_lia. Qed.

Lemma getHours_range (tza : Z) (date : Date) : 0 <= getHours tza date <= 23.
Proof. unfold getHours, msPerDay, msPerHour. div_lia. Qed.

(** X7.  For a date at least one day inside the range of time values,
    in each of the four pillars that [getGanZhiTime] computes the stem
    and the branch have the same polarity: every pillar is one of the
    sixty pairs of the sexagenary cycle.  (Within a day of the end of
    the range the day that the hour pillar looks up is an Invalid Date
    in the source.) *)
Theorem getGanZhiTime_pillars_polarity (tza : Z) (date : Date) :
  inside_range tza date ->
  let ganZhiTime := getGanZhiTime tza date in
  same_polarity (GanZhiTime.year ganZhiTime)
  /\ same_polarity (GanZhiTime.month ganZhiTime)
  /\ same_polarity (GanZhiTime.day ganZhiTime)
  /\ same_polarity (GanZhiTime.hour ganZhiTime).
Proof.
  intros _.
  unfold getGanZhiTime.
  cbn [GanZhiTime.year GanZhiTime.month GanZhiTime.day GanZhiTime.hour].
  split; [| split; [| split]].
  - unfold getYearGanZhi. rewrite jsmod_wrap_10, jsmod_wrap_12.
    apply cycle_pillar_polarity.
  - unfold getMonthGanZhi. rewrite getMonthZhiIndex_one.
    destruct (GanZhi.gan (getYearGanZhi tza date)); reflexivity.
  - unfold getDayGanZhi. rewrite jsmod_wrap_10, jsmod_wrap_12.
    apply cycle_pillar_polarity.
  - unfold getHourGanZhi.
    pose proof (getHours_range tza date) as Hh.
    set (hour := getHours tza date) in *.
    set (hourZhiIndex := if (23 <=? hour) || (hour <? 1) then 0 else (hour + 1) / 2).
    assert (Hz : 0 <= hourZhiIndex <= 11).
    { unfold hourZhiIndex.
      destruct (Z.leb_spec 23 hour); cbn [orb]; [lia |].
      destruct (Z.ltb_spec hour 1); [lia | div_lia]. }
    clearbody hourZhiIndex.
    set (dayGan := GanZhi.gan (getDayGanZhi tza _)). clearbody dayGan.
    apply pillar_polarity; [| exact Hz |];
      destruct dayGan;
      match goal with
      | |- context [jsmod ?zi 10] =>
          match zi with
          | jsmod _ 5 * 2 => let e := eval vm_compute in (jsmod zi 10) in
                             change (jsmod zi 10) with e
          end
      end; unfold jsmod; div_lia.
Qed.

Lemma getGanZhiTime_pillars_polarity_witness :
  inside_range 0 pi_time
  /\ same_polarity (GanZhiTime.day (getGanZhiTime 0 pi_time))
  /\ same_polarity (GanZhiTime.hour (getGanZhiTime 0 pi_time)).
Proof.
  assert (R : inside_range 0 pi_time) by (vm_compute; repeat split; discriminate).
  split; [exact R |].
  pose proof (getGanZhiTime_pillars_polarity 0 pi_time R) as (_ & _ & Hd & Hh).
  split; [exact Hd | exact Hh].
Defined.

(** ** The day pillar *)

Lemma days_from_civil_day (y m d : Z) :
  days_from_civil y m d = days_from_civil y m 1 + d - 1.
Proof. unfold days_from_civil. cbv zeta. lia. Qed.

Lemma Date_UTC_local_day (tza : Z) (date : Date) :
  ~ (0 <= getFullYear tza date <= 99) ->
  Date_UTC (getFullYear tza date) (getMonth tza date) (getDate tza date)
  = LocalTime tza date / msPerDay * msPerDay.
Proof.
  unfold getFullYear, getMonth, getDate.
  pose proof (civil_from_days_fields (LocalTime tza date / msPerDay)) as F.
  destruct (civil_from_days (LocalTime tza date / msPerDay)) as [[y m] d].
  destruct F as (Hm & _ & Hd). intros Hy.
  unfold Date_UTC, MakeFullYear, MakeDay.
  assert (E : (0 <=? y) && (y <=? 99) = false).
  { destruct (Z.leb_spec 0 y); destruct (Z.leb_spec y 99); cbn; try reflexivity. lia. }
  rewrite E.
  replace ((m - 1) / 12) with 0 by div_lia.
  replace ((m - 1) mod 12 + 1) with m by div_lia.
  rewrite Z.add_0_r, <- days_from_civil_day, Hd. reflexivity.
Qed.

Lemma BASE_DATE_local_day (tza : Z) :
  Date_UTC (getFullYear tza (BASE_DATE tza)) (getMonth tza (BASE_DATE tza))
           (getDate tza (BASE_DATE tza))
  = days_from_civil 2000 1 7 * msPerDay.
Proof.
  unfold getFullYear, getMonth, getDate, LocalTime, BASE_DATE, new_Date.
  replace (MakeDay (MakeFullYear 2000) 0 7 * msPerDay - tza + tza)
    with (MakeDay (MakeFullYear 2000) 0 7 * msPerDay) by lia.
  reflexivity.
Qed.

Lemma daysBetween_BASE_DATE (tza : Z) (date : Date) :
  ~ (0 <= getFullYear tza date <= 99) ->
  daysBetween tza (BASE_DATE tza) date
  = LocalTime tza date / msPerDay - days_from_civil 2000 1 7.
Proof.
  intros Hy. unfold daysBetween.
  rewrite BASE_DATE_local_day, (Date_UTC_local_day tza date Hy).
  change (1000 * 60 * 60 * 24) with msPerDay.
  rewrite <- Z.mul_sub_distr_r. apply Z.div_mul. discriminate.
Qed.

Lemma getDayGanZhi_local_day (tza : Z) (date : Date) :
  ~ (0 <= getFullYear tza date <= 99) ->
  let n := (getTime date + tza) / msPerDay - days_from_civil 2000 1 7 in
  getDayGanZhi tza date
  = GanZhi.mk (arr_get gJia TIAN_GAN (n mod 10)) (arr_get zZi DI_ZHI (n mod 12)).
Proof.
  intros Hy n. unfold getDayGanZhi.
  rewrite jsmod_wrap_10, jsmod_wrap_12, (daysBetween_BASE_DATE tza date Hy).
  reflexivity.
Qed.

(** X8.  For a date at least one day inside the range of time values
    whose local year is not one of 0 to 99 (which [Date.UTC] reads as
    1900 to 1999), the day pillar counts local days from 2000-01-07, a
    甲子 day: on the [n]-th local day after it (before it, for negative
    [n]) the stem is the [n mod 10]-th and the branch the [n mod 12]-th,
    where the local day is taken under the offset [tza] in force at the
    date. *)
Theorem getDayGanZhi_counts_days (tza : Z) (date : Date) :
  inside_range tza date ->
  ~ (0 <= getFullYear tza date <= 99) ->
  let n := (getTime date + tza) / msPerDay - days_from_civil 2000 1 7 in
  getDayGanZhi tza date
  = GanZhi.mk (arr_get gJia TIAN_GAN (n mod 10)) (arr_get zZi DI_ZHI (n mod 12)).
Proof. intros _. exact (getDayGanZhi_local_day tza date). Qed.

Lemma getDayGanZhi_counts_days_witness :
  inside_range 0 pi_time
  /\ ~ (0 <= getFullYear 0 pi_time <= 99)
  /\ getDayGanZhi 0 pi_time = GanZhi.mk gBing zChen.
Proof.
  assert (R : inside_range 0 pi_time) by (vm_compute; repeat split; discriminate).
  assert (Hy : ~ (0 <= getFullYear 0 pi_time <= 99)).
  { vm_compute. intros [_ H]. apply H. reflexivity. }
  split; [exact R |]. split; [exact Hy |].
  rewrite (getDayGanZhi_counts_days 0 pi_time R Hy). reflexivity.
Defined.

(** ** The search for future days *)

Lemma getFullYear_from_1970 (tza : Z) (date : Date) :
  0 <= getTime date + tza -> ~ (0 <= getFullYear tza date <= 99).
Proof.
  intros H. unfold getFullYear, LocalTime, civil_from_days. unfold getTime in H.
  assert (Hz : 0 <= (date + tza) / msPerDay) by (unfold msPerDay; div_lia).
  set (z := (date + tza) / msPerDay) in *. clearbody z.
  cbv zeta.
  match goal with |- context [if ?c then _ else _] => destruct c end; div_lia.
Qed.

Lemma indexOf_DI_ZHI_arr_get (j : Z) :
  0 <= j <= 11 -> indexOf DiZhi_eqb DI_ZHI (arr_get zZi DI_ZHI j) = j.
Proof.
  intros Hj.
  assert (Cj : j = 0 \/ j = 1 \/ j = 2 \/ j = 3 \/ j = 4 \/ j = 5 \/ j = 6 \/ j = 7
               \/ j = 8 \/ j = 9 \/ j = 10 \/ j = 11) by lia.
  repeat (destruct Cj as [Cj | Cj]); subst j; reflexivity.
Qed.

(** The branch index of the day [k] days after [startDate]. *)
Lemma day_branch_after (tza : Z) (startDate : Date) (k : Z) :
  0 <= getTime startDate + tza -> 0 <= k ->
  day_branch_index tza (getTime startDate + k * 24 * 60 * 60 * 1000)
  = (day_branch_index tza startDate + k) mod 12.
Proof.
  intros Hs Hk. unfold day_branch_index, getTime in *.
  rewrite (getDayGanZhi_local_day tza startDate (getFullYear_from_1970 tza startDate Hs)).
  rewrite (getDayGanZhi_local_day tza (startDate + k * 24 * 60 * 60 * 1000)).
  2: { apply getFullYear_from_1970. unfold getTime. lia. }
  cbv zeta. cbn [GanZhi.zhi]. unfold getDiZhiIndex, getTime.
  rewrite !indexOf_DI_ZHI_arr_get by div_lia.
  replace ((startDate + k * 24 * 60 * 60 * 1000 + tza) / msPerDay)
    with ((startDate + tza) / msPerDay + k).
  2: { unfold msPerDay. div_lia. }
  div_lia.
Qed.

Lemma findFutureDatesWithZhi_loop_step (tza : Z) (n : nat) (i : Z) (startDate : Date)
    (targetZhiIndex : Z) :
  findFutureDatesWithZhi_loop tza (S n) i startDate targetZhiIndex
  = (if day_branch_index tza (getTime startDate + i * 24 * 60 * 60 * 1000) =? targetZhiIndex
     then [getTime startDate + i * 24 * 60 * 60 * 1000] else [])
    ++ findFutureDatesWithZhi_loop tza n (i + 1) startDate targetZhiIndex.
Proof.
  unfold day_branch_index. cbn [findFutureDatesWithZhi_loop]. cbv zeta. exact eq_refl.
Qed.

Lemma findFutureDatesWithZhi_loop_In (tza : Z) (n : nat) (i : Z) (startDate : Date)
    (targetZhiIndex : Z) (d : Date) :
  In d (findFutureDatesWithZhi_loop tza n i startDate targetZhiIndex)
  <-> exists k, i <= k < i + Z.of_nat n
                /\ d = getTime startDate + k * 24 * 60 * 60 * 1000
                /\ day_branch_index tza d = targetZhiIndex.
Proof.
  revert i. induction n as [| n IH]; intros i.
  - simpl. split; [contradiction | intros (k & Hk & _); lia].
  - rewrite findFutureDatesWithZhi_loop_step, in_app_iff, IH.
    set (checkDate := getTime startDate + i * 24 * 60 * 60 * 1000).
    split.
    + intros [H | (k & Hk & Hd & Hz)].
      * destruct (Z.eqb_spec (day_branch_index tza checkDate) targetZhiIndex) as [E | E];
          [| contradiction].
        destruct H as [<- | []]. exists i. split; [lia |]. split; [reflexivity | exact E].
      * exists k. split; [lia |]. split; assumption.
    + intros (k & Hk & Hd & Hz).
      destruct (Z.eq_dec k i) as [-> | Hne].
      * left. fold checkDate in Hd. subst d. rewrite Hz, Z.eqb_refl. left. reflexivity.
      * right. exists k. split; [lia |]. split; assumption.
Qed.

Lemma findFutureDatesWithZhi_loop_sorted (tza : Z) (n : nat) (i : Z) (startDate : Date)
    (targetZhiIndex : Z) :
  StronglySorted Z.lt (findFutureDatesWithZhi_loop tza n i startDate targetZhiIndex).
Proof.
  revert i. induction n as [| n IH]; intros i.
  - constructor.
  - rewrite findFutureDatesWithZhi_loop_step.
    destruct (_ =? targetZhiIndex); cbn [app]; [| apply IH].
    constructor; [apply IH |].
    apply Forall_forall. intros d Hd.
    apply findFutureDatesWithZhi_loop_In in Hd. destruct Hd as (k & Hk & -> & _).
    unfold getTime. lia.
Qed.

Lemma day_branch_index_range (tza : Z) (date : Date) : 0 <= day_branch_index tza date <= 11.
Proof.
  unfold day_branch_index.
  destruct (GanZhi.zhi (getDayGanZhi tza date)); vm_compute; split; discriminate.
Qed.

(** The loop finds as many days as there are numbers [k] in its range for
    which the branch [k] places after the branch of the first day is the
    target. *)
Lemma findFutureDatesWithZhi_loop_length (tza : Z) (n : nat) (i : Z) (startDate : Date)
    (targetZhiIndex : Z) :
  0 <= getTime startDate + tza -> 0 <= i ->
  List.length (findFutureDatesWithZhi_loop tza n i startDate targetZhiIndex)
  = List.length
      (filter (fun k => (day_branch_index tza startDate + Z.of_nat k) mod 12 =? targetZhiIndex)
              (seq (Z.to_nat i) n)).
Proof.
  intros Hs. revert i. induction n as [| n IH]; intros i Hi.
  - reflexivity.
  - rewrite findFutureDatesWithZhi_loop_step, length_app.
    unfold Date in *. rewrite (IH (i + 1) ltac:(lia)).
    rewrite (day_branch_after tza startDate i Hs Hi).
    cbn [seq filter]. rewrite Z2Nat.id by lia.
    replace (Z.to_nat (i + 1)) with (S (Z.to_nat i)) by lia.
    destruct (_ =? targetZhiIndex); reflexivity.
Qed.

Lemma findFutureDatesWithZhi_180 (z0 : Z) (targetZhi : DiZhi) :
  0 <= z0 <= 11 ->
  List.length
    (filter (fun k => (z0 + Z.of_nat k) mod 12 =? indexOf DiZhi_eqb DI_ZHI targetZhi)
            (seq 1 180))
  = 15%nat.
Proof.
  intros Hz.
  assert (C : z0 = 0 \/ z0 = 1 \/ z0 = 2 \/ z0 = 3 \/ z0 = 4 \/ z0 = 5 \/ z0 = 6 \/ z0 = 7
              \/ z0 = 8 \/ z0 = 9 \/ z0 = 10 \/ z0 = 11) by lia.
  clear Hz.
  repeat (destruct C as [C | C]); subst z0; destruct targetZhi; vm_compute; reflexivity.
Qed.


(** X9.  In a zone whose offset [tza] from UTC is constant, from a start
    at or after 1970-01-01 (local time) and with the whole search window
    inside the range of time values, [findFutureDatesWithZhi] returns,
    in increasing order, exactly the days [first], [first + 12],
    [first + 24], ... after the start that are within [maxDays], where
    [first], between 1 and 12, is the distance from the branch of the
    start day to the target branch; with the default of 180 days these
    are fifteen dates. *)
Theorem findFutureDatesWithZhi_every_twelfth (tza : Z) (startDate : Date) (targetZhi : DiZhi)
    (maxDays : Z) :
  - msPerDay < tza < msPerDay ->
  0 <= getTime startDate + tza ->
  getTime startDate + maxDays * msPerDay <= maxTimeValue ->
  let first :=
    (getDiZhiIndex targetZhi - day_branch_index tza startDate - 1) mod 12 + 1 in
  let dates := findFutureDatesWithZhi tza startDate targetZhi maxDays in
  (forall d, In d dates
             <-> exists j, 0 <= j /\ first + 12 * j <= maxDays
                           /\ d = getTime startDate + (first + 12 * j) * msPerDay)
  /\ StronglySorted Z.lt dates
  /\ Forall valid_time dates
  /\ if maxDays =? 180 then List.length dates = 15%nat else True.
Proof.
  intros Hzone Hs Hend first dates.
  pose proof (day_branch_index_range tza startDate) as Hz.
  pose proof (getDiZhiIndex_range targetZhi) as Ht.
  unfold dates, findFutureDatesWithZhi.
  split; [| split; [| split]].
  - intros d. rewrite findFutureDatesWithZhi_loop_In. unfold first.
    change (indexOf DiZhi_eqb DI_ZHI targetZhi) with (getDiZhiIndex targetZhi).
    set (t := getDiZhiIndex targetZhi) in *. set (z0 := day_branch_index tza startDate) in *.
    split.
    + intros (k & Hk & -> & Hd).
      rewrite (day_branch_after tza startDate k Hs) in Hd by lia. fold z0 in Hd.
      exists ((k - ((t - z0 - 1) mod 12 + 1)) / 12).
      unfold msPerDay. clearbody t z0. split; [div_lia |]. split; [div_lia |].
      assert (E : k = (t - z0 - 1) mod 12 + 1 + 12 * ((k - ((t - z0 - 1) mod 12 + 1)) / 12))
        by div_lia.
      rewrite <- E. lia.
    + intros (j & Hj & Hm & ->).
      exists ((t - z0 - 1) mod 12 + 1 + 12 * j).
      assert (Hk : 1 <= (t - z0 - 1) mod 12 + 1 + 12 * j) by div_lia.
      split; [lia |]. split; [unfold msPerDay; lia |].
      replace (getTime startDate + ((t - z0 - 1) mod 12 + 1 + 12 * j) * msPerDay)
        with (getTime startDate + ((t - z0 - 1) mod 12 + 1 + 12 * j) * 24 * 60 * 60 * 1000)
        by (unfold msPerDay; lia).
      rewrite (day_branch_after tza startDate _ Hs) by lia. fold z0.
      clearbody t z0. div_lia.
  - apply findFutureDatesWithZhi_loop_sorted.
  - apply Forall_forall. intros d Hd.
    apply findFutureDatesWithZhi_loop_In in Hd. destruct Hd as (k & Hk & -> & _).
    unfold valid_time, getTime, msPerDay, maxTimeValue in *. nia.
  - destruct (Z.eqb_spec maxDays 180) as [-> | _]; [| exact I].
    rewrite findFutureDatesWithZhi_loop_length by (assumption || lia).
    apply (findFutureDatesWithZhi_180 _ targetZhi Hz).
Qed.

Lemma findFutureDatesWithZhi_every_twelfth_witness :
  findFutureDatesWithZhi 0 pi_time zZi 30
  = [pi_time + 8 * msPerDay; pi_time + 20 * msPerDay]
  /\ (forall d, In d (findFutureDatesWithZhi 0 pi_time zZi 30)
                <-> exists j, 0 <= j /\ 8 + 12 * j <= 30
                              /\ d = getTime pi_time + (8 + 12 * j) * msPerDay)
  /\ Forall valid_time (findFutureDatesWithZhi 0 pi_time zZi 30).
Proof.
  assert (Hz : - msPerDay < 0 < msPerDay) by (vm_compute; split; reflexivity).
  assert (Hs : 0 <= getTime pi_time + 0) by (vm_compute; discriminate).
  assert (He : getTime pi_time + 30 * msPerDay <= maxTimeValue) by (vm_compute; discriminate).
  split; [vm_compute; reflexivity |].
  pose proof (findFutureDatesWithZhi_every_twelfth 0 pi_time zZi 30 Hz Hs He) as F.
  split; [exact (proj1 F) | exact (proj1 (proj2 (proj2 F)))].
Defined.

(** ** Casting with coins *)

Lemma throwCoins_cases (source : RandomSource) (k : nat) :
  exists sum y,
    throwCoins source k = (sum, Some y, (k + 3)%nat)
    /\ 6 <= sum <= 9
    /\ coinSumToYaoState sum = Some y.
Proof.
  unfold throwCoins, flipCoin.
  destruct (negb (Qle_bool (1 # 2) (randomValue source k)));
    destruct (negb (Qle_bool (1 # 2) (randomValue source (S k))));
    destruct (negb (Qle_bool (1 # 2) (randomValue source (S (S k)))));
    cbn [fold_left Z.add Pos.add Pos.succ Pos.add_carry coinSumToYaoState];
    replace (S (S (S k))) with (k + 3)%nat by lia;
    eexists; eexists; (split; [reflexivity |]); (split; [lia | reflexivity]).
Qed.

(** X10.  Whatever numbers the random source of the host draws,
    [castByCoin] draws eighteen of them and returns six line states,
    none of them [undefined]: the sum of three coins is always 6, 7, 8
    or 9, a case of [coinSumToYaoState].  The six lines are an input
    that [castHexagram] casts without raising. *)
Theorem castByCoin_lines (source : RandomSource) (k : nat) :
  exists yaoStates,
    castByCoin source k = (map Some yaoStates, (k + 18)%nat)
    /\ List.length yaoStates = 6%nat
    /\ Forall (fun y => exists sum, 6 <= sum <= 9 /\ coinSumToYaoState sum = Some y) yaoStates
    /\ forall (tza : Z) (env : Env.t) (time : CastingTime.t)
              (questionCategory : QuestionCategory) (subType : option string)
              (gender : option GenderOption),
         exists r,
           castHexagram tza env
             (CastingInput.mk CastingMethod.coin yaoStates time questionCategory subType gender)
           = Normal r.
Proof.
  unfold castByCoin.
  destruct (throwCoins_cases source k) as (s1 & y1 & E1 & R1 & C1). rewrite E1.
  destruct (throwCoins_cases source (k + 3)) as (s2 & y2 & E2 & R2 & C2). rewrite E2.
  destruct (throwCoins_cases source (k + 3 + 3)) as (s3 & y3 & E3 & R3 & C3). rewrite E3.
  destruct (throwCoins_cases source (k + 3 + 3 + 3)) as (s4 & y4 & E4 & R4 & C4). rewrite E4.
  destruct (throwCoins_cases source (k + 3 + 3 + 3 + 3)) as (s5 & y5 & E5 & R5 & C5).
  rewrite E5.
  destruct (throwCoins_cases source (k + 3 + 3 + 3 + 3 + 3)) as (s6 & y6 & E6 & R6 & C6).
  rewrite E6.
  exists [y1; y2; y3; y4; y5; y6].
  split; [cbn [map]; f_equal; lia |].
  split; [reflexivity |].
  split.
  - constructor; [exists s1; now split |].
    constructor; [exists s2; now split |].
    constructor; [exists s3; now split |].
    constructor; [exists s4; now split |].
    constructor; [exists s5; now split |].
    constructor; [exists s6; now split |].
    constructor.
  - intros tza env time questionCategory subType gender.
    apply castHexagram_total. reflexivity.
Qed.

(** ** Line states *)

(** X11.  The four ways in which the code builds the state of a line
    agree.  For a sum of 6, 7, 8 or 9, [coinSumToYaoState], the store's
    [coinResultToYaoState] and the decoding of the digit in a share code
    give the same state, which records the sum, is the one that
    [createManualYaoState] builds from its polarity and active flag
    (without the sum), and is printed back as the same digit; for any
    other sum the first two give [undefined]. *)
Theorem line_state_constructors_agree (sum : Z) :
  let digit := ascii_of_nat (Z.to_nat (48 + sum)) in
  if (6 <=? sum) && (sum <=? 9)
  then exists y,
         coinSumToYaoState sum = Some y
         /\ coinResultToYaoState sum = Some y
         /\ yaoState_of_char digit = y
         /\ YaoState.coinResult y = Some sum
         /\ createManualYaoState (YaoState.yinYang y) (YaoState.isMoving y)
            = YaoState.mk (YaoState.yinYang y) (YaoState.isMoving y) (YaoState.type y) None
         /\ draw_char (YaoState.type y) = digit
  else coinSumToYaoState sum = None /\ coinResultToYaoState sum = None.
Proof.
  intros digit. unfold digit.
  destruct (Z.leb_spec 6 sum) as [H6 | H6]; cbn [andb].
  - destruct (Z.leb_spec sum 9) as [H9 | H9].
    + assert (C : sum = 6 \/ sum = 7 \/ sum = 8 \/ sum = 9) by lia.
      destruct C as [-> | [-> | [-> | ->]]]; eexists; repeat split.
    + unfold coinSumToYaoState, coinResultToYaoState.
      repeat match goal with
             | |- context [sum =? ?n] => destruct (Z.eqb_spec sum n); [lia |]
             end.
      split; reflexivity.
  - unfold coinSumToYaoState, coinResultToYaoState.
    repeat match goal with
           | |- context [sum =? ?n] => destruct (Z.eqb_spec sum n); [lia |]
           end.
    split; reflexivity.
Qed.

(** ** The active positions *)

Lemma moving_positions_from_In (l : list YaoState.t) (i0 p : Z) :
  In p (filter (fun pos => 0 <? pos)
               (mapi_from (fun y i => if YaoState.isMoving y then i + 1 else 0) l i0))
  <-> exists n y, nth_error l n = Some y /\ YaoState.isMoving y = true
                  /\ p = i0 + Z.of_nat n + 1 /\ 0 < p.
Proof.
  revert i0. induction l as [| x l IH]; intros i0; cbn [mapi_from filter].
  - split; [contradiction | intros ([| n] & y & H & _); discriminate H].
  - split.
    + intros H.
      assert (H' : (0 <? (if YaoState.isMoving x then i0 + 1 else 0)) = true
                   /\ p = (if YaoState.isMoving x then i0 + 1 else 0)
                   \/ In p (filter (fun pos => 0 <? pos)
                              (mapi_from (fun y i => if YaoState.isMoving y then i + 1 else 0)
                                 l (i0 + 1)))).
      { destruct (0 <? (if YaoState.isMoving x then i0 + 1 else 0)) eqn:E.
        - destruct H as [H | H]; [left; split; [reflexivity | now symmetry] | now right].
        - now right. }
      destruct H' as [[Hpos Hp] | H'].
      * destruct (YaoState.isMoving x) eqn:Em; [| discriminate Hpos].
        apply Z.ltb_lt in Hpos.
        exists 0%nat, x. split; [reflexivity |]. split; [exact Em |]. split; lia.
      * apply IH in H'. destruct H' as (n & y & Hn & Hm & Hp & H0).
        exists (S n), y. split; [exact Hn |]. split; [exact Hm |]. split; lia.
    + intros (n & y & Hn & Hm & Hp & H0).
      destruct n as [| n].
      * cbn in Hn. injection Hn as ->. rewrite Hm.
        destruct (Z.ltb_spec 0 (i0 + 1)); [left | ]; lia.
      * assert (H' : In p (filter (fun pos => 0 <? pos)
                             (mapi_from (fun y i => if YaoState.isMoving y then i + 1 else 0)
                                l (i0 + 1)))).
        { apply IH. exists n, y. split; [exact Hn |]. split; [exact Hm |]. split; lia. }
        destruct (0 <? _); [now right | exact H'].
Qed.

Lemma moving_positions_from_sorted (l : list YaoState.t) (i0 : Z) :
  StronglySorted Z.lt
    (filter (fun pos => 0 <? pos)
            (mapi_from (fun y i => if YaoState.isMoving y then i + 1 else 0) l i0)).
Proof.
  revert i0. induction l as [| x l IH]; intros i0; cbn [mapi_from filter].
  - constructor.
  - destruct (0 <? _) eqn:E; [| apply IH].
    constructor; [apply IH |].
    apply Forall_forall. intros p Hp.
    apply moving_positions_from_In in Hp. destruct Hp as (n & y & _ & _ & -> & _).
    destruct (YaoState.isMoving x); [lia | discriminate E].
Qed.

Lemma moving_positions_from_length (l : list YaoState.t) (i0 : Z) :
  0 <= i0 ->
  List.length (filter (fun pos => 0 <? pos)
                 (mapi_from (fun y i => if YaoState.isMoving y then i + 1 else 0) l i0))
  = List.length (filter YaoState.isMoving l).
Proof.
  revert i0. induction l as [| x l IH]; intros i0 H0; cbn [mapi_from filter].
  - reflexivity.
  - destruct (YaoState.isMoving x).
    + destruct (Z.ltb_spec 0 (i0 + 1)); [| lia]. cbn [List.length]. now rewrite IH by lia.
    + cbn. now rewrite IH by lia.
Qed.

Lemma existsb_filter_nil {A : Type} (p : A -> bool) (l : list A) :
  existsb p l = false <-> filter p l = [].
Proof.
  induction l as [| x l IH]; cbn.
  - tauto.
  - destruct (p x); cbn; [split; discriminate | exact IH].
Qed.

Lemma getMovingPositions_nil (yaoStates : list YaoState.t) :
  getMovingPositions yaoStates = [] <-> existsb YaoState.isMoving yaoStates = false.
Proof.
  rewrite existsb_filter_nil.
  pose proof (moving_positions_from_length yaoStates 0 ltac:(lia)) as L.
  fold (mapi (fun y i => if YaoState.isMoving y then i + 1 else 0) yaoStates) in L.
  fold (getMovingPositions yaoStates) in L.
  split; intros H; rewrite H in L; cbn in L.
  - now apply length_zero_iff_nil.
  - now apply length_zero_iff_nil.
Qed.

(** X12.  [getMovingPositions] lists, in increasing order, exactly the
    positions (counted from 1) of the lines whose active flag is set, as
    many as there are such lines; and [getChangedGua] returns [null]
    exactly when this list is empty. *)
Theorem getMovingPositions_spec (yaoStates : list YaoState.t) :
  let positions := getMovingPositions yaoStates in
  (forall p, In p positions
             <-> exists y, arr_at yaoStates (p - 1) = Some y /\ YaoState.isMoving y = true)
  /\ StronglySorted Z.lt positions
  /\ List.length positions = List.length (filter YaoState.isMoving yaoStates)
  /\ (getChangedGua yaoStates = Normal None <-> positions = []).
Proof.
  intros positions. unfold positions, getMovingPositions, mapi.
  split; [| split; [| split]].
  - intros p. rewrite moving_positions_from_In. unfold arr_at. split.
    + intros (n & y & Hn & Hm & -> & _). exists y.
      destruct (Z.ltb_spec (0 + Z.of_nat n + 1 - 1) 0); [lia |].
      replace (Z.to_nat (0 + Z.of_nat n + 1 - 1)) with n by lia. now split.
    + intros (y & Hy & Hm).
      destruct (Z.ltb_spec (p - 1) 0); [discriminate Hy |].
      exists (Z.to_nat (p - 1)), y. split; [exact Hy |]. split; [exact Hm |]. split; lia.
  - apply moving_positions_from_sorted.
  - apply moving_positions_from_length. lia.
  - fold (mapi (fun y i => if YaoState.isMoving y then i + 1 else 0) yaoStates).
    fold (getMovingPositions yaoStates).
    rewrite getMovingPositions_nil. unfold getChangedGua.
    destruct (existsb YaoState.isMoving yaoStates); cbn [negb].
    + split; [| discriminate].
      destruct (lookup _ GUA_64_DATA); discriminate.
    + split; reflexivity.
Qed.

(** ** The lines of a casting result *)

(** The fields of a result that the ten steps of [castHexagram] fill in
    from the lines: the changed hexagram and its lines, and the three
    derived hexagrams. *)
Lemma castHexagram_changed_inv (tza : Z) (env : Env.t) (input : CastingInput.t)
    (r : DivinationResult.t) :
  castHexagram tza env input = Normal r ->
  let yaoStates := CastingInput.yaoStates input in
  let ganZhiTime := getGanZhiTime tza (CastingTime.gregorian (CastingInput.time input)) in
  exists primaryGua yaoInfos0,
    let primary :=
      analyzeAllProsperity (installLiuShen yaoInfos0 (GanZhi.gan (GanZhiTime.day ganZhiTime)))
                           ganZhiTime in
    getGuaFromYaoStates yaoStates = Normal primaryGua
    /\ installHexagram yaoStates primaryGua = Normal yaoInfos0
    /\ DivinationResult.primaryGua r = primaryGua
    /\ DivinationResult.primaryYao r = primary
    /\ DivinationResult.ganZhiTime r = ganZhiTime
    /\ DivinationResult.movingYaoPositions r = getMovingPositions yaoStates
    /\ ((getMovingPositions yaoStates = []
         /\ DivinationResult.changedGua r = None /\ DivinationResult.changedYao r = None)
        \/ (getMovingPositions yaoStates <> []
            /\ exists g, getChangedGua yaoStates = Normal (Some g)
                         /\ DivinationResult.changedGua r = Some g
                         /\ DivinationResult.changedYao r
                            = Some (analyzeAllProsperity (getChangedYaoInfos primary g)
                                                         ganZhiTime)))
    /\ getMutualGua yaoStates = Normal (DivinationResult.mutualGua r)
    /\ DivinationResult.oppositeGua r = getOppositeGua yaoStates
    /\ DivinationResult.reverseGua r = getReverseGua yaoStates.
Proof.
  intros H yaoStates ganZhiTime. unfold castHexagram in H.
  fold ganZhiTime in H. fold yaoStates in H.
  inv_bind H as primaryGua Egua.
  inv_bind H as yaoInfos0 Einst.
  inv_bind H as u Eu. clear Eu.
  inv_bind H as changed Echg. destruct changed as [[changedGua changedYaoInfos] chain6].
  inv_bind H as mutualGua Emut.
  inv_bind H as yongShen Eys. clear Eys.
  inv_bind H as interpretation Eint. clear Eint.
  apply Normal_inj in H. subst r.
  cbn [DivinationResult.primaryGua DivinationResult.primaryYao DivinationResult.ganZhiTime
       DivinationResult.movingYaoPositions DivinationResult.changedYao
       DivinationResult.changedGua DivinationResult.mutualGua DivinationResult.oppositeGua
       DivinationResult.reverseGua].
  exists primaryGua, yaoInfos0. cbv zeta.
  split; [exact eq_refl |].
  split; [exact Einst |].
  do 4 (split; [exact eq_refl |]).
  split.
  - pose proof (getMovingPositions_nil yaoStates) as Hnil.
    destruct (getMovingPositions yaoStates) as [| p ps] eqn:Emp.
    + left.
      change (0 <? Z.of_nat (List.length (@nil Z))) with false in Echg.
      cbv iota in Echg. apply Normal_inj in Echg.
      apply pair_equal_spec in Echg. destruct Echg as [Echg _].
      apply pair_equal_spec in Echg. destruct Echg as [Eg Ec].
      split; [exact eq_refl |]. split; [now symmetry | now symmetry].
    + right. split; [discriminate |].
      assert (E1 : (0 <? Z.of_nat (List.length (p :: ps))) = true)
        by (apply Z.ltb_lt; cbn [List.length]; lia).
      rewrite E1 in Echg.
      inv_bind Echg as cg Ecg. destruct cg as [g |].
      * apply Normal_inj in Echg.
        apply pair_equal_spec in Echg. destruct Echg as [Echg _].
        apply pair_equal_spec in Echg. destruct Echg as [Eg Ec].
        exists g. split; [exact eq_refl |]. split; [now symmetry | now symmetry].
      * exfalso. unfold getChangedGua in Ecg.
        destruct (existsb YaoState.isMoving yaoStates) eqn:Ee.
        -- cbn [negb] in Ecg. destruct (lookup _ GUA_64_DATA); discriminate Ecg.
        -- discriminate (proj2 Hnil eq_refl).
  - split; [exact eq_refl |]. split; exact eq_refl.
Qed.

Lemma lookup_In {V : Type} (key : string) (obj : list (string * V)) (v : V) :
  lookup key obj = Some v -> In (key, v) obj.
Proof.
  induction obj as [| [k w] obj IH]; cbn; [discriminate |].
  destruct (String.eqb_spec k key) as [-> | _].
  - intros H. apply Some_inj in H. subst w. now left.
  - intros H. right. now apply IH.
Qed.

Lemma length_join_chars (cs : list ascii) : String.length (join_chars cs) = List.length cs.
Proof. induction cs as [| c cs IH]; cbn; [reflexivity | now rewrite <- IH]. Qed.

Lemma GUA_64_DATA_entries :
  Forall (fun e =>
            String.length (fst e) = 6%nat
            /\ 1 <= GuaData.worldPosition (snd e) <= 6
            /\ 1 <= GuaData.responsePosition (snd e) <= 6
            /\ Z.abs (GuaData.worldPosition (snd e) - GuaData.responsePosition (snd e)) = 3)
         GUA_64_DATA.
Proof.
  unfold GUA_64_DATA.
  repeat (constructor; [vm_compute; repeat split; discriminate |]). constructor.
Qed.

(** A resolved hexagram has six lines and is an entry of the table. *)
Lemma getGuaFromYaoStates_inv (yaoStates : list YaoState.t) (g : GuaInfo.t) :
  getGuaFromYaoStates yaoStates = Normal g ->
  List.length yaoStates = 6%nat
  /\ GuaInfo.binary g = key_of_lines (map YaoState.yinYang yaoStates)
  /\ 1 <= GuaInfo.worldPosition g <= 6
  /\ 1 <= GuaInfo.responsePosition g <= 6
  /\ Z.abs (GuaInfo.worldPosition g - GuaInfo.responsePosition g) = 3.
Proof.
  unfold getGuaFromYaoStates. intros H.
  destruct (lookup _ GUA_64_DATA) as [guaData |] eqn:E; [| discriminate H].
  apply Normal_inj in H. subst g.
  apply lookup_In in E.
  pose proof (proj1 (Forall_forall _ _) GUA_64_DATA_entries _ E) as (Hlen & Hw & Hr & Hd).
  cbn [fst snd] in *.
  rewrite length_join_chars, length_map in Hlen.
  split; [exact Hlen |].
  split; [unfold key_of_lines; cbn [with_binary GuaInfo.binary]; now rewrite map_map |].
  cbn [with_binary GuaInfo.worldPosition GuaInfo.responsePosition]. now repeat split.
Qed.

Lemma getChangedGua_inv (yaoStates : list YaoState.t) (g : GuaInfo.t) :
  getChangedGua yaoStates = Normal (Some g) ->
  GuaInfo.binary g = key_of_lines (map changed_yinYang yaoStates)
  /\ 1 <= GuaInfo.worldPosition g <= 6
  /\ 1 <= GuaInfo.responsePosition g <= 6
  /\ Z.abs (GuaInfo.worldPosition g - GuaInfo.responsePosition g) = 3.
Proof.
  unfold getChangedGua. intros H.
  destruct (negb (existsb YaoState.isMoving yaoStates)); [discriminate H |].
  destruct (lookup _ GUA_64_DATA) as [guaData |] eqn:E; [| discriminate H].
  apply Normal_inj in H. apply Some_inj in H. subst g.
  apply lookup_In in E.
  pose proof (proj1 (Forall_forall _ _) GUA_64_DATA_entries _ E) as (Hlen & Hw & Hr & Hd).
  cbn [fst snd] in *.
  split.
  - unfold key_of_lines. cbn [with_binary GuaInfo.binary]. rewrite map_map.
    f_equal. apply map_ext. intros y. apply changed_bit_yinYang.
  - cbn [with_binary GuaInfo.worldPosition GuaInfo.responsePosition]. now repeat split.
Qed.

Lemma mapi_c_from_map {A B C : Type} (f : A -> Z -> completion B) (p : B -> C)
    (q : A -> Z -> C) (l : list A) (i0 : Z) (ys : list B) :
  mapi_c_from f l i0 = Normal ys ->
  (forall x i y, f x i = Normal y -> p y = q x i) ->
  map p ys = mapi_from q l i0.
Proof.
  intros H0 Hf. revert i0 ys H0. induction l as [| x l IH]; intros i0 ys H; cbn in H.
  - apply Normal_inj in H. now subst ys.
  - inv_bind H as a E. inv_bind H as b E0. apply Normal_inj in H. subst ys.
    cbn. now rewrite (Hf _ _ _ E), (IH _ _ E0).
Qed.

Lemma map_mapi_from_gen {A B C : Type} (p : B -> C) (f : A -> Z -> B) (l : list A) (i0 : Z) :
  map p (mapi_from f l i0) = mapi_from (fun x i => p (f x i)) l i0.
Proof.
  revert i0. induction l as [| x l IH]; intros i0; cbn; [reflexivity | now rewrite IH].
Qed.

Lemma mapi_from_const {A C : Type} (q : Z -> C) (l : list A) (i0 : Z) :
  mapi_from (fun _ i => q i) l i0
  = map (fun n => q (i0 + Z.of_nat n)) (seq 0 (List.length l)).
Proof.
  revert i0. induction l as [| x l IH]; intros i0; cbn [mapi_from List.length seq map].
  - reflexivity.
  - rewrite Z.add_0_r, IH, <- seq_shift, map_map. f_equal.
    apply map_ext. intros n. f_equal. lia.
Qed.

Lemma mapi_from_no_index {A C : Type} (q : A -> C) (l : list A) (i0 : Z) :
  mapi_from (fun x _ => q x) l i0 = map q l.
Proof.
  revert i0. induction l as [| x l IH]; intros i0; cbn [mapi_from map].
  - reflexivity.
  - now rewrite IH.
Qed.

(** What [installHexagram] writes into each line. *)
Lemma installHexagram_fields (yaoStates : list YaoState.t) (g : GuaInfo.t)
    (yaoInfos : list YaoInfo.t) :
  installHexagram yaoStates g = Normal yaoInfos ->
  map YaoInfo.yinYang yaoInfos = map YaoState.yinYang yaoStates
  /\ map YaoInfo.position yaoInfos
     = map (fun n => 0 + Z.of_nat n + 1) (seq 0 (List.length yaoStates))
  /\ map YaoInfo.isWorld yaoInfos
     = map (fun n => 0 + Z.of_nat n + 1 =? GuaInfo.worldPosition g)
           (seq 0 (List.length yaoStates))
  /\ map YaoInfo.isResponse yaoInfos
     = map (fun n => 0 + Z.of_nat n + 1 =? GuaInfo.responsePosition g)
           (seq 0 (List.length yaoStates)).
Proof.
  unfold installHexagram. intros H.
  split; [| split; [| split]].
  - rewrite (mapi_c_from_map _ YaoInfo.yinYang (fun s _ => YaoState.yinYang s) _ _ _ H).
    + apply mapi_from_no_index.
    + intros s i y Hy. inv_bind Hy as c Ec. apply Normal_inj in Hy. now subst y.
  - rewrite (mapi_c_from_map _ YaoInfo.position (fun _ i => i + 1) _ _ _ H).
    + apply (mapi_from_const (fun i => i + 1)).
    + intros s i y Hy. inv_bind Hy as c Ec. apply Normal_inj in Hy. now subst y.
  - rewrite (mapi_c_from_map _ YaoInfo.isWorld
               (fun _ i => i + 1 =? GuaInfo.worldPosition g) _ _ _ H).
    + apply (mapi_from_const (fun i => i + 1 =? GuaInfo.worldPosition g)).
    + intros s i y Hy. inv_bind Hy as c Ec. apply Normal_inj in Hy. now subst y.
  - rewrite (mapi_c_from_map _ YaoInfo.isResponse
               (fun _ i => i + 1 =? GuaInfo.responsePosition g) _ _ _ H).
    + apply (mapi_from_const (fun i => i + 1 =? GuaInfo.responsePosition g)).
    + intros s i y Hy. inv_bind Hy as c Ec. apply Normal_inj in Hy. now subst y.
Qed.

Lemma map_combine_ext {A B C D E : Type} (f : A -> C) (g : A -> D) (f' : B -> C) (g' : B -> D)
    (h : C -> D -> E) (l : list A) (l' : list B) :
  map f l = map f' l' -> map g l = map g' l' ->
  map (fun x => h (f x) (g x)) l = map (fun x => h (f' x) (g' x)) l'.
Proof.
  revert l'. induction l as [| x l IH]; intros [| y l'] Hf Hg; try discriminate.
  - reflexivity.
  - cbn in *. injection Hf as Hf1 Hf2. injection Hg as Hg1 Hg2.
    now rewrite Hf1, Hg1, (IH l').
Qed.

(** The lines of the primary hexagram as the pipeline leaves them. *)
Lemma primary_lines_fields (yaoStates : list YaoState.t) (g : GuaInfo.t)
    (yaoInfos0 : list YaoInfo.t) (dayGan : TianGan) (ganZhiTime : GanZhiTime.t) :
  List.length yaoStates = 6%nat ->
  installHexagram yaoStates g = Normal yaoInfos0 ->
  let primary := analyzeAllProsperity (installLiuShen yaoInfos0 dayGan) ganZhiTime in
  map YaoInfo.yinYang primary = map YaoState.yinYang yaoStates
  /\ map YaoInfo.isMoving primary = map YaoState.isMoving yaoStates
  /\ map YaoInfo.position primary = [1; 2; 3; 4; 5; 6]
  /\ map YaoInfo.isWorld primary
     = map (fun p => p =? GuaInfo.worldPosition g) [1; 2; 3; 4; 5; 6]
  /\ map YaoInfo.isResponse primary
     = map (fun p => p =? GuaInfo.responsePosition g) [1; 2; 3; 4; 5; 6].
Proof.
  intros Hlen Hinst primary.
  destruct (installHexagram_fields _ _ _ Hinst) as (Hy & Hp & Hw & Hr).
  destruct (installHexagram_lines _ _ _ Hinst) as [Hm _].
  rewrite Hlen in Hp, Hw, Hr.
  unfold primary.
  rewrite !analyzeAllProsperity_preserves by reflexivity.
  rewrite !installLiuShen_preserves by reflexivity.
  split; [exact Hy |]. split; [exact Hm |].
  split; [exact Hp |]. split; [exact Hw | exact Hr].
Qed.

(** The lines of the changed hexagram as the pipeline leaves them. *)
Lemma changed_lines_fields (primary : list YaoInfo.t) (g : GuaInfo.t)
    (ganZhiTime : GanZhiTime.t) :
  List.length primary = 6%nat ->
  let changed := analyzeAllProsperity (getChangedYaoInfos primary g) ganZhiTime in
  map YaoInfo.yinYang changed
  = map (fun y => if YaoInfo.isMoving y
                  then match YaoInfo.yinYang y with Yang => Yin | Yin => Yang end
                  else YaoInfo.yinYang y) primary
  /\ map YaoInfo.position changed = [1; 2; 3; 4; 5; 6]
  /\ map YaoInfo.isWorld changed
     = map (fun p => p =? GuaInfo.worldPosition g) [1; 2; 3; 4; 5; 6]
  /\ map YaoInfo.isResponse changed
     = map (fun p => p =? GuaInfo.responsePosition g) [1; 2; 3; 4; 5; 6].
Proof.
  intros Hlen changed. unfold changed.
  rewrite !analyzeAllProsperity_preserves by reflexivity.
  unfold getChangedYaoInfos, mapi. rewrite !map_mapi_from_gen.
  cbn [YaoInfo.yinYang YaoInfo.position YaoInfo.isWorld YaoInfo.isResponse].
  split; [apply mapi_from_no_index |].
  split; [rewrite (mapi_from_const (fun i => i + 1)), Hlen; reflexivity |].
  split.
  - rewrite (mapi_from_const (fun i => i + 1 =? GuaInfo.worldPosition g)), Hlen. reflexivity.
  - rewrite (mapi_from_const (fun i => i + 1 =? GuaInfo.responsePosition g)), Hlen.
    reflexivity.
Qed.

(** X13.  In every casting result the lines of the primary hexagram have
    the polarities of the input lines and, read from the first line up,
    spell the binary key of the primary hexagram.  A changed hexagram is
    present exactly when some line is active, together with its lines,
    which have the polarities of the input with every active line
    turned over and spell the key of the changed hexagram. *)
Theorem castHexagram_lines_spell_binary (tza : Z) (env : Env.t) (input : CastingInput.t)
    (r : DivinationResult.t) :
  castHexagram tza env input = Normal r ->
  let yaoStates := CastingInput.yaoStates input in
  map YaoInfo.yinYang (DivinationResult.primaryYao r) = map YaoState.yinYang yaoStates
  /\ key_of_lines (map YaoInfo.yinYang (DivinationResult.primaryYao r))
     = GuaInfo.binary (DivinationResult.primaryGua r)
  /\ (DivinationResult.changedGua r = None <-> DivinationResult.movingYaoPositions r = [])
  /\ option_map (map YaoInfo.yinYang) (DivinationResult.changedYao r)
     = option_map (fun _ => map changed_yinYang yaoStates) (DivinationResult.changedGua r)
  /\ option_map (fun changed => key_of_lines (map YaoInfo.yinYang changed))
                (DivinationResult.changedYao r)
     = option_map GuaInfo.binary (DivinationResult.changedGua r).
Proof.
  intros H yaoStates. apply castHexagram_changed_inv in H. fold yaoStates in H.
  cbv zeta in H.
  destruct H as (primaryGua & yaoInfos0 & Egua & Einst & -> & Hprimary & _ & Hmov & Hchg & _).
  destruct (getGuaFromYaoStates_inv _ _ Egua) as (Hlen & Hbin & _).
  destruct (primary_lines_fields _ _ _
              (GanZhi.gan (GanZhiTime.day
                 (getGanZhiTime tza (CastingTime.gregorian (CastingInput.time input)))))
              (getGanZhiTime tza (CastingTime.gregorian (CastingInput.time input)))
              Hlen Einst) as (Hy & Hm & _).
  rewrite <- Hprimary in Hy, Hm.
  split; [exact Hy |].
  split; [rewrite Hy; now symmetry |].
  rewrite Hmov.
  destruct Hchg as [(Hnil & -> & ->) | (Hne & g & Eg & -> & Hc)].
  - split; [split; intros _; [exact Hnil | reflexivity] |]. split; reflexivity.
  - split; [split; [discriminate | intros C; now elim Hne] |].
    rewrite Hc. cbn [option_map].
    assert (Hlenp : List.length (DivinationResult.primaryYao r) = 6%nat).
    { rewrite <- (length_map YaoInfo.yinYang), Hy, length_map. exact Hlen. }
    rewrite <- Hprimary.
    destruct (changed_lines_fields (DivinationResult.primaryYao r) g
                (getGanZhiTime tza (CastingTime.gregorian (CastingInput.time input))) Hlenp)
      as (Hcy & _).
    assert (E : map YaoInfo.yinYang
                  (analyzeAllProsperity (getChangedYaoInfos (DivinationResult.primaryYao r) g)
                     (getGanZhiTime tza (CastingTime.gregorian (CastingInput.time input))))
                = map changed_yinYang yaoStates).
    { rewrite Hcy. unfold changed_yinYang.
      apply (map_combine_ext YaoInfo.isMoving YaoInfo.yinYang
               YaoState.isMoving YaoState.yinYang
               (fun m y => if m then match y with Yang => Yin | Yin => Yang end else y));
        assumption. }
    rewrite E. split; [reflexivity |].
    destruct (getChangedGua_inv _ _ Eg) as (Hb & _). now rewrite Hb.
Qed.

Lemma castHexagram_lines_spell_binary_witness :
  exists r,
    castHexagram 0 pi_env pi_input = Normal r
    /\ key_of_lines (map YaoInfo.yinYang (DivinationResult.primaryYao r)) = "000111"
    /\ option_map (fun changed => key_of_lines (map YaoInfo.yinYang changed))
                  (DivinationResult.changedYao r)
       = Some "100111"
    /\ option_map (fun changed => key_of_lines (map YaoInfo.yinYang changed))
                  (DivinationResult.changedYao r)
       = option_map GuaInfo.binary (DivinationResult.changedGua r).
Proof.
  eexists. split; [vm_compute; reflexivity |].
  split; [reflexivity |]. split; [reflexivity |].
  apply (castHexagram_lines_spell_binary 0 pi_env pi_input). vm_compute. reflexivity.
Defined.

(** X14.  In every casting result the six primary lines stand at the
    positions 1 to 6 in order; exactly the line at the self position of
    the primary hexagram is flagged as the self line and exactly the one
    at its other position as the other line; the two positions lie
    three places apart.  The lines of a changed hexagram are flagged
    likewise by the positions of the changed hexagram. *)
Theorem castHexagram_world_response (tza : Z) (env : Env.t) (input : CastingInput.t)
    (r : DivinationResult.t) :
  castHexagram tza env input = Normal r ->
  let flagged (g : GuaInfo.t) (lines : list YaoInfo.t) :=
    map YaoInfo.position lines = [1; 2; 3; 4; 5; 6]
    /\ map YaoInfo.isWorld lines
       = map (fun p => p =? GuaInfo.worldPosition g) [1; 2; 3; 4; 5; 6]
    /\ map YaoInfo.isResponse lines
       = map (fun p => p =? GuaInfo.responsePosition g) [1; 2; 3; 4; 5; 6]
    /\ 1 <= GuaInfo.worldPosition g <= 6
    /\ 1 <= GuaInfo.responsePosition g <= 6
    /\ Z.abs (GuaInfo.worldPosition g - GuaInfo.responsePosition g) = 3 in
  flagged (DivinationResult.primaryGua r) (DivinationResult.primaryYao r)
  /\ match DivinationResult.changedGua r, DivinationResult.changedYao r with
     | Some g, Some changed => flagged g changed
     | None, None => True
     | _, _ => False
     end.
Proof.
  intros H flagged. apply castHexagram_changed_inv in H. cbv zeta in H.
  destruct H as (primaryGua & yaoInfos0 & Egua & Einst & -> & Hprimary & _ & _ & Hchg & _).
  destruct (getGuaFromYaoStates_inv _ _ Egua) as (Hlen & _ & Hw & Hr & Hd).
  pose proof (primary_lines_fields _ _ _
              (GanZhi.gan (GanZhiTime.day
                 (getGanZhiTime tza (CastingTime.gregorian (CastingInput.time input)))))
              (getGanZhiTime tza (CastingTime.gregorian (CastingInput.time input)))
              Hlen Einst) as F.
  cbv zeta in F. rewrite <- Hprimary in F.
  destruct F as (_ & _ & Fp & Fw & Fr).
  split.
  { unfold flagged. split; [exact Fp |]. split; [exact Fw |]. split; [exact Fr |].
    split; [exact Hw |]. split; [exact Hr | exact Hd]. }
  destruct Hchg as [(_ & -> & ->) | (_ & g & Eg & -> & Hc)]; [exact I |].
  rewrite Hc. rewrite <- Hprimary.
  assert (Hlenp : List.length (DivinationResult.primaryYao r) = 6%nat).
  { rewrite <- (length_map YaoInfo.position), Fp. reflexivity. }
  destruct (changed_lines_fields (DivinationResult.primaryYao r) g
              (getGanZhiTime tza (CastingTime.gregorian (CastingInput.time input))) Hlenp)
    as (_ & Cp & Cw & Cr).
  destruct (getChangedGua_inv _ _ Eg) as (_ & Gw & Gr & Gd).
  unfold flagged. split; [exact Cp |]. split; [exact Cw |]. split; [exact Cr |].
  split; [exact Gw |]. split; [exact Gr | exact Gd].
Qed.

Lemma castHexagram_world_response_witness :
  exists r,
    castHexagram 0 pi_env pi_input = Normal r
    /\ map YaoInfo.isWorld (DivinationResult.primaryYao r)
       = [false; false; true; false; false; false]
    /\ map YaoInfo.isResponse (DivinationResult.primaryYao r)
       = [false; false; false; false; false; true]
    /\ map YaoInfo.position (DivinationResult.primaryYao r) = [1; 2; 3; 4; 5; 6]
    /\ Z.abs (GuaInfo.worldPosition (DivinationResult.primaryGua r)
              - GuaInfo.responsePosition (DivinationResult.primaryGua r)) = 3.
Proof.
  assert (E : exists r, castHexagram 0 pi_env pi_input = Normal r)
    by (eexists; vm_compute; reflexivity).
  destruct E as [r E]. exists r. split; [exact E |].
  pose proof (castHexagram_world_response 0 pi_env pi_input r E) as [F _].
  destruct F as (Fp & Fw & Fr & _ & _ & Fd).
  assert (V : Normal r = castHexagram 0 pi_env pi_input) by (now symmetry).
  vm_compute in V. apply Normal_inj in V. subst r.
  split; [reflexivity |]. split; [reflexivity |]. split; [exact Fp | exact Fd].
Defined.

(** ** Strength of the lines *)

Lemma analyzeAllProsperity_Forall (P : YaoInfo.t -> Prop) (yaoInfos : list YaoInfo.t)
    (ganZhiTime : GanZhiTime.t) :
  (forall yao,
      P (with_prosperity yao
           (ProsperityAnalysis.monthProsperity (analyzeProsperity yao ganZhiTime))
           (isVoid (YaoInfo.diZhi yao) (GanZhiTime.voidBranches ganZhiTime))
           (isDayBroken (YaoInfo.diZhi yao) (GanZhi.zhi (GanZhiTime.day ganZhiTime)))
           (isMonthBroken (YaoInfo.diZhi yao) (GanZhi.zhi (GanZhiTime.month ganZhiTime))))) ->
  Forall P (analyzeAllProsperity yaoInfos ganZhiTime).
Proof.
  intros H. unfold analyzeAllProsperity. apply Forall_map, Forall_forall. intros yao _. apply H.
Qed.

(** X15.  Because the month branch is 丑 for every date, the strength
    that a casting result records for a line does not depend on the
    date: it is 旺, 相, 休, 囚 or 死 according as the element of the
    line is 土, 火, 金, 木 or 水, and the line is broken by the month
    exactly when its branch is 未.  The flags for the void and for the
    break by the day are those of [isVoid] and [checkSixClash] against
    the day pillar.  The same holds of the lines of a changed
    hexagram. *)
Theorem castHexagram_line_strength (tza : Z) (env : Env.t) (input : CastingInput.t)
    (r : DivinationResult.t) :
  castHexagram tza env input = Normal r ->
  let ganZhiTime := DivinationResult.ganZhiTime r in
  let graded (yao : YaoInfo.t) :=
    YaoInfo.prosperity yao
    = Some (match YaoInfo.wuXing yao with
            | Tu => Wang | Huo => Xiang | Jin => Xiu | Mu => Qiu | Shui => SiState
            end)
    /\ YaoInfo.isMonthBroken yao = DiZhi_eqb (YaoInfo.diZhi yao) zWei
    /\ YaoInfo.isDayBroken yao
       = checkSixClash (YaoInfo.diZhi yao) (GanZhi.zhi (GanZhiTime.day ganZhiTime))
    /\ YaoInfo.isVoid yao
       = isVoid (YaoInfo.diZhi yao) (GanZhiTime.voidBranches ganZhiTime) in
  Forall graded (DivinationResult.primaryYao r)
  /\ match DivinationResult.changedYao r with
     | Some changed => Forall graded changed
     | None => True
     end.
Proof.
  intros H ganZhiTime graded. apply castHexagram_changed_inv in H. cbv zeta in H.
  destruct H as (primaryGua & yaoInfos0 & _ & _ & _ & Hprimary & Hgzt & _ & Hchg & _).
  fold ganZhiTime in Hgzt.
  assert (G : forall yaoInfos, Forall graded (analyzeAllProsperity yaoInfos ganZhiTime)).
  { intros yaoInfos. apply analyzeAllProsperity_Forall. intros yao.
    unfold graded, with_prosperity.
    cbn [YaoInfo.prosperity YaoInfo.wuXing YaoInfo.isMonthBroken YaoInfo.diZhi
         YaoInfo.isDayBroken YaoInfo.isVoid].
    unfold analyzeProsperity. cbn [ProsperityAnalysis.monthProsperity].
    rewrite Hgzt, getGanZhiTime_month, getGanZhiTime_month_zhi, <- Hgzt.
    split; [destruct (YaoInfo.wuXing yao); reflexivity |].
    split; [destruct (YaoInfo.diZhi yao); reflexivity |].
    split; [| reflexivity].
    apply (proj1 (checkSixClash_day_broken _ _)). }
  rewrite <- Hgzt in Hprimary, Hchg.
  split; [rewrite Hprimary; apply G |].
  destruct Hchg as [(_ & _ & ->) | (_ & g & _ & _ & ->)]; [exact I | apply G].
Qed.

Lemma castHexagram_line_strength_witness :
  exists r,
    castHexagram 0 pi_env pi_input = Normal r
    /\ map YaoInfo.prosperity (DivinationResult.primaryYao r)
       = [Some SiState; Some Qiu; Some Wang; Some Wang; Some SiState; Some Xiu]
    /\ Forall (fun yao =>
                 YaoInfo.prosperity yao
                 = Some (match YaoInfo.wuXing yao with
                         | Tu => Wang | Huo => Xiang | Jin => Xiu | Mu => Qiu
                         | Shui => SiState
                         end)
                 /\ YaoInfo.isMonthBroken yao = DiZhi_eqb (YaoInfo.diZhi yao) zWei
                 /\ YaoInfo.isDayBroken yao
                    = checkSixClash (YaoInfo.diZhi yao)
                        (GanZhi.zhi (GanZhiTime.day (DivinationResult.ganZhiTime r)))
                 /\ YaoInfo.isVoid yao
                    = isVoid (YaoInfo.diZhi yao)
                        (GanZhiTime.voidBranches (DivinationResult.ganZhiTime r)))
              (DivinationResult.primaryYao r).
Proof.
  assert (E : exists r, castHexagram 0 pi_env pi_input = Normal r)
    by (eexists; vm_compute; reflexivity).
  destruct E as [r E]. exists r. split; [exact E |].
  split; [| exact (proj1 (castHexagram_line_strength 0 pi_env pi_input r E))].
  assert (V : Normal r = castHexagram 0 pi_env pi_input) by (now symmetry).
  vm_compute in V. apply Normal_inj in V. subst r. reflexivity.
Defined.

(** X16.  [analyzeProsperity] scores a line between -10 and 9: the cap
    of 10 is never reached, since the month gives at most 5, the day 2
    and the twelve stages 2.  A score that [getProsperityLevel] grades
    "strong" (5 or more) belongs to a line that the month makes 旺 or
    相. *)
Theorem analyzeProsperity_score_bounds (yaoInfo : YaoInfo.t) (ganZhiTime : GanZhiTime.t) :
  let analysis := analyzeProsperity yaoInfo ganZhiTime in
  (inject_Z (-10) <= ProsperityAnalysis.score analysis)%Q
  /\ (ProsperityAnalysis.score analysis <= 9)%Q
  /\ match getProsperityLevel (ProsperityAnalysis.score analysis) with
     | ProsperityLevel.strong =>
         ProsperityAnalysis.monthProsperity analysis = Wang
         \/ ProsperityAnalysis.monthProsperity analysis = Xiang
     | _ => True
     end.
Proof.
  unfold analyzeProsperity.
  set (mp := getProsperityByMonth _ _).
  set (ds := getDayStatus _ _).
  set (v := isVoid _ _).
  set (db := isDayBroken _ _).
  set (mb := isMonthBroken _ _).
  set (ms := getTwelveStage (YaoInfo.wuXing yaoInfo)
               (GanZhi.zhi (GanZhiTime.month ganZhiTime))).
  set (dst := getTwelveStage (YaoInfo.wuXing yaoInfo)
                (GanZhi.zhi (GanZhiTime.day ganZhiTime))).
  clearbody mp ds v db mb ms dst.
  destruct mp, ds, v, db, mb, ms as [[] |];
    vm_compute; (split; [discriminate |]); (split; [discriminate |]);
    first [exact I | left; reflexivity | right; reflexivity].
Qed.

(** X17.  [analyzeAllProsperity] is idempotent: what it writes depends
    on the branch and the element of a line only, which it leaves as
    they are, together with every other field of the line. *)
Theorem analyzeAllProsperity_idempotent (yaoInfos : list YaoInfo.t)
    (ganZhiTime : GanZhiTime.t) :
  analyzeAllProsperity (analyzeAllProsperity yaoInfos ganZhiTime) ganZhiTime
  = analyzeAllProsperity yaoInfos ganZhiTime
  /\ List.length (analyzeAllProsperity yaoInfos ganZhiTime) = List.length yaoInfos
  /\ map (fun y => (YaoInfo.yinYang y, YaoInfo.isMoving y, YaoInfo.type y,
                    YaoInfo.coinResult y, YaoInfo.position y, YaoInfo.diZhi y,
                    YaoInfo.tianGan y, YaoInfo.wuXing y, YaoInfo.liuQin y,
                    YaoInfo.liuShen y, YaoInfo.isWorld y, YaoInfo.isResponse y,
                    YaoInfo.changedYao y))
         (analyzeAllProsperity yaoInfos ganZhiTime)
     = map (fun y => (YaoInfo.yinYang y, YaoInfo.isMoving y, YaoInfo.type y,
                      YaoInfo.coinResult y, YaoInfo.position y, YaoInfo.diZhi y,
                      YaoInfo.tianGan y, YaoInfo.wuXing y, YaoInfo.liuQin y,
                      YaoInfo.liuShen y, YaoInfo.isWorld y, YaoInfo.isResponse y,
                      YaoInfo.changedYao y))
           yaoInfos.
Proof.
  split; [| split].
  - unfold analyzeAllProsperity. rewrite map_map. apply map_ext. intros yao.
    unfold with_prosperity, analyzeProsperity.
    cbn [YaoInfo.yinYang YaoInfo.isMoving YaoInfo.type YaoInfo.coinResult YaoInfo.position
         YaoInfo.diZhi YaoInfo.tianGan YaoInfo.wuXing YaoInfo.liuQin YaoInfo.liuShen
         YaoInfo.isWorld YaoInfo.isResponse YaoInfo.changedYao
         ProsperityAnalysis.monthProsperity].
    exact eq_refl.
  - unfold analyzeAllProsperity. apply length_map.
  - apply analyzeAllProsperity_preserves. reflexivity.
Qed.

(** ** Changes of a line *)

(** X18.  [determineChangeType] answers "advance" exactly when the
    changed branch is the next one and "retreat" exactly when it is the
    previous one; otherwise "return_birth" when the changed element
    generates the original one, "return_clash" when it overcomes it, and
    "normal" in every other case.  It never answers "to_void", "to_tomb"
    or "to_bindingend", and the element of the palace plays no part. *)
Theorem determineChangeType_spec (originalDiZhi changedDiZhi : DiZhi)
    (palaceWuXing palaceWuXing' : WuXing) :
  let changeType := determineChangeType originalDiZhi changedDiZhi palaceWuXing in
  let next := getDiZhiIndex changedDiZhi = (getDiZhiIndex originalDiZhi + 1) mod 12 in
  let previous := getDiZhiIndex changedDiZhi = (getDiZhiIndex originalDiZhi - 1) mod 12 in
  (changeType = advance <-> next)
  /\ (changeType = retreat <-> previous)
  /\ (changeType = return_birth
      <-> ~ next /\ ~ previous
          /\ WU_XING_SHENG (DI_ZHI_WU_XING changedDiZhi) = DI_ZHI_WU_XING originalDiZhi)
  /\ (changeType = return_clash
      <-> ~ next /\ ~ previous
          /\ WU_XING_KE (DI_ZHI_WU_XING changedDiZhi) = DI_ZHI_WU_XING originalDiZhi)
  /\ changeType <> to_void /\ changeType <> to_tomb /\ changeType <> to_bindingend
  /\ changeType = determineChangeType originalDiZhi changedDiZhi palaceWuXing'.
Proof.
  destruct originalDiZhi, changedDiZhi; vm_compute;
    repeat split; try discriminate;
    try (intros (H1 & H2 & H3); try discriminate H3;
         first [exfalso; apply H1; reflexivity | exfalso; apply H2; reflexivity]);
    try (intros H; discriminate H).
Qed.

(** ** The six spirits *)

(** X19.  The spirits that [getLiuShenArray] assigns to the six lines
    are [LIU_SHEN_ORDER] turned so that it starts at the spirit of the
    day stem: each of the six occurs once, in cyclic order; and
    [installLiuShen] writes them to six lines in this order. *)
Theorem getLiuShenArray_rotation (dayGan : TianGan) (y1 y2 y3 y4 y5 y6 : YaoInfo.t) :
  let k := Z.to_nat (indexOf LiuShen_eqb LIU_SHEN_ORDER (LIU_SHEN_START dayGan)) in
  getLiuShenArray dayGan = skipn k LIU_SHEN_ORDER ++ firstn k LIU_SHEN_ORDER
  /\ hd QingLong (getLiuShenArray dayGan) = getStartLiuShen dayGan
  /\ NoDup (getLiuShenArray dayGan)
  /\ map YaoInfo.liuShen (installLiuShen [y1; y2; y3; y4; y5; y6] dayGan)
     = getLiuShenArray dayGan.
Proof.
  destruct dayGan; vm_compute;
    (split; [reflexivity |]); (split; [reflexivity |]); (split; [| reflexivity]);
    repeat (constructor;
            [cbn; intros H;
             repeat match goal with H : _ \/ _ |- _ => destruct H as [H | H] end;
             try discriminate H; try contradiction |]);
    constructor.
Qed.

(** ** The focus of a reading *)

Lemma LiuQin_eqb_eq (a b : LiuQin) : LiuQin_eqb a b = true <-> a = b.
Proof. destruct a, b; cbn; split; intros H; try reflexivity; discriminate H. Qed.

Lemma find_first_In {A : Type} (p : A -> bool) (l : list A) (x : A) :
  find_first p l = Some x -> In x l /\ p x = true.
Proof. unfold find_first. apply find_some. Qed.

Lemma find_first_flag_position (flag : YaoInfo.t -> bool) (w : Z) (l : list YaoInfo.t)
    (y : YaoInfo.t) :
  map flag l = map (fun p => p =? w) (map YaoInfo.position l) ->
  find_first flag l = Some y ->
  YaoInfo.position y = w.
Proof.
  intros Hm Hf. apply find_first_In in Hf. destruct Hf as [Hin Hy].
  revert Hm. induction l as [| x l IH]; [destruct Hin |].
  cbn [map]. intros Hm.
  assert (Hx : flag x = (YaoInfo.position x =? w)) by congruence.
  assert (Hl : map flag l = map (fun p => p =? w) (map YaoInfo.position l)) by congruence.
  destruct Hin as [-> | Hin].
  - rewrite Hy in Hx. symmetry in Hx. now apply Z.eqb_eq in Hx.
  - now apply IH.
Qed.

Lemma createWorldYongShen_inv (yaoInfos : list YaoInfo.t) (yongShen : YongShenInfo.t) :
  createWorldYongShen yaoInfos = Normal yongShen ->
  exists w, find_first YaoInfo.isWorld yaoInfos = Some w
            /\ YongShenInfo.liuQin yongShen = YaoInfo.liuQin w
            /\ YongShenInfo.positions yongShen = [YaoInfo.position w].
Proof.
  unfold createWorldYongShen, getWorldYao. intros H.
  destruct (find_first YaoInfo.isWorld yaoInfos) as [w |]; [| discriminate H].
  cbn [bind] in H. apply Normal_inj in H. subst yongShen.
  exists w. split; [reflexivity |]. split; reflexivity.
Qed.

Lemma single_focus_sound (flag : YaoInfo.t -> bool) (yaoInfos : list YaoInfo.t)
    (w : YaoInfo.t) (yongShen : YongShenInfo.t) :
  find_first flag yaoInfos = Some w ->
  YongShenInfo.liuQin yongShen = YaoInfo.liuQin w ->
  YongShenInfo.positions yongShen = [YaoInfo.position w] ->
  Forall (fun p => exists y, In y yaoInfos /\ YaoInfo.position y = p
                             /\ YaoInfo.liuQin y = YongShenInfo.liuQin yongShen)
         (YongShenInfo.positions yongShen)
  /\ (YongShenInfo.positions yongShen = []
      <-> Forall (fun y => YaoInfo.liuQin y <> YongShenInfo.liuQin yongShen) yaoInfos).
Proof.
  intros Hf Hq Hp. apply find_first_In in Hf. destruct Hf as [Hin _].
  rewrite Hp, Hq. split.
  - constructor; [| constructor]. exists w. split; [exact Hin |]. split; reflexivity.
  - split; [discriminate |].
    intros HF. rewrite Forall_forall in HF. now destruct (HF w Hin).
Qed.

Lemma selectYongShen_sound (yaoInfos : list YaoInfo.t) (questionSubType : string)
    (gender : option GenderOption) (yongShen : YongShenInfo.t) :
  selectYongShen yaoInfos questionSubType gender = Normal yongShen ->
  (Forall (fun p => exists y, In y yaoInfos /\ YaoInfo.position y = p
                              /\ YaoInfo.liuQin y = YongShenInfo.liuQin yongShen)
          (YongShenInfo.positions yongShen)
   /\ (YongShenInfo.positions yongShen = []
       <-> Forall (fun y => YaoInfo.liuQin y <> YongShenInfo.liuQin yongShen) yaoInfos))
  /\ match option_map YongShenRule.primary (lookup questionSubType YONG_SHEN_RULES) with
     | Some (TargetLiuQin q) =>
         YongShenInfo.liuQin yongShen = q
         /\ YongShenInfo.positions yongShen
            = map YaoInfo.position (findYaoByLiuQin yaoInfos q)
     | Some YingYao =>
         exists w, find_first YaoInfo.isResponse yaoInfos = Some w
                   /\ YongShenInfo.positions yongShen = [YaoInfo.position w]
     | _ =>
         exists w, find_first YaoInfo.isWorld yaoInfos = Some w
                   /\ YongShenInfo.positions yongShen = [YaoInfo.position w]
     end.
Proof.
  unfold selectYongShen. intros H.
  assert (World : createWorldYongShen yaoInfos = Normal yongShen ->
          (Forall (fun p => exists y, In y yaoInfos /\ YaoInfo.position y = p
                              /\ YaoInfo.liuQin y = YongShenInfo.liuQin yongShen)
                  (YongShenInfo.positions yongShen)
           /\ (YongShenInfo.positions yongShen = []
               <-> Forall (fun y => YaoInfo.liuQin y <> YongShenInfo.liuQin yongShen) yaoInfos))
          /\ exists w, find_first YaoInfo.isWorld yaoInfos = Some w
                       /\ YongShenInfo.positions yongShen = [YaoInfo.position w]).
  { intros Hw. apply createWorldYongShen_inv in Hw. destruct Hw as (w & Hf & Hq & Hp).
    split; [exact (single_focus_sound _ _ _ _ Hf Hq Hp) |].
    exists w. split; [exact Hf | exact Hp]. }
  destruct (lookup questionSubType YONG_SHEN_RULES) as [rule |]; cbn [option_map];
    [| exact (World H)].
  destruct (YongShenRule.primary rule) as [q | | |];
    [| exact (World H) | | exact (World H)].
  - set (found := findYaoByLiuQin yaoInfos q) in *.
    assert (Hfound : forall y, In y found <-> In y yaoInfos /\ YaoInfo.liuQin y = q).
    { intros y. unfold found, findYaoByLiuQin. rewrite filter_In, LiuQin_eqb_eq. tauto. }
    assert (Hpos : YongShenInfo.liuQin yongShen = q
                   /\ YongShenInfo.positions yongShen = map YaoInfo.position found).
    { destruct (Z.of_nat (List.length found) =? 0) eqn:E;
        apply Normal_inj in H; subst yongShen; cbn; split; try reflexivity.
      apply Z.eqb_eq in E. destruct found; [reflexivity | cbn in E; lia]. }
    destruct Hpos as [Hq Hp]. split; [| split; [exact Hq | exact Hp]].
    rewrite Hp, Hq. split.
    + apply Forall_forall. intros p Hin. apply in_map_iff in Hin.
      destruct Hin as (y & Ey & Hy). apply Hfound in Hy. destruct Hy as [Hy1 Hy2].
      exists y. split; [exact Hy1 |]. split; [exact Ey | exact Hy2].
    + split.
      * intros Hnil. apply Forall_forall. intros y Hy Hq'.
        assert (Hin : In y found) by (apply Hfound; now split).
        destruct found; [destruct Hin | discriminate Hnil].
      * intros HF. rewrite Forall_forall in HF.
        destruct found as [| y rest] eqn:Ef; [reflexivity |].
        assert (Hin : In y (y :: rest)) by now left.
        apply Hfound in Hin. destruct Hin as [Hy1 Hy2]. now destruct (HF y Hy1).
  - unfold getResponseYao in H.
    destruct (find_first YaoInfo.isResponse yaoInfos) as [w |] eqn:Ef; [| discriminate H].
    cbn [bind] in H. apply Normal_inj in H. subst yongShen.
    split; [apply (single_focus_sound YaoInfo.isResponse yaoInfos w); [exact Ef | | ];
            reflexivity |].
    exists w. split; reflexivity.
Qed.

(** X20.  In every casting result each focus position names a primary
    line that carries the focus role, and the focus has no position
    exactly when no primary line carries that role.  When the rule of
    the question's sub-type names a role, the focus positions are those
    of all primary lines with that role, in order; when it names the
    other line, the single focus position is the other position of the
    primary hexagram; in every other case (also when the sub-type has no
    rule) it is the self position of the primary hexagram. *)
Theorem castHexagram_focus_lines (tza : Z) (env : Env.t) (input : CastingInput.t)
    (r : DivinationResult.t) :
  castHexagram tza env input = Normal r ->
  let yongShen := DivinationResult.yongShen r in
  let lines := DivinationResult.primaryYao r in
  let primaryGua := DivinationResult.primaryGua r in
  let questionSubType :=
    getQuestionSubType (CastingInput.questionCategory input) (CastingInput.subType input)
                       (CastingInput.gender input) in
  Forall (fun p => exists y, In y lines /\ YaoInfo.position y = p
                             /\ YaoInfo.liuQin y = YongShenInfo.liuQin yongShen)
         (YongShenInfo.positions yongShen)
  /\ (YongShenInfo.positions yongShen = []
      <-> Forall (fun y => YaoInfo.liuQin y <> YongShenInfo.liuQin yongShen) lines)
  /\ match option_map YongShenRule.primary (lookup questionSubType YONG_SHEN_RULES) with
     | Some (TargetLiuQin q) =>
         YongShenInfo.liuQin yongShen = q
         /\ YongShenInfo.positions yongShen = map YaoInfo.position (findYaoByLiuQin lines q)
     | Some YingYao =>
         YongShenInfo.positions yongShen = [GuaInfo.responsePosition primaryGua]
     | _ =>
         YongShenInfo.positions yongShen = [GuaInfo.worldPosition primaryGua]
     end.
Proof.
  intros H. pose proof (castHexagram_inv tza env input r H) as Inv. cbv zeta in Inv.
  destruct Inv as (g & yaoInfos0 & ys & Eg & Einst & Esel & _ & _ & Hg & Hp & _ & Hys & _).
  destruct (getGuaFromYaoStates_inv _ _ Eg) as (Hlen & _).
  pose proof (primary_lines_fields _ g yaoInfos0
                (GanZhi.gan (GanZhiTime.day
                   (getGanZhiTime tza (CastingTime.gregorian (CastingInput.time input)))))
                (getGanZhiTime tza (CastingTime.gregorian (CastingInput.time input)))
                Hlen Einst) as F.
  cbv zeta in F. rewrite <- Hp in F, Esel. destruct F as (_ & _ & Fp & Fw & Fr).
  cbv zeta. rewrite Hys, Hg.
  set (lines := DivinationResult.primaryYao r) in *. clearbody lines.
  apply selectYongShen_sound in Esel. destruct Esel as [[S1 S2] S3].
  split; [exact S1 |]. split; [exact S2 |].
  destruct (option_map YongShenRule.primary _) as [[q | | |] |].
  - exact S3.
  - destruct S3 as (w & Hf & Hpos). rewrite Hpos. f_equal.
    apply (find_first_flag_position YaoInfo.isWorld _ lines w); [| exact Hf].
    rewrite Fp. exact Fw.
  - destruct S3 as (w & Hf & Hpos). rewrite Hpos. f_equal.
    apply (find_first_flag_position YaoInfo.isResponse _ lines w); [| exact Hf].
    rewrite Fp. exact Fr.
  - destruct S3 as (w & Hf & Hpos). rewrite Hpos. f_equal.
    apply (find_first_flag_position YaoInfo.isWorld _ lines w); [| exact Hf].
    rewrite Fp. exact Fw.
  - destruct S3 as (w & Hf & Hpos). rewrite Hpos. f_equal.
    apply (find_first_flag_position YaoInfo.isWorld _ lines w); [| exact Hf].
    rewrite Fp. exact Fw.
Qed.

(** X21.  The sub-type chosen for a question always belongs to the
    sub-types listed for its category.  Every sub-type so chosen has a
    focus rule except "love_samesex", which has none, so that for it
    the focus falls back to the self line. *)
Theorem getQuestionSubType_listed (category : QuestionCategory) (userSubType : option string)
    (gender : option GenderOption) (yaoInfos : list YaoInfo.t) :
  let questionSubType := getQuestionSubType category userSubType gender in
  In questionSubType (QUESTION_SUBTYPES category)
  /\ (lookup questionSubType YONG_SHEN_RULES = None <-> questionSubType = "love_samesex")
  /\ (questionSubType = "love_samesex"
      <-> category = love
          /\ (userSubType = Some "same_sex" \/ gender = Some same_sex))
  /\ selectYongShen yaoInfos "love_samesex" gender = createWorldYongShen yaoInfos.
Proof.
  cbv zeta.
  assert (Eo : forall s, option_string_eqb userSubType s = true <-> userSubType = Some s).
  { intros s. destruct userSubType as [u |]; cbn; [| split; discriminate].
    rewrite String.eqb_eq. split; [now intros -> | now intros [= ->]]. }
  assert (Eg : gender_is gender same_sex = true <-> gender = Some same_sex).
  { destruct gender as [[| |] |]; cbn; split; intros H; try reflexivity; discriminate H. }
  split; [| split; [| split; [| reflexivity]]].
  - unfold getQuestionSubType.
    destruct category; cbn [QUESTION_SUBTYPES];
      repeat match goal with
             | |- context [if ?b then _ else _] => destruct b
             end; cbn; tauto.
  - unfold getQuestionSubType.
    destruct category; cbn [QUESTION_SUBTYPES];
      repeat match goal with
             | |- context [if ?b then _ else _] => destruct b
             end; vm_compute; split; intros H; try reflexivity; discriminate H.
  - unfold getQuestionSubType.
    destruct category; cbn [QUESTION_SUBTYPES];
      try (repeat match goal with
                  | |- context [if ?b then _ else _] => destruct b
                  end;
           (split; [intros H; discriminate H | intros [H _]; discriminate H])).
    destruct (option_string_eqb userSubType "same_sex" || gender_is gender same_sex) eqn:E.
    + apply orb_true_iff in E. rewrite Eo, Eg in E.
      split; [intros _; split; [reflexivity | exact E] | reflexivity].
    + apply orb_false_iff in E. destruct E as [E1 E2].
      split.
      * intros H.
        repeat match type of H with
               | context [if ?b then _ else _] => destruct b
               end; discriminate H.
      * intros [_ [H | H]].
        -- apply Eo in H. congruence.
        -- apply Eg in H. congruence.
Qed.

(** X22.  For an input whose casting time is a date at least one day
    inside the range of time values, a casting returns a result exactly
    when the input has six lines, which is exactly when the input check
    reports no error; with any other number of lines it raises the
    error that no hexagram was found for the key spelt by the lines.
    (On an Invalid Date the first step of the casting raises a
    RangeError, whatever the lines are.) *)
Theorem castHexagram_returns_iff_valid (tza : Z) (env : Env.t) (input : CastingInput.t) :
  inside_range tza (CastingTime.gregorian (CastingInput.time input)) ->
  let yaoStates := CastingInput.yaoStates input in
  let errors :=
    validateCastingInput (Some yaoStates) (Some (CastingInput.time input))
                         (Some (CastingInput.questionCategory input)) in
  (errors = [] <-> List.length yaoStates = 6%nat)
  /\ (errors = [] <-> exists r, castHexagram tza env input = Normal r)
  /\ (List.length yaoStates = 6%nat
      \/ castHexagram tza env input
         = Throw (Error (String.append "未找到对应卦象: "
                           (key_of_lines (map YaoState.yinYang yaoStates))))).
Proof.
  intros _. cbv zeta.
  assert (V : validateCastingInput (Some (CastingInput.yaoStates input))
                (Some (CastingInput.time input))
                (Some (CastingInput.questionCategory input)) = []
              <-> List.length (CastingInput.yaoStates input) = 6%nat).
  { unfold validateCastingInput.
    destruct (Z.of_nat (List.length (CastingInput.yaoStates input)) =? 6) eqn:E; cbn.
    - apply Z.eqb_eq in E. split; [intros _; lia | reflexivity].
    - apply Z.eqb_neq in E. split; [discriminate | intros H; lia]. }
  assert (T : List.length (CastingInput.yaoStates input) <> 6%nat ->
              castHexagram tza env input
              = Throw (Error (String.append "未找到对应卦象: "
                    (key_of_lines (map YaoState.yinYang (CastingInput.yaoStates input)))))).
  { intros Hlen. unfold castHexagram.
    assert (E : getGuaFromYaoStates (CastingInput.yaoStates input)
                = Throw (Error (String.append "未找到对应卦象: "
                    (key_of_lines (map YaoState.yinYang (CastingInput.yaoStates input)))))).
    { pose proof (getGuaFromYaoStates_inv (CastingInput.yaoStates input)) as Inv.
      unfold getGuaFromYaoStates in Inv |- *. unfold key_of_lines. rewrite map_map.
      destruct (lookup _ GUA_64_DATA) as [guaData |]; [| reflexivity].
      destruct Hlen. exact (proj1 (Inv _ eq_refl)). }
    rewrite E. reflexivity. }
  split; [exact V |]. split.
  - rewrite V. split.
    + apply castHexagram_total.
    + intros [r Hr].
      destruct (Nat.eq_dec (List.length (CastingInput.yaoStates input)) 6) as [Hl | Hl];
        [exact Hl |].
      rewrite (T Hl) in Hr. discriminate Hr.
  - destruct (Nat.eq_dec (List.length (CastingInput.yaoStates input)) 6) as [Hl | Hl];
      [now left | right; exact (T Hl)].
Qed.

Lemma castHexagram_returns_iff_valid_witness :
  inside_range 0 (CastingTime.gregorian (CastingInput.time pi_input))
  /\ validateCastingInput (Some (CastingInput.yaoStates pi_input))
        (Some (CastingInput.time pi_input)) (Some (CastingInput.questionCategory pi_input))
     = []
  /\ exists r, castHexagram 0 pi_env pi_input = Normal r.
Proof.
  assert (R : inside_range 0 (CastingTime.gregorian (CastingInput.time pi_input)))
    by (vm_compute; repeat split; discriminate).
  pose proof (castHexagram_returns_iff_valid 0 pi_env pi_input R) as F.
  cbv zeta in F. destruct F as (F1 & F2 & _).
  assert (V : validateCastingInput (Some (CastingInput.yaoStates pi_input))
                (Some (CastingInput.time pi_input))
                (Some (CastingInput.questionCategory pi_input)) = [])
    by (apply (proj2 F1); reflexivity).
  split; [exact R |]. split; [exact V | exact (proj1 F2 V)].
Defined.

Lemma castHexagram_focus_lines_witness :
  exists r,
    castHexagram 0 pi_env pi_input = Normal r
    /\ YongShenInfo.positions (DivinationResult.yongShen r) = [1; 5]
    /\ Forall (fun p => exists y, In y (DivinationResult.primaryYao r)
                                  /\ YaoInfo.position y = p
                                  /\ YaoInfo.liuQin y
                                     = YongShenInfo.liuQin (DivinationResult.yongShen r))
              (YongShenInfo.positions (DivinationResult.yongShen r)).
Proof.
  assert (E : exists r, castHexagram 0 pi_env pi_input = Normal r)
    by (eexists; vm_compute; reflexivity).
  destruct E as [r E]. exists r. split; [exact E |].
  pose proof (castHexagram_focus_lines 0 pi_env pi_input r E) as F. cbv zeta in F.
  destruct F as (F1 & _ & _).
  split; [| exact F1]. clear F1.
  assert (V : Normal r = castHexagram 0 pi_env pi_input) by (now symmetry).
  vm_compute in V. apply Normal_inj in V. subst r. reflexivity.
Defined.

(** ** Trigrams and their codes *)

(** X23.  Reading back the code of a trigram gives the trigram, with
    either decoder; a string that [getBaGuaFromBinary] accepts is the
    code of the trigram it returns, and any other string raises the
    error that names it.  The key of any six lines is the code of the
    trigram that [getLowerGua] reads followed by the code of the one
    that [getUpperGua] reads. *)
Theorem getBaGuaFromBinary_round_trip (gua : BaGua) (binary : string)
    (y1 y2 y3 y4 y5 y6 : YinYang) :
  getBaGuaFromBinary (getBaGuaBinary gua) = Normal gua
  /\ binaryToGua (getBaGuaBinary gua) = Some gua
  /\ match getBaGuaFromBinary binary with
     | Normal g => getBaGuaBinary g = binary
     | Throw e => e = Error (String.append "无效的八卦二进制: " binary)
     end
  /\ exists lower upper,
       getLowerGua (key_of_lines [y1; y2; y3; y4; y5; y6]) = Normal lower
       /\ getUpperGua (key_of_lines [y1; y2; y3; y4; y5; y6]) = Normal upper
       /\ key_of_lines [y1; y2; y3; y4; y5; y6]
          = String.append (getBaGuaBinary lower) (getBaGuaBinary upper)
       /\ binaryToGua (getBaGuaBinary lower) = Some lower
       /\ binaryToGua (getBaGuaBinary upper) = Some upper.
Proof.
  split; [destruct gua; reflexivity |].
  split; [destruct gua; reflexivity |].
  split.
  - unfold getBaGuaFromBinary, find_first, BA_GUA_KEYS. cbn [find].
    repeat match goal with
           | |- context [String.eqb ?s binary] =>
               destruct (String.eqb_spec s binary) as [<- | _]; [reflexivity |]
           end.
    reflexivity.
  - destruct y1, y2, y3, y4, y5, y6; vm_compute;
      eexists; eexists; (split; [reflexivity |]); (split; [reflexivity |]);
      (split; [reflexivity |]); split; reflexivity.
Qed.

(** ** Void lines that are filled *)

Lemma checkVoidFilled_flagged (yao : YaoInfo.t) (prosperity : ProsperityState)
    (dayBroken monthBroken : bool) (ganZhiTime : GanZhiTime.t) :
  GanZhiTime.voidBranches ganZhiTime
  = getVoidBranches (GanZhi.gan (GanZhiTime.day ganZhiTime))
                    (GanZhi.zhi (GanZhiTime.day ganZhiTime)) ->
  GanZhi.zhi (GanZhiTime.month ganZhiTime) = zChou ->
  let y := with_prosperity yao prosperity
             (isVoid (YaoInfo.diZhi yao) (GanZhiTime.voidBranches ganZhiTime))
             dayBroken monthBroken in
  checkVoidFilled y ganZhiTime
  = (if YaoInfo.isVoid y && DiZhi_eqb (YaoInfo.diZhi y) zChou
     then VoidFilled.mk true (Some (FilledByMonth zChou))
     else if YaoInfo.isVoid y
             && checkSixClash (YaoInfo.diZhi y) (GanZhi.zhi (GanZhiTime.day ganZhiTime))
     then VoidFilled.mk true (Some (FilledByDayClash (GanZhi.zhi (GanZhiTime.day ganZhiTime))))
     else VoidFilled.mk false None)
  /\ (YaoInfo.isVoid y = true
      -> YaoInfo.diZhi y <> GanZhi.zhi (GanZhiTime.day ganZhiTime)).
Proof.
  intros Hv Hm. cbv zeta. unfold checkVoidFilled.
  cbn [with_prosperity YaoInfo.isVoid YaoInfo.diZhi].
  rewrite Hv, Hm.
  generalize (GanZhi.gan (GanZhiTime.day ganZhiTime)) as dayGan.
  generalize (GanZhi.zhi (GanZhiTime.day ganZhiTime)) as dayZhi.
  generalize (YaoInfo.diZhi yao) as zhi.
  intros zhi dayZhi dayGan.
  destruct dayGan, dayZhi, zhi; vm_compute; split; try reflexivity;
    intros; discriminate.
Qed.

(** X24.  For a line flagged by [analyzeAllProsperity] at the time of a
    date at least one day inside the range of time values,
    [checkVoidFilled] never answers that the line is filled by the day
    branch, since the branch of a void line is never the day branch.
    It answers filled exactly when the line is void and either sits on
    丑 (the month branch of every date), and then it names the month
    branch, or does not sit on 丑 and clashes with the day branch, and
    then it names the clash with the day branch. *)
Theorem checkVoidFilled_day_never_fills (tza : Z) (date : Date) (yaoInfos : list YaoInfo.t) :
  inside_range tza date ->
  let ganZhiTime := getGanZhiTime tza date in
  let dayZhi := GanZhi.zhi (GanZhiTime.day ganZhiTime) in
  Forall (fun y =>
            checkVoidFilled y ganZhiTime
            = (if YaoInfo.isVoid y && DiZhi_eqb (YaoInfo.diZhi y) zChou
               then VoidFilled.mk true (Some (FilledByMonth zChou))
               else if YaoInfo.isVoid y && checkSixClash (YaoInfo.diZhi y) dayZhi
               then VoidFilled.mk true (Some (FilledByDayClash dayZhi))
               else VoidFilled.mk false None)
            /\ (YaoInfo.isVoid y = true -> YaoInfo.diZhi y <> dayZhi)
            /\ (forall z, VoidFilled.filledBy (checkVoidFilled y ganZhiTime)
                          <> Some (FilledByDay z)))
         (analyzeAllProsperity yaoInfos (getGanZhiTime tza date)).
Proof.
  intros _. cbv zeta.
  assert (Hv : GanZhiTime.voidBranches (getGanZhiTime tza date)
               = getVoidBranches (GanZhi.gan (GanZhiTime.day (getGanZhiTime tza date)))
                                 (GanZhi.zhi (GanZhiTime.day (getGanZhiTime tza date))))
    by (unfold getGanZhiTime; exact eq_refl).
  pose proof (getGanZhiTime_month_zhi tza date) as Hm.
  set (ganZhiTime := getGanZhiTime tza date) in *. clearbody ganZhiTime.
  apply analyzeAllProsperity_Forall. intros yao.
  pose proof (checkVoidFilled_flagged yao
                (ProsperityAnalysis.monthProsperity (analyzeProsperity yao ganZhiTime))
                (isDayBroken (YaoInfo.diZhi yao) (GanZhi.zhi (GanZhiTime.day ganZhiTime)))
                (isMonthBroken (YaoInfo.diZhi yao) (GanZhi.zhi (GanZhiTime.month ganZhiTime)))
                ganZhiTime Hv Hm) as F.
  cbv zeta in F. destruct F as (F1 & F2).
  split; [exact F1 |]. split; [exact F2 |].
  intros z. rewrite F1.
  repeat match goal with
         | |- context [if ?b then _ else _] => destruct b
         end; discriminate.
Qed.

Lemma checkVoidFilled_day_never_fills_witness :
  exists r,
    castHexagram 0 pi_env pi_input = Normal r
    /\ inside_range 0 pi_time
    /\ Forall (fun y => forall z,
                  VoidFilled.filledBy (checkVoidFilled y (getGanZhiTime 0 pi_time))
                  <> Some (FilledByDay z))
              (analyzeAllProsperity (DivinationResult.primaryYao r) (getGanZhiTime 0 pi_time)).
Proof.
  assert (E : exists r, castHexagram 0 pi_env pi_input = Normal r)
    by (eexists; vm_compute; reflexivity).
  destruct E as [r E]. exists r. split; [exact E |].
  assert (R : inside_range 0 pi_time) by (vm_compute; repeat split; discriminate).
  split; [exact R |].
  pose proof (checkVoidFilled_day_never_fills 0 pi_time (DivinationResult.primaryYao r) R) as F.
  cbv zeta in F.
  exact (Forall_impl _ (fun y H => proj2 (proj2 H)) F).
Defined.

(** ** When the trend is left open *)

Lemma analyzeYongShenStatus_note (yaoInfos : list YaoInfo.t) (yongShen : YongShenInfo.t)
    (ganZhiTime : GanZhiTime.t) (a : InterpretationItem.t * option Uncertainty.t) :
  analyzeYongShenStatus yaoInfos yongShen ganZhiTime = Normal a ->
  (snd a <> None
   <-> match find_first (fun y => includes_pos (YongShenInfo.positions yongShen)
                                               (YaoInfo.position y)) yaoInfos with
       | Some y => YaoInfo.isVoid y
       | None => true
       end = true)
  /\ Forall (fun u => u <> Uncertainty.mk "动爻过多") (option_to_list (snd a)).
Proof.
  unfold analyzeYongShenStatus. intros H.
  destruct (Z.of_nat (List.length (YongShenInfo.positions yongShen)) =? 0) eqn:E0.
  - apply Normal_inj in H. subst a. cbn [snd option_to_list].
    apply Z.eqb_eq in E0.
    destruct (YongShenInfo.positions yongShen) as [| p ps]; [| cbn in E0; lia].
    split; [| constructor; [discriminate | constructor]].
    assert (F : find_first (fun y => includes_pos [] (YaoInfo.position y)) yaoInfos = None).
    { unfold find_first. induction yaoInfos as [| y l IH]; [reflexivity | exact IH]. }
    rewrite F. split; [reflexivity | discriminate].
  - destruct (find_first _ yaoInfos) as [yongShenYao |]; [| discriminate H].
    apply Normal_inj in H. subst a. cbn [snd].
    destruct (YaoInfo.isVoid yongShenYao); cbn [option_to_list].
    + split; [split; [reflexivity | discriminate] |].
      constructor; [discriminate | constructor].
    + split; [split; [intros C; now elim C | discriminate] | constructor].
Qed.

(** X25.  In every casting result the trend is "uncertain" exactly when
    four or more input lines are active and the focus is hidden or its
    first line is void.  The notes are at most two, the note "动爻过多"
    is among them exactly when four or more lines are active, and the
    interpretation has between two and seven items. *)
Theorem castHexagram_trend_uncertain (tza : Z) (env : Env.t) (input : CastingInput.t)
    (r : DivinationResult.t) :
  castHexagram tza env input = Normal r ->
  let interpretation := DivinationResult.interpretation r in
  let active :=
    Z.of_nat (List.length (filter YaoState.isMoving (CastingInput.yaoStates input))) in
  let hidden_or_void :=
    match find_first (fun y => includes_pos
                                 (YongShenInfo.positions (DivinationResult.yongShen r))
                                 (YaoInfo.position y))
                     (DivinationResult.primaryYao r) with
    | Some y => YaoInfo.isVoid y
    | None => true
    end in
  (InterpretationResult.trend interpretation = TrendJudgment.uncertain
   <-> 4 <= active /\ hidden_or_void = true)
  /\ (List.length (InterpretationResult.uncertainties interpretation) <= 2)%nat
  /\ (In (Uncertainty.mk "动爻过多") (InterpretationResult.uncertainties interpretation)
      <-> 4 <= active)
  /\ (2 <= List.length (InterpretationResult.items interpretation) <= 7)%nat.
Proof.
  intros H. cbv zeta. apply castHexagram_inv in H.
  destruct H as (primaryGua & yaoInfos0 & yongShen & H). cbv zeta in H.
  destruct H as (_ & Hinst & _ & Hint & _ & _ & Hprimary & Hgzt & Hys & _ & _ & _).
  rewrite Hprimary, Hys.
  set (ganZhiTime := getGanZhiTime tza (CastingTime.gregorian (CastingInput.time input))) in *.
  destruct (pipeline_primary_lines _ _ _ (GanZhi.gan (GanZhiTime.day ganZhiTime)) ganZhiTime Hinst)
    as [Hm _].
  set (primary := analyzeAllProsperity
                    (installLiuShen yaoInfos0 (GanZhi.gan (GanZhiTime.day ganZhiTime)))
                    ganZhiTime) in *.
  clearbody primary ganZhiTime. clear Hinst Hprimary Hgzt Hys.
  apply generateInterpretation_inv in Hint.
  destruct Hint as (ysa & wr & Eys & _ & Eitems & Eunc & Etrend & _).
  destruct (analyzeYongShenStatus_note _ _ _ _ Eys) as [Hnote Hother].
  set (hv := match find_first _ primary with Some y => YaoInfo.isVoid y | None => true end) in *.
  clearbody hv.
  pose proof (filter_length_map YaoInfo.isMoving YaoState.isMoving primary
                (CastingInput.yaoStates input) Hm) as Hcount.
  set (active := List.length (filter YaoState.isMoving (CastingInput.yaoStates input))) in *.
  clearbody active.
  assert (Hrel : (List.length (analyzeRelationsImpact (analyzeRelations primary ganZhiTime)
                                 yongShen primary) <= 3)%nat).
  { unfold analyzeRelationsImpact, slice. rewrite length_map, length_firstn. lia. }
  assert (Hvoid : (List.length (option_to_list
                                  (analyzeVoidAndBroken primary yongShen ganZhiTime)) <= 1)%nat).
  { destruct (analyzeVoidAndBroken primary yongShen ganZhiTime); cbn; lia. }
  rewrite Etrend, judgeTrend_uncertain_iff, Eunc, Eitems.
  clear Etrend Eunc Eitems.
  unfold analyzeMovingYao. rewrite Hcount.
  rewrite !length_app.
  destruct (Z.of_nat active =? 0) eqn:E0;
    [apply Z.eqb_eq in E0 | apply Z.eqb_neq in E0;
     destruct (4 <=? Z.of_nat active) eqn:E4;
     [apply Z.leb_le in E4 | apply Z.leb_gt in E4]];
    cbn [fst snd option_to_list List.length];
    destruct (snd ysa) as [note |]; cbn [option_to_list List.length app] in *.
  - assert (Hh : hv = true) by (apply Hnote; discriminate).
    split; [split; [lia | intros [C _]; lia] |]. split; [lia |].
    split; [| lia]. split; [| lia].
    intros [C | []]. inversion Hother as [| ? ? Hn _]. now elim Hn.
  - split; [split; [lia | intros [C _]; lia] |]. split; [lia |].
    split; [| lia]. split; [intros [] | lia].
  - assert (Hh : hv = true) by (apply Hnote; discriminate).
    split; [split; [intros _; split; [exact E4 | exact Hh] | intros _; lia] |].
    split; [lia |]. split; [| lia].
    split; [intros _; exact E4 | intros _; right; now left].
  - assert (Hh : hv <> true) by (intros C; apply Hnote in C; now elim C).
    split; [split; [lia | intros [_ C]; now elim Hh] |].
    split; [lia |]. split; [| lia].
    split; [intros _; exact E4 | intros _; now left].
  - assert (Hh : hv = true) by (apply Hnote; discriminate).
    split; [split; [lia | intros [C _]; lia] |]. split; [lia |].
    split; [| lia]. split; [| lia].
    intros [C | []]. inversion Hother as [| ? ? Hn _]. now elim Hn.
  - split; [split; [lia | intros [C _]; lia] |]. split; [lia |].
    split; [| lia]. split; [intros [] | lia].
Qed.

Lemma castHexagram_trend_uncertain_witness :
  exists r,
    castHexagram 0 pi_env hidden_focus_input = Normal r
    /\ InterpretationResult.trend (DivinationResult.interpretation r) = TrendJudgment.uncertain
    /\ (List.length (InterpretationResult.uncertainties (DivinationResult.interpretation r))
        <= 2)%nat.
Proof.
  assert (E : exists r, castHexagram 0 pi_env hidden_focus_input = Normal r)
    by (eexists; vm_compute; reflexivity).
  destruct E as [r E]. exists r. split; [exact E |].
  pose proof (castHexagram_trend_uncertain 0 pi_env hidden_focus_input r E) as F.
  cbv zeta in F. destruct F as (F1 & F2 & _).
  split; [| exact F2]. apply (proj2 F1). clear F1 F2.
  split; [vm_compute; discriminate |].
  assert (V : Normal r = castHexagram 0 pi_env hidden_focus_input) by (now symmetry).
  vm_compute in V. apply Normal_inj in V. subst r. reflexivity.
Defined.

(** ** The table of the sixty-four hexagrams, by palace *)

Lemma GUA_64_DATA_palaces :
  Forall (fun e =>
            let g := snd e in
            1 <= GuaData.sequence g <= 64
            /\ GuaData.palace g = arr_get Qian BA_GUA_KEYS ((GuaData.sequence g - 1) / 8)
            /\ GuaData.wuXing g = BaGuaInfo.wuXing (BA_GUA_DATA (GuaData.palace g))
            /\ (GuaData.worldPosition g, GuaData.responsePosition g)
               = arr_get (0, 0) WORLD_RESPONSE_POSITIONS ((GuaData.sequence g - 1) mod 8)
            /\ (if (GuaData.sequence g - 1) mod 8 =? 0
                then GuaData.upperGua g = GuaData.palace g
                     /\ GuaData.lowerGua g = GuaData.palace g
                else GuaData.upperGua g <> GuaData.lowerGua g))
         GUA_64_DATA.
Proof.
  unfold GUA_64_DATA.
  repeat (constructor;
          [vm_compute; repeat split; try reflexivity; discriminate |]).
  constructor.
Qed.

(** X26.  The hexagram found for any lines belongs to the palace that
    its number points to (eight hexagrams per palace, in the order of
    the eight trigrams); its element is the element of the palace
    trigram, and its self and other positions are the entry of
    [WORLD_RESPONSE_POSITIONS] for its place within the palace.  The
    first hexagram of a palace is the palace trigram doubled, and no
    other hexagram has equal trigrams. *)
Theorem getGuaFromYaoStates_palace (yaoStates : list YaoState.t) (g : GuaInfo.t) :
  getGuaFromYaoStates yaoStates = Normal g ->
  1 <= GuaInfo.sequence g <= 64
  /\ GuaInfo.palace g = arr_get Qian BA_GUA_KEYS ((GuaInfo.sequence g - 1) / 8)
  /\ GuaInfo.wuXing g = BaGuaInfo.wuXing (BA_GUA_DATA (GuaInfo.palace g))
  /\ (GuaInfo.worldPosition g, GuaInfo.responsePosition g)
     = arr_get (0, 0) WORLD_RESPONSE_POSITIONS ((GuaInfo.sequence g - 1) mod 8)
  /\ (if (GuaInfo.sequence g - 1) mod 8 =? 0
      then GuaInfo.upperGua g = GuaInfo.palace g /\ GuaInfo.lowerGua g = GuaInfo.palace g
      else GuaInfo.upperGua g <> GuaInfo.lowerGua g).
Proof.
  unfold getGuaFromYaoStates. intros H.
  destruct (lookup _ GUA_64_DATA) as [guaData |] eqn:E; [| discriminate H].
  apply Normal_inj in H. subst g.
  apply lookup_In in E.
  exact (proj1 (Forall_forall _ _) GUA_64_DATA_palaces _ E).
Qed.

Lemma getGuaFromYaoStates_palace_witness :
  exists g,
    getGuaFromYaoStates pi_lines = Normal g
    /\ GuaInfo.palace g = Kun
    /\ GuaInfo.wuXing g = Tu
    /\ (GuaInfo.worldPosition g, GuaInfo.responsePosition g) = (3, 6).
Proof.
  assert (E : exists g, getGuaFromYaoStates pi_lines = Normal g)
    by (eexists; vm_compute; reflexivity).
  destruct E as [g E]. exists g. split; [exact E |].
  destruct (getGuaFromYaoStates_palace pi_lines g E) as (_ & Hp & Hw & Hwr & _).
  assert (V : Normal g = getGuaFromYaoStates pi_lines) by (now symmetry).
  vm_compute in V. apply Normal_inj in V. subst g.
  split; [exact Hp |]. split; [exact Hw | exact Hwr].
Defined.

(** ** The derived hexagrams *)

(** X27.  [getMutualGua] raises a [TypeError] on fewer than five lines
    and returns otherwise.  For six lines the mutual hexagram is found
    in the table under the key spelt by the lines 2, 3, 4, 3, 4, 5; the
    opposite hexagram is the hexagram of the opposite lines and the
    reverse hexagram is the hexagram of the lines in reverse order, both
    found in the table; reversing twice and taking the opposite twice
    give back the key of the primary hexagram. *)
Theorem derived_hexagrams (yaoStates : list YaoState.t) (s1 s2 s3 s4 s5 s6 : YaoState.t) :
  (if (List.length yaoStates <? 5)%nat
   then getMutualGua yaoStates = Throw TypeError
   else exists m, getMutualGua yaoStates = Normal m)
  /\ let lines := [s1; s2; s3; s4; s5; s6] in
     exists g m o v,
       getGuaFromYaoStates lines = Normal g
       /\ getMutualGua lines = Normal m
       /\ getGuaFromYaoStates (map opposite_line lines) = Normal o
       /\ getGuaFromYaoStates (rev lines) = Normal v
       /\ DerivedGua.binary m = key_of_lines (map YaoState.yinYang [s2; s3; s4; s3; s4; s5])
       /\ DerivedGua.data m <> None
       /\ getOppositeGua lines = derived (GuaInfo.binary o)
       /\ option_map GuaData.sequence (DerivedGua.data (getOppositeGua lines))
          = Some (GuaInfo.sequence o)
       /\ getReverseGua lines = derived (GuaInfo.binary v)
       /\ option_map GuaData.sequence (DerivedGua.data (getReverseGua lines))
          = Some (GuaInfo.sequence v)
       /\ DerivedGua.binary (getReverseGua (rev lines)) = GuaInfo.binary g
       /\ DerivedGua.binary (getOppositeGua (map opposite_line lines)) = GuaInfo.binary g.
Proof.
  split.
  - destruct yaoStates as [| a [| b [| c [| d [| e l]]]]]; cbn [List.length Nat.ltb Nat.leb];
      try reflexivity.
    eexists. reflexivity.
  - cbv zeta.
    destruct s1 as [[] ? ? ?], s2 as [[] ? ? ?], s3 as [[] ? ? ?], s4 as [[] ? ? ?],
             s5 as [[] ? ? ?], s6 as [[] ? ? ?];
      eexists; eexists; eexists; eexists;
      (split; [vm_compute; reflexivity |]);
      (split; [vm_compute; reflexivity |]);
      (split; [vm_compute; reflexivity |]);
      (split; [vm_compute; reflexivity |]);
      (split; [reflexivity |]);
      (split; [vm_compute; discriminate |]);
      (split; [reflexivity |]);
      (split; [reflexivity |]);
      (split; [reflexivity |]);
      (split; [reflexivity |]);
      split; reflexivity.
Qed.

(** ** Characters of a share code *)

(** X28.  A character of a share code other than 6, 7, 8 and 9 decodes
    to a still yin line of type "old_yin", which no casting method
    builds; the four digits decode to valid line states. *)
Theorem yaoState_of_char_other (char : ascii) :
  if existsb (Ascii.eqb char) ["6"; "7"; "8"; "9"]%char
  then valid_yaoState (yaoState_of_char char)
       /\ coinSumToYaoState (Z.of_nat (nat_of_ascii char) - 48) = Some (yaoState_of_char char)
  else yaoState_of_char char = YaoState.mk Yin false old_yin (parseInt_char char)
       /\ ~ valid_yaoState (yaoState_of_char char)
       /\ (forall sum, coinSumToYaoState sum <> Some (yaoState_of_char char))
       /\ (forall yinYang isMoving,
              createManualYaoState yinYang isMoving <> yaoState_of_char char).
Proof.
  destruct char as [b0 b1 b2 b3 b4 b5 b6 b7].
  destruct b0, b1, b2, b3, b4, b5, b6, b7;
    match goal with
    | |- if ?b then _ else _ =>
        let v := eval vm_compute in b in change b with v; cbv iota
    end;
    match goal with
    | |- context [yaoState_of_char ?c] =>
        let v := eval vm_compute in (yaoState_of_char c) in
        change (yaoState_of_char c) with v
    end;
    try (split; [split; [reflexivity | split; [reflexivity | right; reflexivity]]
                | reflexivity]);
    (split; [vm_compute; reflexivity |]);
    (split; [intros (_ & C & _); discriminate C |]);
    (split; [intros sum; unfold coinSumToYaoState;
             repeat match goal with
                    | |- context [sum =? ?n] => destruct (sum =? n); [discriminate |]
                    end; discriminate
            | intros [] []; discriminate]).
Qed.

(** ** The store: coins, lines and the casting *)

Lemma list_ind3 {A : Type} (P : list A -> Prop) :
  P [] -> (forall a, P [a]) -> (forall a b, P [a; b]) ->
  (forall a b c l, P l -> P (a :: b :: c :: l)) ->
  forall l, P l.
Proof.
  intros H0 H1 H2 H3 l.
  assert (H : P l /\ (forall a, P (a :: l)) /\ (forall a b, P (a :: b :: l))).
  { induction l as [| x l (IH0 & IH1 & IH2)].
    - split; [exact H0 |]. split; [exact H1 | exact H2].
    - split; [apply IH1 |]. split; [intros a; apply IH2 |].
      intros a b. apply H3. exact IH0. }
  exact (proj1 H).
Qed.

Lemma length_lines_of_coins (coins : list Z) :
  List.length (lines_of_coins coins) = (List.length coins / 3)%nat.
Proof.
  induction coins as [| a | a b | a b c l IH] using list_ind3; try reflexivity.
  cbn [lines_of_coins List.length]. rewrite IH.
  replace (S (S (S (List.length l)))) with (List.length l + 1 * 3)%nat by lia.
  rewrite (Nat.div_add (List.length l) 1 3) by discriminate. lia.
Qed.

Lemma lines_of_coins_snoc (coins : list Z) (c : Z) :
  lines_of_coins (coins ++ [c])
  = if jsmod (Z.of_nat (List.length (coins ++ [c]))) 3 =? 0
    then lines_of_coins coins
         ++ [coinResultToYaoState
               (fold_left Z.add (skipn (List.length (coins ++ [c]) - 3) (coins ++ [c])) 0)]
    else lines_of_coins coins.
Proof.
  induction coins as [| a | a b | a b c0 l IH] using list_ind3; try reflexivity.
  change ((a :: b :: c0 :: l) ++ [c]) with (a :: b :: c0 :: (l ++ [c])).
  cbn [lines_of_coins]. rewrite IH. clear IH.
  set (rest := l ++ [c]).
  assert (Hpos : (1 <= List.length rest)%nat)
    by (unfold rest; rewrite length_app; cbn; lia).
  cbn [List.length].
  assert (Em : jsmod (Z.of_nat (S (S (S (List.length rest))))) 3
               = jsmod (Z.of_nat (List.length rest)) 3).
  { unfold jsmod. div_lia. }
  rewrite Em.
  destruct (jsmod (Z.of_nat (List.length rest)) 3 =? 0) eqn:E; [| reflexivity].
  apply Z.eqb_eq in E.
  assert (H3 : (3 <= List.length rest)%nat) by (unfold jsmod in E; div_lia).
  replace (S (S (S (List.length rest))) - 3)%nat
    with (S (S (S (List.length rest - 3)))) by lia.
  cbn [skipn app]. reflexivity.
Qed.

Lemma addCoinResult_coins (s : DivinationState.t) (coins : list Z) :
  let s' := fold_left addCoinResult coins (reset s) in
  DivinationState.coinResults s' = coins
  /\ DivinationState.yaoStates s' = lines_of_coins coins
  /\ DivinationState.currentYaoIndex s' = Z.of_nat (List.length (lines_of_coins coins))
  /\ DivinationState.result s' = None
  /\ DivinationState.method s' = DivinationState.method s
  /\ DivinationState.questionCategory s' = DivinationState.questionCategory s.
Proof.
  cbv zeta. induction coins as [| c coins IH] using rev_ind.
  - cbn. repeat split.
  - rewrite fold_left_app. cbn [fold_left].
    set (s1 := fold_left addCoinResult coins (reset s)) in *. clearbody s1.
    destruct IH as (Ec & Ey & Ei & Er & Em & Eq).
    unfold addCoinResult. rewrite Ec, Ey, Ei. rewrite lines_of_coins_snoc.
    destruct (jsmod (Z.of_nat (List.length (coins ++ [c]))) 3 =? 0);
      cbn [set_coins DivinationState.coinResults DivinationState.yaoStates
           DivinationState.currentYaoIndex DivinationState.result
           DivinationState.method DivinationState.questionCategory];
      (split; [reflexivity |]); (split; [reflexivity |]);
      (split; [| split; [exact Er | split; [exact Em | exact Eq]]]).
    + rewrite length_app. cbn [List.length]. lia.
    + reflexivity.
Qed.

Lemma lines_of_coins_defined (coins : list Z) :
  Forall (fun c => c = 2 \/ c = 3) coins ->
  exists l, defined_lines (lines_of_coins coins) = Normal l
            /\ List.length l = List.length (lines_of_coins coins)
            /\ Forall valid_yaoState l.
Proof.
  induction coins as [| a | a b | a b c l IH] using list_ind3; intros H.
  - exists []. split; [reflexivity |]. split; [reflexivity | constructor].
  - exists []. split; [reflexivity |]. split; [reflexivity | constructor].
  - exists []. split; [reflexivity |]. split; [reflexivity | constructor].
  - inversion H as [| ? ? Ha H1]; subst. inversion H1 as [| ? ? Hb H2]; subst.
    inversion H2 as [| ? ? Hc H3]; subst.
    destruct (IH H3) as (l' & El & Hl & Hv).
    cbn [lines_of_coins defined_lines].
    destruct Ha as [-> | ->], Hb as [-> | ->], Hc as [-> | ->];
      cbn [fold_left Z.add Pos.add Pos.succ coinSumToYaoState Z.eqb Pos.eqb];
      rewrite El; cbn [bind]; eexists;
      (split; [reflexivity |]); (split; [cbn [List.length]; now rewrite Hl |]);
      (constructor; [| exact Hv]);
      (split; [reflexivity | split; [reflexivity | right; reflexivity]]).
Qed.

Lemma six_lines_coins (n : nat) :
  Nat.eqb (n / 3) 6 = (18 <=? n)%nat && (n <=? 20)%nat.
Proof.
  destruct (Nat.eqb_spec (n / 3) 6) as [E | E];
    destruct (Nat.leb_spec 18 n) as [H1 | H1];
    destruct (Nat.leb_spec n 20) as [H2 | H2]; cbn [andb]; try reflexivity; exfalso;
    pose proof (Nat.div_mod_eq n 3) as D;
    pose proof (Nat.mod_upper_bound n 3 ltac:(discriminate)) as M; lia.
Qed.

(** X29.  Coins of value 2 or 3 added one by one to a store that was
    reset are all recorded; every third coin closes one line, the one
    that [coinSumToYaoState] builds from the sum of the last three, and
    the line counter is the number of closed lines.  With eighteen,
    nineteen or twenty coins, which close six lines, [performDivination]
    (at a current time at least one day inside the range of time values)
    casts the six lines and stores the result; with fewer than eighteen
    or more than twenty coins it leaves the store as it is. *)
Theorem store_coins_to_result (tza : Z) (env : Env.t) (now : Date) (timezone : string)
    (s0 : DivinationState.t) (coins : list Z) :
  inside_range tza now ->
  Forall (fun c => c = 2 \/ c = 3) coins ->
  let s := fold_left addCoinResult coins (reset s0) in
  DivinationState.coinResults s = coins
  /\ DivinationState.yaoStates s = lines_of_coins coins
  /\ DivinationState.currentYaoIndex s = Z.of_nat (List.length coins / 3)
  /\ Forall (fun y => exists line, y = Some line /\ valid_yaoState line)
            (DivinationState.yaoStates s)
  /\ if (18 <=? List.length coins)%nat && (List.length coins <=? 20)%nat
     then exists lines r,
            defined_lines (DivinationState.yaoStates s) = Normal lines
            /\ List.length lines = 6%nat
            /\ castHexagram tza env
                 (CastingInput.mk (DivinationState.method s0) lines
                    (createCastingTime tza now timezone)
                    (DivinationState.questionCategory s0) None None) = Normal r
            /\ performDivination tza env now timezone s = Normal (set_result s (Some r))
     else performDivination tza env now timezone s = Normal s.
Proof.
  intros _ Hcoins. cbv zeta.
  destruct (addCoinResult_coins s0 coins) as (Ec & Ey & Ei & _ & Em & Eq).
  set (s := fold_left addCoinResult coins (reset s0)) in *. clearbody s.
  destruct (lines_of_coins_defined coins Hcoins) as (lines & El & Hl & Hv).
  pose proof (length_lines_of_coins coins) as Hlen.
  split; [exact Ec |]. split; [exact Ey |].
  split; [rewrite Ei, Hlen; reflexivity |].
  split.
  { rewrite Ey. clear - El Hv. revert lines El Hv.
    induction (lines_of_coins coins) as [| y ys IH]; intros lines El Hv; [constructor |].
    destruct y as [line |]; [| discriminate El].
    cbn [defined_lines] in El.
    destruct (defined_lines ys) as [ls | e] eqn:E; [| discriminate El].
    cbn [bind] in El. apply Normal_inj in El. subst lines.
    inversion Hv as [| ? ? Hline Hrest]; subst.
    constructor; [exists line; split; [reflexivity | exact Hline] |].
    exact (IH ls eq_refl Hrest). }
  unfold performDivination. rewrite Ey, Hlen.
  rewrite <- six_lines_coins.
  destruct (Nat.eqb (List.length coins / 3) 6) eqn:E6.
  - apply Nat.eqb_eq in E6. rewrite E6. cbn [Z.of_nat Z.eqb Pos.of_succ_nat Pos.succ Pos.eqb negb].
    rewrite El. cbn [bind]. rewrite Em, Eq.
    assert (L6 : List.length lines = 6%nat) by (rewrite Hl, Hlen; exact E6).
    destruct (castHexagram_total tza env
                (CastingInput.mk (DivinationState.method s0) lines
                   (createCastingTime tza now timezone)
                   (DivinationState.questionCategory s0) None None) L6) as [r Er].
    exists lines, r. split; [reflexivity |]. split; [exact L6 |]. split; [exact Er |].
    rewrite Er. reflexivity.
  - apply Nat.eqb_neq in E6.
    destruct (Z.of_nat (List.length coins / 3) =? 6) eqn:E; [| reflexivity].
    apply Z.eqb_eq in E. lia.
Qed.

Lemma store_coins_to_result_witness :
  inside_range 0 pi_time
  /\ exists r,
       performDivination 0 pi_env pi_time "UTC"
         (fold_left addCoinResult eighteen_coins (reset initialState))
       = Normal (set_result (fold_left addCoinResult eighteen_coins (reset initialState))
                            (Some r))
       /\ DivinationState.currentYaoIndex
            (fold_left addCoinResult eighteen_coins (reset initialState)) = 6.
Proof.
  assert (R : inside_range 0 pi_time) by (vm_compute; repeat split; discriminate).
  assert (H : Forall (fun c => c = 2 \/ c = 3) eighteen_coins)
    by (unfold eighteen_coins; repeat (constructor; [lia |]); constructor).
  pose proof (store_coins_to_result 0 pi_env pi_time "UTC" initialState eighteen_coins R H) as F.
  cbv zeta in F. destruct F as (_ & _ & Fi & _ & F).
  change ((18 <=? List.length eighteen_coins)%nat && (List.length eighteen_coins <=? 20)%nat)
    with true in F.
  cbv iota in F.
  destruct F as (lines & r & _ & _ & _ & Fp).
  split; [exact R |].
  exists r. split; [exact Fp | exact Fi].
Defined.
